(** * Relevance evaluation pipeline of reddit-content-analyzer

    A shallow embedding of [api/internal/services] (the relevance service,
    the mapper and the similarity function) together with the data shapes of
    [api/internal/contracts], [api/internal/infra/reddit] and
    [api/internal/infra/llm], and the properties of the pipeline proved over
    it.

    Conventions of the embedding:
    - Go [float64] is Rocq's primitive binary64 [float]; a [float32] element
      of an embedding is held as the binary64 value it converts to exactly.
    - Go [int] is [Z]; no arithmetic is done on those fields.
    - A Go result pair [(v, err)] is a pair [(v, option error)]; a pointer
      that may be [nil] is an [option].
    - Slices are lists; a nil slice and an empty slice are both [[]].
    - Calls to the logger only write log lines and are left out. *)

From Stdlib Require Import List String Ascii ZArith Bool Lia Floats DecimalString.
Import ListNotations.

Local Open Scope string_scope.
Local Open Scope list_scope.

(* ------------------------------------------------------------------ *)
(** ** Errors ([github.com/pkg/errors]) *)

Module errors.

(** An error value: a root cause with the contexts wrapped around it. *)
Inductive error : Type :=
| New (msg : string)
| Wrap (cause : error) (msg : string).

(** [err.Error()]: each wrapper prints its context, a colon and the cause. *)
Fixpoint Error (e : error) : string :=
  match e with
  | New msg => msg
  | Wrap cause msg => msg ++ ": " ++ Error cause
  end.

(** The contexts wrapped around the root cause, outermost first. *)
Fixpoint contexts (e : error) : list string :=
  match e with
  | New _ => []
  | Wrap cause msg => msg :: contexts cause
  end.

End errors.
Export errors.

(* ------------------------------------------------------------------ *)
(** ** Text helpers ([fmt], [strings]) *)

Module fmt.

Definition dquote : string := String (ascii_of_nat 34) EmptyString.
Definition nl : string := String (ascii_of_nat 10) EmptyString.
Definition tab : string := String (ascii_of_nat 9) EmptyString.

(** [strings.Contains(s, sub)], as [assert.Contains] uses it on messages. *)
Fixpoint Contains (s sub : string) : bool :=
  if prefix sub s then true
  else match s with
       | EmptyString => false
       | String _ rest => Contains rest sub
       end.

(** Whether a text and a phrase agree as far as both go, and whether a
    phrase starts at no position of a text, however the text goes on: at
    every position the two differ before either ends. *)
Fixpoint agree (q sub : string) : bool :=
  match q, sub with
  | String a q', String b sub' => Ascii.eqb a b && agree q' sub'
  | _, _ => true
  end.

Fixpoint clear (p sub : string) : bool :=
  match p with
  | EmptyString => true
  | String _ p' => negb (agree p sub) && clear p' sub
  end.

(** The verb [%t]. *)
Definition verb_t (b : bool) : string := if b then "true" else "false".

(** Decimal digits of a non-negative integer. *)
Definition digits (z : Z) : string := NilZero.string_of_uint (N.to_uint (Z.to_N z)).

Fixpoint zeros (n : nat) : string :=
  match n with
  | O => EmptyString
  | S k => "0" ++ zeros k
  end.

(** A non-negative count of millionths printed as [int.frac] with six
    fractional digits. *)
Definition fixed6 (q : Z) : string :=
  let frac := digits (q mod 1000000) in
  digits (q / 1000000) ++ "." ++ zeros (6 - String.length frac) ++ frac.

(** The verb [%f] on a [float64]: six fractional digits, the exact binary
    value rounded to nearest with ties to even; [NaN], [+Inf] and [-Inf]
    for the special values. *)
Definition verb_f (x : float) : string :=
  match Prim2SF x with
  | S754_nan => "NaN"
  | S754_infinity false => "+Inf"
  | S754_infinity true => "-Inf"
  | S754_zero s => (if s then "-" else "") ++ fixed6 0
  | S754_finite s m e =>
      let q :=
        if (0 <=? e)%Z then (Zpos m * 2 ^ e * 1000000)%Z
        else
          let num := (Zpos m * 1000000)%Z in
          let den := (2 ^ (- e))%Z in
          let q0 := (num / den)%Z in
          let r := (num mod den)%Z in
          if (den <? 2 * r)%Z then (q0 + 1)%Z
          else if ((2 * r =? den)%Z && Z.odd q0)%bool then (q0 + 1)%Z
          else q0 in
      (if s then "-" else "") ++ fixed6 q
  end.

End fmt.

(* ------------------------------------------------------------------ *)
(** ** [time] *)

Module time.

(** An instant, as seconds and nanoseconds from the Unix epoch. *)
Record Time : Type := { sec : Z; nsec : Z }.

Definition Unix (s ns : Z) : Time := {| sec := s; nsec := ns |}.

(** The conversion [int64(f)] of a [float64]: truncation toward zero.  For
    a value outside the range of [int64] (and for NaN and the infinities)
    Go leaves the result to the implementation; this is the amd64 value. *)
Definition int64_of_float64 (f : float) : Z :=
  match Prim2SF f with
  | S754_zero _ => 0%Z
  | S754_finite s m e =>
      let mag := if (0 <=? e)%Z then Z.shiftl (Zpos m) e
                 else Z.shiftr (Zpos m) (- e) in
      let v := if s then (- mag)%Z else mag in
      if ((- 2 ^ 63 <=? v)%Z && (v <? 2 ^ 63)%Z)%bool then v else (- 2 ^ 63)%Z
  | _ => (- 2 ^ 63)%Z
  end.

End time.

(* ------------------------------------------------------------------ *)
(** ** Reddit API response structures ([infra/reddit/dto.go]) *)

Module reddit.

Record RedditPostData : Type := {
  Title : string;
  Selftext : string;
  URL : string;
  Score : Z;
  NumComments : Z;
  CreatedUTC : float;
  Permalink : string;
  Stickied : bool
}.

Record RedditChild : Type := { ChildData : RedditPostData }.

Record RedditData : Type := { Children : list RedditChild }.

Record RedditResponse : Type := { Data : RedditData }.

End reddit.

(* ------------------------------------------------------------------ *)
(** ** Request and response shapes ([contracts/relevancerespdto.go]) *)

Module contracts.

Record SubRedditPostDto : Type := {
  SubredditName : string;
  Title : string;
  Content : string;
  Url : string;
  Score : Z;
  NumComments : Z;
  CreatedAt : time.Time;
  IsRelevant : bool;
  RelevanceScore : float;
  RelevanceSummary : string
}.

Record RelevanceResponseDto : Type := { Posts : list SubRedditPostDto }.

(** [type SearchMethod string]: any string inhabits it; the two constants
    are the values the HTTP binding lets through. *)
Definition SearchMethod : Type := string.
Definition SearchMethodSearch : SearchMethod := "search".
Definition SearchMethodLatest : SearchMethod := "latest".

Record RelevanceRequestDto : Type := {
  Topic : string;
  Subreddits : list string;
  RelevanceThreshold : float;
  Limit : Z;
  CreatedAfter : time.Time;
  MinNumComments : Z;
  SearchMethod_ : SearchMethod
}.

End contracts.

(* ------------------------------------------------------------------ *)
(** ** The LLM client interface ([infra/llm/client.go]) *)

Module llm.

Record Message : Type := { Role : string; Content : string }.

(** [ClientInterface]: the two operations, each acting on the state [W] of
    the world outside the process and returning a Go result pair. *)
Record ClientInterface (Ctx W : Type) : Type := {
  GetEmbedding : Ctx -> string -> W -> (list float * option error) * W;
  Chat : Ctx -> list Message -> W -> (string * option error) * W
}.
Arguments GetEmbedding {Ctx W}.
Arguments Chat {Ctx W}.

End llm.

(* ------------------------------------------------------------------ *)
(** ** The services package ([api/internal/services]) *)

Module services.

Import reddit contracts llm.
Local Open Scope float_scope.

(** *** Similarity function *)

(** One pass over two vectors of the same length: the running dot product
    and the two running sums of squares, in [float64]. *)
Fixpoint accumulate (a b : list float) (dot normA normB : float)
  : float * float * float :=
  match a, b with
  | x :: a', y :: b' =>
      accumulate a' b' (dot + x * y) (normA + x * x) (normB + y * y)
  | _, _ => (dot, normA, normB)
  end.

(** Modelled from the spec: [cossimilarity.go], the file that defines
    [CosineSimilarity], is not among the sources (only its test file and its
    caller are).  The definition follows section 4.1 of the specification:
    [0.0] for vectors of different lengths, [0.0] when either magnitude is
    zero, and otherwise the dot product over the product of the two
    magnitudes. *)
Definition CosineSimilarity (a b : list float) : float :=
  if negb (Nat.eqb (List.length a) (List.length b)) then 0
  else
    let '(dot, normA, normB) := accumulate a b 0 0 0 in
    if (normA =? 0) || (normB =? 0) then 0
    else dot / (sqrt normA * sqrt normB).

(** The terms of section 4.1, each as a sum of its own: the dot product,
    and the magnitude as the square root of the sum of squares. *)
Definition dot (a b : list float) : float :=
  fold_left (fun acc xy => acc + fst xy * snd xy) (combine a b) 0.

Definition sumSquares (a : list float) : float :=
  fold_left (fun acc x => acc + x * x) a 0.

Definition magnitude (a : list float) : float := sqrt (sumSquares a).

(** An element that is zero, of either sign. *)
Definition isZero (x : float) : Prop := (x =? 0) = true.

(** *** The Reddit service interface ([redditsvc.go]) *)

Record RedditService (W : Type) : Type := {
  GetPosts : string -> Z -> W -> (option RedditResponse * option error) * W;
  SearchPosts :
    string -> string -> Z -> W -> (option RedditResponse * option error) * W
}.
Arguments GetPosts {W}.
Arguments SearchPosts {W}.

(** *** Mapper ([mapper.go]) *)

Definition MapRedditResponseToSubredditPostDto
    (post : RedditChild) (subredditName : string) (relevanceScore : float)
    (isRelevant : bool) (relevanceSummary : string) : SubRedditPostDto :=
  {| SubredditName := subredditName;
     contracts.Title := reddit.Title (ChildData post);
     contracts.Content := Selftext (ChildData post);
     Url := URL (ChildData post);
     contracts.Score := reddit.Score (ChildData post);
     contracts.NumComments := reddit.NumComments (ChildData post);
     CreatedAt :=
       time.Unix (time.int64_of_float64 (CreatedUTC (ChildData post))) 0;
     IsRelevant := isRelevant;
     RelevanceScore := relevanceScore;
     RelevanceSummary := relevanceSummary |}.

(** *** Calls to the collaborators, and the monad that records them *)

(** The place a [GetEmbedding] call is issued from: the topic embedding of
    [GetRelevantPosts] or the item embedding of [getRelevanceScore]. *)
Inductive CallSite : Type := TopicEmbedding | ItemEmbedding.

(** One call to a collaborator, with its arguments and what it returned. *)
Inductive Event : Type :=
| EvGetEmbedding (site : CallSite) (text : string)
    (res : list float * option error)
| EvChat (messages : list Message) (res : string * option error)
| EvSearchPosts (subreddit query : string) (limit : Z)
    (res : option RedditResponse * option error)
| EvGetPosts (subreddit : string) (limit : Z)
    (res : option RedditResponse * option error).

(** How a Go function ends: it returns, or the goroutine panics. *)
Inductive Res (A : Type) : Type :=
| Done (a : A)
| Panic.
Arguments Done {A}.
Arguments Panic {A}.

(** The error a call returned, if any. *)
Definition eventError (ev : Event) : option error :=
  match ev with
  | EvGetEmbedding _ _ (_, err) => err
  | EvChat _ (_, err) => err
  | EvSearchPosts _ _ _ (_, err) => err
  | EvGetPosts _ _ (_, err) => err
  end.

Definition failed (ev : Event) : bool :=
  match eventError ev with
  | Some _ => true
  | None => false
  end.

(** A retrieval call that returned a nil response and a nil error. *)
Definition nilResponse (ev : Event) : bool :=
  match ev with
  | EvSearchPosts _ _ _ (None, None) | EvGetPosts _ _ (None, None) => true
  | _ => false
  end.

(** What a call retrieved: for a retrieval call that returned a response
    and no error, the subreddit asked for and the items returned. *)
Definition retrieved (ev : Event) : list (string * list RedditChild) :=
  match ev with
  | EvSearchPosts subreddit _ _ (Some resp, None)
  | EvGetPosts subreddit _ (Some resp, None) =>
      [(subreddit, Children (Data resp))]
  | _ => []
  end.

Definition retrievals (evs : list Event) : list (string * list RedditChild) :=
  flat_map retrieved evs.

(** The number of items retrieved over all the sources. *)
Definition itemsRetrieved (evs : list Event) : nat :=
  list_sum (map (fun r => List.length (snd r)) (retrievals evs)).

(** The items of one retrieval, each paired with its source identifier. *)
Definition tagged (r : string * list RedditChild)
  : list (string * RedditChild) :=
  map (pair (fst r)) (snd r).

(** [dto] is the output element of the item [post] retrieved from
    [subreddit]. *)
Definition carries (item : string * RedditChild) (dto : SubRedditPostDto)
  : Prop :=
  SubredditName dto = fst item /\
  dto = MapRedditResponseToSubredditPostDto (snd item) (fst item)
          (RelevanceScore dto) (IsRelevant dto) (RelevanceSummary dto).

(** [dto] is classified against [threshold] by [score >= threshold]. *)
Definition classified (threshold : float) (dto : SubRedditPostDto) : Prop :=
  IsRelevant dto = (threshold <=? RelevanceScore dto).

(** The texts for which the topic embedding was requested. *)
Definition topicRequests (evs : list Event) : list string :=
  flat_map (fun ev => match ev with
                      | EvGetEmbedding TopicEmbedding text _ => [text]
                      | _ => []
                      end) evs.

(** The texts for which an item embedding was requested. *)
Definition itemRequests (evs : list Event) : list string :=
  flat_map (fun ev => match ev with
                      | EvGetEmbedding ItemEmbedding text _ => [text]
                      | _ => []
                      end) evs.

Definition isRetrieval (ev : Event) : bool :=
  match ev with
  | EvSearchPosts _ _ _ _ | EvGetPosts _ _ _ => true
  | _ => false
  end.

(** The items retrieved over all the sources, in order. *)
Definition retrievedItems (evs : list Event) : list RedditChild :=
  flat_map snd (retrievals evs).

(** Some context wrapped around the cause of [e] mentions [stage]. *)
Definition hasContext (e : error) (stage : string) : bool :=
  existsb (fun msg => fmt.Contains msg stage) (contexts e).

(** The search method is one of the two constants. *)
Definition validSearchMethod (request : RelevanceRequestDto) : Prop :=
  SearchMethod_ request = SearchMethodSearch \/
  SearchMethod_ request = SearchMethodLatest.

Section Service.

Context {Ctx W : Type}.

(** A computation: from a state of the world to how it ends, the calls it
    made in order, and the state of the world afterwards. *)
Definition M (A : Type) : Type := W -> Res A * list Event * W.

Definition ret {A} (a : A) : M A := fun w => (Done a, [], w).

Definition bind {A B} (m : M A) (k : A -> M B) : M B :=
  fun w =>
    match m w with
    | (Done a, evs, w1) =>
        let '(r, evs', w2) := k a w1 in (r, evs ++ evs', w2)
    | (Panic, evs, w1) => (Panic, evs, w1)
    end.

(** A nil pointer dereference. *)
Definition nil_dereference {A} : M A := fun w => (Panic, [], w).

Notation "x <- m ;; k" := (bind m (fun x => k))
  (at level 61, m at next level, right associativity).
Notation "' pat <- m ;; k" := (bind m (fun x => match x with pat => k end))
  (at level 61, pat pattern, m at next level, right associativity).

(** [type relevanceService struct]. *)
Record relevanceService : Type := {
  llmClient : ClientInterface Ctx W;
  redditService : RedditService W
}.

Variable s : relevanceService.

Definition callGetEmbedding (site : CallSite) (ctx : Ctx) (text : string)
  : M (list float * option error) :=
  fun w =>
    let '(res, w') := GetEmbedding (llmClient s) ctx text w in
    (Done res, [EvGetEmbedding site text res], w').

Definition callChat (ctx : Ctx) (messages : list Message)
  : M (string * option error) :=
  fun w =>
    let '(res, w') := Chat (llmClient s) ctx messages w in
    (Done res, [EvChat messages res], w').

Definition callSearchPosts (subreddit query : string) (limit : Z)
  : M (option RedditResponse * option error) :=
  fun w =>
    let '(res, w') := SearchPosts (redditService s) subreddit query limit w in
    (Done res, [EvSearchPosts subreddit query limit res], w').

Definition callGetPosts (subreddit : string) (limit : Z)
  : M (option RedditResponse * option error) :=
  fun w =>
    let '(res, w') := GetPosts (redditService s) subreddit limit w in
    (Done res, [EvGetPosts subreddit limit res], w').

(** *** The relevance service ([relevancesvc.go]) *)

Definition getRelevanceScore (ctx : Ctx) (title content : string)
    (topicEmbedding : list float) : M (float * option error) :=
  let text := (title ++ ". " ++ content)%string in
  '(embedding, err) <- callGetEmbedding ItemEmbedding ctx text ;;
  match err with
  | Some e => ret (0, Some (Wrap e "error getting embedding"))
  | None =>
      let cosineSimilarity := CosineSimilarity embedding topicEmbedding in
      ret (cosineSimilarity, None)
  end.

(** The prompt of [getRelevanceSummary]: the raw string literal with its
    six verbs filled in. *)
Definition summaryPrompt (title content topic : string)
    (relevanceThreshold relevanceScore : float) (isRelevant : bool)
  : string :=
  let nl := fmt.nl in
  let tab := fmt.tab in
  let q := fmt.dquote in
  ("Given the following title, content, and topic, generate an explanation of the relevance of the content to the topic. The explanation should be a single sentence." ++ nl
   ++ tab ++ nl
   ++ tab ++ "# Topic: " ++ q ++ topic ++ q ++ nl
   ++ tab ++ "# Relevance Threshold: " ++ fmt.verb_f relevanceThreshold ++ nl
   ++ tab ++ "# Is Relevant: " ++ fmt.verb_t isRelevant ++ nl
   ++ tab ++ "# Relevance Score: " ++ fmt.verb_f relevanceScore ++ nl
   ++ nl
   ++ tab ++ "Reddit Post:" ++ nl
   ++ nl
   ++ tab ++ "# Title: " ++ q ++ title ++ q ++ nl
   ++ tab ++ "# Content: " ++ nl
   ++ tab ++ content ++ nl
   ++ tab)%string.

Definition getRelevanceSummary (ctx : Ctx) (title content topic : string)
    (relevanceThreshold relevanceScore : float) (isRelevant : bool)
  : M (string * option error) :=
  let prompt :=
    summaryPrompt title content topic relevanceThreshold relevanceScore
      isRelevant in
  '(response, err) <-
     callChat ctx [ {| Role := "user"; llm.Content := prompt |} ] ;;
  match err with
  | Some e => ret ("", Some (Wrap e "error getting chat response"))%string
  | None => ret (response, None)
  end.

(** The [for _, post := range ...Children] loop of
    [evaluateSubredditPosts], with the slice built so far.  Go's
    [relevanceScore >= relevanceThreshold] is the IEEE comparison
    [relevanceThreshold <=? relevanceScore], false when either is a NaN. *)
Fixpoint evaluatePosts (ctx : Ctx) (subredditName : string)
    (children : list RedditChild) (topic : string)
    (topicEmbedding : list float) (relevanceThreshold : float)
    (subredditPostDtos : list SubRedditPostDto)
  : M (list SubRedditPostDto * option error) :=
  match children with
  | [] => ret (subredditPostDtos, None)
  | post :: rest =>
      let title := reddit.Title (ChildData post) in
      let selftext := Selftext (ChildData post) in
      '(relevanceScore, err) <-
         getRelevanceScore ctx title selftext topicEmbedding ;;
      match err with
      | Some e => ret ([], Some (Wrap e "error getting relevance score"))
      | None =>
          let isRelevant := relevanceThreshold <=? relevanceScore in
          '(relevanceSummary, err) <-
             getRelevanceSummary ctx title selftext topic
               relevanceThreshold relevanceScore isRelevant ;;
          match err with
          | Some e =>
              ret ([], Some (Wrap e "error getting relevance summary"))
          | None =>
              let postDto :=
                MapRedditResponseToSubredditPostDto post subredditName
                  relevanceScore isRelevant relevanceSummary in
              evaluatePosts ctx subredditName rest topic topicEmbedding
                relevanceThreshold (subredditPostDtos ++ [postDto])
          end
      end
  end.

(** [subredditPosts] is a pointer: ranging over [subredditPosts.Data.Children]
    dereferences it. *)
Definition evaluateSubredditPosts (ctx : Ctx) (subredditName : string)
    (subredditPosts : option RedditResponse) (topic : string)
    (topicEmbedding : list float) (relevanceThreshold : float)
  : M (list SubRedditPostDto * option error) :=
  match subredditPosts with
  | None => nil_dereference
  | Some resp =>
      evaluatePosts ctx subredditName (Children (Data resp)) topic
        topicEmbedding relevanceThreshold []
  end.

(** The [switch request.SearchMethod] of [GetRelevantPosts]: it has no
    default case, so any other value leaves [subredditPosts] nil and the
    error unset. *)
Definition retrieve (request : RelevanceRequestDto) (subreddit : string)
  : M (option RedditResponse * option error) :=
  if String.eqb (SearchMethod_ request) SearchMethodSearch then
    callSearchPosts subreddit (Topic request) (Limit request)
  else if String.eqb (SearchMethod_ request) SearchMethodLatest then
    callGetPosts subreddit (Limit request)
  else ret (None, None).

Definition emptyResponse : RelevanceResponseDto := {| Posts := [] |}.

(** The [for _, subreddit := range request.Subreddits] loop of
    [GetRelevantPosts], with the slice built so far. *)
Fixpoint evaluateSubreddits (ctx : Ctx) (request : RelevanceRequestDto)
    (subreddits : list string) (topicEmbedding : list float)
    (subredditPostDtos : list SubRedditPostDto)
  : M (RelevanceResponseDto * option error) :=
  match subreddits with
  | [] => ret ({| Posts := subredditPostDtos |}, None)
  | subreddit :: rest =>
      '(subredditPosts, err) <- retrieve request subreddit ;;
      match err with
      | Some e =>
          ret (emptyResponse, Some (Wrap e "error getting subreddit posts"))
      | None =>
          '(evalSubredditPostDtos, err) <-
             evaluateSubredditPosts ctx subreddit subredditPosts
               (Topic request) topicEmbedding (RelevanceThreshold request) ;;
          match err with
          | Some e =>
              ret (emptyResponse,
                   Some (Wrap e "error evaluating subreddit posts"))
          | None =>
              evaluateSubreddits ctx request rest topicEmbedding
                (subredditPostDtos ++ evalSubredditPostDtos)
          end
      end
  end.

Definition GetRelevantPosts (ctx : Ctx) (request : RelevanceRequestDto)
  : M (RelevanceResponseDto * option error) :=
  '(topicEmbedding, err) <-
     callGetEmbedding TopicEmbedding ctx (Topic request) ;;
  match err with
  | Some e =>
      ret (emptyResponse, Some (Wrap e "error getting topic embedding"))
  | None =>
      evaluateSubreddits ctx request (Subreddits request) topicEmbedding []
  end.

End Service.

(** *** Runs of the two loops, as relations

    [posts_run] and [subreddits_run] describe, without the state of the
    world, what a run of each loop returns and the calls it makes.  The
    functions above are shown to produce only such runs; the properties of
    the pipeline are then proved by induction on the runs. *)

Definition itemText (post : RedditChild) : string :=
  (reddit.Title (ChildData post) ++ ". " ++ Selftext (ChildData post))%string.

Definition summaryMessage (post : RedditChild) (topic : string)
    (relevanceThreshold relevanceScore : float) : Message :=
  {| Role := "user";
     llm.Content :=
       summaryPrompt (reddit.Title (ChildData post)) (Selftext (ChildData post))
         topic relevanceThreshold relevanceScore
         (relevanceThreshold <=? relevanceScore) |}.

Inductive posts_run (subredditName topic : string)
    (topicEmbedding : list float) (threshold : float)
  : list RedditChild -> list SubRedditPostDto ->
    list SubRedditPostDto * option error -> list Event -> Prop :=
| posts_done acc :
    posts_run subredditName topic topicEmbedding threshold [] acc (acc, None) []
| posts_embedding_failed post rest acc emb e :
    posts_run subredditName topic topicEmbedding threshold (post :: rest) acc
      ([], Some (Wrap (Wrap e "error getting embedding")
                   "error getting relevance score"))
      [EvGetEmbedding ItemEmbedding (itemText post) (emb, Some e)]
| posts_summary_failed post rest acc emb resp e :
    posts_run subredditName topic topicEmbedding threshold (post :: rest) acc
      ([], Some (Wrap (Wrap e "error getting chat response")
                   "error getting relevance summary"))
      [EvGetEmbedding ItemEmbedding (itemText post) (emb, None);
       EvChat [summaryMessage post topic threshold
                 (CosineSimilarity emb topicEmbedding)] (resp, Some e)]
| posts_next post rest acc emb summary out evs :
    posts_run subredditName topic topicEmbedding threshold rest
      (acc ++ [MapRedditResponseToSubredditPostDto post subredditName
                 (CosineSimilarity emb topicEmbedding)
                 (threshold <=? CosineSimilarity emb topicEmbedding)
                 summary])
      out evs ->
    posts_run subredditName topic topicEmbedding threshold (post :: rest) acc
      out
      (EvGetEmbedding ItemEmbedding (itemText post) (emb, None)
       :: EvChat [summaryMessage post topic threshold
                    (CosineSimilarity emb topicEmbedding)] (summary, None)
       :: evs).

(** What the [switch] on the search method does for one subreddit: the
    retrieval call it makes (none for a method that is neither constant)
    and the pointer and error it leaves. *)
Inductive retrieve_run (request : RelevanceRequestDto) (subreddit : string)
  : option RedditResponse * option error -> list Event -> Prop :=
| retrieve_search res :
    SearchMethod_ request = SearchMethodSearch ->
    retrieve_run request subreddit res
      [EvSearchPosts subreddit (Topic request) (Limit request) res]
| retrieve_latest res :
    SearchMethod_ request = SearchMethodLatest ->
    retrieve_run request subreddit res
      [EvGetPosts subreddit (Limit request) res]
| retrieve_nothing :
    SearchMethod_ request <> SearchMethodSearch ->
    SearchMethod_ request <> SearchMethodLatest ->
    retrieve_run request subreddit (None, None) [].

Inductive subreddits_run (request : RelevanceRequestDto)
    (topicEmbedding : list float)
  : list string -> list SubRedditPostDto ->
    Res (RelevanceResponseDto * option error) -> list Event -> Prop :=
| subreddits_done acc :
    subreddits_run request topicEmbedding [] acc
      (Done ({| Posts := acc |}, None)) []
| subreddits_retrieval_failed subreddit rest acc ptr e evs :
    retrieve_run request subreddit (ptr, Some e) evs ->
    subreddits_run request topicEmbedding (subreddit :: rest) acc
      (Done (emptyResponse, Some (Wrap e "error getting subreddit posts")))
      evs
| subreddits_nil_pointer subreddit rest acc evs :
    retrieve_run request subreddit (None, None) evs ->
    subreddits_run request topicEmbedding (subreddit :: rest) acc Panic evs
| subreddits_evaluation_failed subreddit rest acc resp evs dtos e evs' :
    retrieve_run request subreddit (Some resp, None) evs ->
    posts_run subreddit (Topic request) topicEmbedding
      (RelevanceThreshold request) (Children (Data resp)) []
      (dtos, Some e) evs' ->
    subreddits_run request topicEmbedding (subreddit :: rest) acc
      (Done (emptyResponse, Some (Wrap e "error evaluating subreddit posts")))
      (evs ++ evs')
| subreddits_next subreddit rest acc resp evs dtos evs' out evs'' :
    retrieve_run request subreddit (Some resp, None) evs ->
    posts_run subreddit (Topic request) topicEmbedding
      (RelevanceThreshold request) (Children (Data resp)) []
      (dtos, None) evs' ->
    subreddits_run request topicEmbedding rest (acc ++ dtos) out evs'' ->
    subreddits_run request topicEmbedding (subreddit :: rest) acc out
      (evs ++ evs' ++ evs'').

(** A whole run of [GetRelevantPosts]. *)
Inductive pipeline_run (request : RelevanceRequestDto)
  : Res (RelevanceResponseDto * option error) -> list Event -> Prop :=
| pipeline_topic_failed emb e :
    pipeline_run request
      (Done (emptyResponse, Some (Wrap e "error getting topic embedding")))
      [EvGetEmbedding TopicEmbedding (Topic request) (emb, Some e)]
| pipeline_sources topicEmbedding out evs :
    subreddits_run request topicEmbedding (Subreddits request) [] out evs ->
    pipeline_run request out
      (EvGetEmbedding TopicEmbedding (Topic request) (topicEmbedding, None)
       :: evs).

End services.

(* ------------------------------------------------------------------ *)
(** ** HTTP ([net/http]) as the two clients use it

    A request is what the clients build; a response is a status code and
    the body read in full.  What the libraries decide (whether a URL
    parses, how a query is escaped, how JSON is encoded and decoded) is
    taken as a parameter of each client. *)

Module http.

Record Request : Type := {
  Method : string;
  URL : string;
  Header : list (string * string);
  RequestBody : option string
}.

Record Response : Type := { StatusCode : Z; Body : string }.

Definition StatusOK : Z := 200.
Definition StatusBadRequest : Z := 400.
Definition StatusInternalServerError : Z := 500.

(** [req.Header.Set]: the value replaces any value of the same key. *)
Definition SetHeader (req : Request) (key value : string) : Request :=
  {| Method := Method req; URL := URL req;
     Header :=
       (key, value)
       :: filter (fun kv => negb (String.eqb (fst kv) key)) (Header req);
     RequestBody := RequestBody req |}.

(** [req.Header.Get]: the first value of the key, or the empty string. *)
Fixpoint GetHeader (h : list (string * string)) (key : string) : string :=
  match h with
  | [] => EmptyString
  | (k, v) :: rest => if String.eqb k key then v else GetHeader rest key
  end.

(** [http.NewRequest] for the methods GET and POST: it fails exactly when
    the URL does not parse; [urlError] gives that error. *)
Definition NewRequest (urlError : string -> option error)
    (method url : string) (body : option string) : Request + error :=
  match urlError url with
  | Some err => inr err
  | None =>
      inl {| Method := method; URL := url; Header := [];
             RequestBody := body |}
  end.

(** The verb [%d] on an [int]. *)
Definition verb_d (z : Z) : string :=
  if (z <? 0)%Z then ("-" ++ fmt.digits (- z))%string else fmt.digits z.

End http.

(* ------------------------------------------------------------------ *)
(** ** The Reddit client ([infra/reddit/client.go]) *)

Module reddit_client.

Import reddit.

(** What the client takes from the libraries: the error of parsing a URL,
    [url.QueryEscape], and the JSON decoding of a body into a
    [*RedditResponse] (a nil pointer for the JSON value [null]). *)
Record Lib : Type := {
  urlError : string -> option error;
  QueryEscape : string -> string;
  decode : string -> option RedditResponse + error
}.

Section Client.

Context {W : Type}.

(** [type Client struct]; [httpClient.Do] acts on the world. *)
Record Client : Type := {
  httpClient : http.Request -> W -> (http.Response + error) * W;
  baseURL : string;
  userAgent : string
}.

Variable lib : Lib.

(** A result pair, the requests sent, and the world afterwards. *)
Definition Sent (A : Type) : Type := A * list http.Request * W.

Definition GetPosts (c : Client) (subreddit : string) (limit : Z) (w : W)
  : Sent (option RedditResponse * option error) :=
  let limit := if (limit <=? 0)%Z then 25%Z else limit in
  let limit := if (100 <? limit)%Z then 100%Z else limit in
  let url :=
    (baseURL c ++ "/r/" ++ subreddit ++ "/.json?limit="
     ++ http.verb_d limit)%string in
  match http.NewRequest (urlError lib) "GET" url None with
  | inr err => ((None, Some (Wrap err "failed to create request")), [], w)
  | inl req0 =>
      let req := http.SetHeader req0 "User-Agent" (userAgent c) in
      match httpClient c req w with
      | (inr err, w') =>
          ((None, Some (Wrap err "failed to make request")), [req], w')
      | (inl resp, w') =>
          if negb (http.StatusCode resp =? http.StatusOK)%Z then
            ((None,
              Some (New ("reddit API returned status "
                         ++ http.verb_d (http.StatusCode resp) ++ ": "
                         ++ http.Body resp)%string)), [req], w')
          else
            match decode lib (http.Body resp) with
            | inr err =>
                ((None, Some (Wrap err "failed to decode response")),
                 [req], w')
            | inl redditResponse => ((redditResponse, None), [req], w')
            end
      end
  end.

Definition SearchPosts (c : Client) (subreddit query : string) (limit : Z)
    (w : W) : Sent (option RedditResponse * option error) :=
  let limit := if (limit <=? 0)%Z then 25%Z else limit in
  let limit := if (100 <? limit)%Z then 100%Z else limit in
  let encodedQuery := QueryEscape lib query in
  let url :=
    (baseURL c ++ "/r/" ++ subreddit ++ "/search.json?q=" ++ encodedQuery
     ++ "&restrict_sr=true&limit=" ++ http.verb_d limit)%string in
  match http.NewRequest (urlError lib) "GET" url None with
  | inr err => ((None, Some (Wrap err "failed to create request")), [], w)
  | inl req0 =>
      let req := http.SetHeader req0 "User-Agent" (userAgent c) in
      match httpClient c req w with
      | (inr err, w') =>
          ((None, Some (Wrap err "failed to make request")), [req], w')
      | (inl resp, w') =>
          if negb (http.StatusCode resp =? http.StatusOK)%Z then
            ((None,
              Some (New ("reddit API returned status "
                         ++ http.verb_d (http.StatusCode resp) ++ ": "
                         ++ http.Body resp)%string)), [req], w')
          else
            match decode lib (http.Body resp) with
            | inr err =>
                ((None, Some (Wrap err "failed to decode response")),
                 [req], w')
            | inl redditResponse => ((redditResponse, None), [req], w')
            end
      end
  end.

(** The limit both operations put in the URL. *)
Definition clamp (limit : Z) : Z :=
  let limit := if (limit <=? 0)%Z then 25%Z else limit in
  if (100 <? limit)%Z then 100%Z else limit.

(** The request of [GetPosts] for a limit already clamped. *)
Definition listingRequest (c : Client) (subreddit : string) (n : Z)
  : http.Request :=
  {| http.Method := "GET";
     http.URL :=
       (baseURL c ++ "/r/" ++ subreddit ++ "/.json?limit="
        ++ http.verb_d n)%string;
     http.Header := [("User-Agent"%string, userAgent c)];
     http.RequestBody := None |}.

(** The request of [SearchPosts] for a limit already clamped. *)
Definition searchRequest (c : Client) (subreddit query : string) (n : Z)
  : http.Request :=
  {| http.Method := "GET";
     http.URL :=
       (baseURL c ++ "/r/" ++ subreddit ++ "/search.json?q="
        ++ QueryEscape lib query
        ++ "&restrict_sr=true&limit=" ++ http.verb_d n)%string;
     http.Header := [("User-Agent"%string, userAgent c)];
     http.RequestBody := None |}.

(** How a call of either operation ends, read off the request it sent and
    the response to it. *)
Definition outcome (c : Client) (w : W)
    (out : (option RedditResponse * option error)
           * list http.Request * W) : Prop :=
  let '((ptr, err), sent, w') := out in
  match err with
  | Some e =>
      ptr = None /\
      (sent = [] \/
       exists req, sent = [req] /\
         match httpClient c req w with
         | (inr cause, w1) =>
             w1 = w' /\ e = Wrap cause "failed to make request"
         | (inl resp, w1) =>
             w1 = w' /\
             if (http.StatusCode resp =? 200)%Z then
               exists cause,
                 decode lib (http.Body resp) = inr cause /\
                 e = Wrap cause "failed to decode response"
             else
               e = New ("reddit API returned status "
                        ++ http.verb_d (http.StatusCode resp) ++ ": "
                        ++ http.Body resp)%string
         end)
  | None =>
      exists req resp,
        sent = [req] /\
        httpClient c req w = (inl resp, w') /\
        http.StatusCode resp = 200%Z /\
        decode lib (http.Body resp) = inl ptr
  end.

End Client.

End reddit_client.

(* ------------------------------------------------------------------ *)
(** ** The Reddit service over the client ([redditsvc.go]) *)

Module redditsvc.

Import reddit services.

Section Service.

Context {W : Type}.

(** [type redditService struct], without the logger. *)
Record redditService : Type := { client : @reddit_client.Client W }.

Variable lib : reddit_client.Lib.

(** The log line written on success takes [len(posts.Data.Children)]: it
    dereferences [posts]. *)
Definition GetPosts (s : redditService) (subreddit : string) (limit : Z)
    (w : W)
  : Res (option RedditResponse * option error) * list http.Request * W :=
  let '((posts, err), sent, w') :=
    reddit_client.GetPosts lib (client s) subreddit limit w in
  match err with
  | Some e => (Done (None, Some e), sent, w')
  | None =>
      match posts with
      | None => (Panic, sent, w')
      | Some _ => (Done (posts, None), sent, w')
      end
  end.

Definition SearchPosts (s : redditService) (subreddit query : string)
    (limit : Z) (w : W)
  : Res (option RedditResponse * option error) * list http.Request * W :=
  let '((posts, err), sent, w') :=
    reddit_client.SearchPosts lib (client s) subreddit query limit w in
  match err with
  | Some e => (Done (None, Some e), sent, w')
  | None =>
      match posts with
      | None => (Panic, sent, w')
      | Some _ => (Done (posts, None), sent, w')
      end
  end.

End Service.

End redditsvc.

(* ------------------------------------------------------------------ *)
(** ** The LLM client ([infra/llm/client.go]) *)

Module llm_client.

Import llm.

Record EmbeddingRequest : Type := { Input : list string; Model : string }.

Record EmbeddingData : Type := { Embedding : list float; Index : Z }.

Record Usage : Type := {
  PromptTokens : Z;
  CompletionTokens : Z;
  TotalTokens : Z
}.

Record EmbeddingResponse : Type := {
  Data : list EmbeddingData;
  EmbeddingModel : string;
  EmbeddingUsage : Usage
}.

Record ChatRequest : Type := {
  ChatModel : string;
  Messages : list Message;
  Stream : bool
}.

Record Choice : Type := {
  ChoiceIndex : Z;
  ChoiceMessage : Message;
  FinishReason : string
}.

Record ChatResponse : Type := {
  ID : string;
  Object : string;
  Created : Z;
  ResponseModel : string;
  Choices : list Choice;
  ChatUsage : Usage
}.

(** What the client takes from the libraries: the error of parsing a URL,
    and the JSON encoding and decoding of its four message shapes. *)
Record Lib : Type := {
  urlError : string -> option error;
  marshalEmbedding : EmbeddingRequest -> string + error;
  marshalChat : ChatRequest -> string + error;
  decodeEmbedding : string -> EmbeddingResponse + error;
  decodeChat : string -> ChatResponse + error
}.

Section Client.

Context {Ctx W : Type}.

(** [type Client struct], without the Genkit handle and the logger; the
    context of a request is handed to [httpClient.Do] with it. *)
Record Client : Type := {
  baseURL : string;
  embeddingModel : string;
  chatModel : string;
  httpClient : Ctx -> http.Request -> W -> (http.Response + error) * W
}.

Variable lib : Lib.

Definition Sent (A : Type) : Type := A * list http.Request * W.

Definition GetEmbedding (c : Client) (ctx : Ctx) (text : string) (w : W)
  : Sent (list float * option error) :=
  let url := (baseURL c ++ "/embeddings")%string in
  let req := {| Input := [text]; Model := embeddingModel c |} in
  match marshalEmbedding lib req with
  | inr err => (([], Some (Wrap err "failed to marshal request")), [], w)
  | inl jsonData =>
      match http.NewRequest (urlError lib) "POST" url (Some jsonData) with
      | inr err => (([], Some (Wrap err "failed to create request")), [], w)
      | inl httpReq0 =>
          let httpReq :=
            http.SetHeader httpReq0 "Content-Type" "application/json" in
          match httpClient c ctx httpReq w with
          | (inr err, w') =>
              (([], Some (Wrap err "failed to call API")), [httpReq], w')
          | (inl resp, w') =>
              if negb (http.StatusCode resp =? http.StatusOK)%Z then
                (([],
                  Some (New ("API returned status "
                             ++ http.verb_d (http.StatusCode resp) ++ ": "
                             ++ http.Body resp)%string)), [httpReq], w')
              else
                match decodeEmbedding lib (http.Body resp) with
                | inr err =>
                    (([], Some (Wrap err "failed to decode response")),
                     [httpReq], w')
                | inl embeddingResp =>
                    match Data embeddingResp with
                    | [] =>
                        (([], Some (New "no embedding data in response")),
                         [httpReq], w')
                    | first :: _ =>
                        ((Embedding first, None), [httpReq], w')
                    end
                end
          end
      end
  end.

(** The texts of the messages whose role is ["user"]. *)
Definition promptParts (messages : list Message) : list string :=
  map Content (filter (fun msg => String.eqb (Role msg) "user") messages).

Definition Chat (c : Client) (ctx : Ctx) (messages : list Message) (w : W)
  : Sent (string * option error) :=
  match promptParts messages with
  | [] => ((EmptyString, Some (New "no user messages found")), [], w)
  | _ :: _ =>
      let url := (baseURL c ++ "/chat/completions")%string in
      let req :=
        {| ChatModel := chatModel c; Messages := messages;
           Stream := false |} in
      match marshalChat lib req with
      | inr err =>
          ((EmptyString, Some (Wrap err "failed to marshal request")), [], w)
      | inl jsonData =>
          match http.NewRequest (urlError lib) "POST" url (Some jsonData) with
          | inr err =>
              ((EmptyString, Some (Wrap err "failed to create request")),
               [], w)
          | inl httpReq0 =>
              let httpReq :=
            http.SetHeader httpReq0 "Content-Type" "application/json" in
              match httpClient c ctx httpReq w with
              | (inr err, w') =>
                  ((EmptyString, Some (Wrap err "failed to call API")),
                   [httpReq], w')
              | (inl resp, w') =>
                  if negb (http.StatusCode resp =? http.StatusOK)%Z then
                    ((EmptyString,
                      Some (New ("API returned status "
                                 ++ http.verb_d (http.StatusCode resp)
                                 ++ ": " ++ http.Body resp)%string)),
                     [httpReq], w')
                  else
                    match decodeChat lib (http.Body resp) with
                    | inr err =>
                        ((EmptyString,
                          Some (Wrap err "failed to decode response")),
                         [httpReq], w')
                    | inl chatResp =>
                        match Choices chatResp with
                        | [] =>
                            ((EmptyString,
                              Some (New "no choices in response")),
                             [httpReq], w')
                        | first :: _ =>
                            ((Content (ChoiceMessage first), None),
                             [httpReq], w')
                        end
                    end
              end
          end
      end
  end.

(** The request both operations send: a POST of a JSON body. *)
Definition jsonPost (url body : string) : http.Request :=
  {| http.Method := "POST"; http.URL := url;
     http.Header := [("Content-Type", "application/json")%string];
     http.RequestBody := Some body |}.

Definition isUser (msg : Message) : bool := String.eqb (Role msg) "user".

(** The client as the [ClientInterface] the relevance service holds. *)
Definition asInterface (c : Client) : ClientInterface Ctx W :=
  {| llm.GetEmbedding := fun ctx text w =>
       let '(res, _, w') := GetEmbedding c ctx text w in (res, w');
     llm.Chat := fun ctx messages w =>
       let '(res, _, w') := Chat c ctx messages w in (res, w') |}.

End Client.

End llm_client.

(* ------------------------------------------------------------------ *)
(** ** The HTTP handler ([internal/api]) *)

Module api.

Import contracts services.

(** What the handler takes from gin: the JSON decoding of a body into a
    [RelevanceRequestDto], and the error the validator builds from the
    fields that failed, each with the tag it failed on. *)
Record Binder : Type := {
  decodeJSON : string -> RelevanceRequestDto + error;
  validationError : list (string * string) -> error
}.

(** The [binding] tags of [RelevanceRequestDto]: [Topic] is [required];
    [SearchMethod] is [required] and [oneof=search latest].  The result
    lists the fields that fail, in field order. *)
Definition validate (request : RelevanceRequestDto)
  : list (string * string) :=
  (if String.eqb (Topic request) "" then [("Topic", "required")] else [])
  ++ (if String.eqb (SearchMethod_ request) "" then
        [("SearchMethod", "required")]
      else if (String.eqb (SearchMethod_ request) "search"
               || String.eqb (SearchMethod_ request) "latest")%bool then []
      else [("SearchMethod", "oneof")])%string.

(** [c.ShouldBindJSON(&request)]: decode, then validate. *)
Definition ShouldBindJSON (b : Binder) (body : string)
  : RelevanceRequestDto + error :=
  match decodeJSON b body with
  | inr err => inr err
  | inl request =>
      match validate request with
      | [] => inl request
      | failures => inr (validationError b failures)
      end
  end.

(** What [c.JSON] is given: [gin.H{"error": ...}] or the response. *)
Inductive Payload : Type :=
| ErrorPayload (message : string)
| ResponsePayload (response : RelevanceResponseDto).

Record Reply : Type := { Code : Z; JSON : Payload }.

Section Handler.

Context {Ctx W : Type}.

(** [type RelevanceHandler struct], without the logger; the field is the
    [services.RelevanceService] interface. *)
Record RelevanceHandler : Type := {
  relevanceService :
    Ctx -> RelevanceRequestDto -> @M W (RelevanceResponseDto * option error)
}.

Definition NewRelevanceHandler
    (relevanceService :
       Ctx -> RelevanceRequestDto ->
       @M W (RelevanceResponseDto * option error))
  : RelevanceHandler :=
  {| relevanceService := relevanceService |}.

Variable b : Binder.

(** [ctx] is [c.Request.Context()] and [body] is [c.Request.Body]. *)
Definition GetRelevantPosts (h : RelevanceHandler) (ctx : Ctx)
    (body : string) : @M W Reply :=
  match ShouldBindJSON b body with
  | inr err =>
      ret {| Code := http.StatusBadRequest; JSON := ErrorPayload (Error err) |}
  | inl request =>
      bind (relevanceService h ctx request)
        (fun out =>
           match snd out with
           | Some err =>
               ret {| Code := http.StatusInternalServerError;
                      JSON := ErrorPayload (Error err) |}
           | None =>
               ret {| Code := http.StatusOK;
                      JSON := ResponsePayload (fst out) |}
           end)
  end.

(** The handler over the relevance service of [relevancesvc.go], its
    collaborators behind their interfaces. *)
Definition serverHandler (s : @services.relevanceService Ctx W)
  : RelevanceHandler :=
  NewRelevanceHandler (services.GetRelevantPosts s).

End Handler.

End api.

(* ------------------------------------------------------------------ *)
(** ** The service as the server builds it ([NewRelevanceService],
    [StartServer])

    [NewRelevanceService] puts the service of [redditsvc.go] behind the
    [RedditService] interface.  A call of that service can panic, which a
    [RedditService] of the [services] module cannot: here the retrievals of
    [GetRelevantPosts] are calls of that service, and everything below them
    is the code of the [services] module. *)

Module wiring.

Import reddit contracts llm services.

Section Installed.

Context {Ctx W : Type}.

Variable llmLib : llm_client.Lib.
Variable redditLib : reddit_client.Lib.

Notation "x <- m ;; k" := (bind m (fun x => k))
  (at level 61, m at next level, right associativity).
Notation "' pat <- m ;; k" := (bind m (fun x => match x with pat => k end))
  (at level 61, pat pattern, m at next level, right associativity).

(** What [NewRelevanceService] builds, without the logger. *)
Record relevanceService : Type := {
  llmClient : @llm_client.Client Ctx W;
  redditService : @redditsvc.redditService W
}.

Variable s : relevanceService.

(** The Reddit client behind the service, as a [RedditService]: what a call
    of the service returns when it returns. *)
Definition returning : RedditService W :=
  {| services.GetPosts := fun subreddit limit w =>
       let '(res, _, w') :=
         reddit_client.GetPosts redditLib (redditsvc.client (redditService s))
           subreddit limit w in
       (res, w');
     services.SearchPosts := fun subreddit query limit w =>
       let '(res, _, w') :=
         reddit_client.SearchPosts redditLib
           (redditsvc.client (redditService s)) subreddit query limit w in
       (res, w') |}.

(** The service with the LLM client behind its interface; the functions of
    [relevancesvc.go] below the retrievals call only the LLM client. *)
Definition overClients : @services.relevanceService Ctx W :=
  {| services.llmClient := llm_client.asInterface llmLib (llmClient s);
     services.redditService := returning |}.

(** A call of the Reddit service: recorded when it returns. *)
Definition callSearchPosts (subreddit query : string) (limit : Z)
  : @M W (option RedditResponse * option error) :=
  fun w =>
    match redditsvc.SearchPosts redditLib (redditService s) subreddit query
            limit w with
    | (Done res, _, w') =>
        (Done res, [EvSearchPosts subreddit query limit res], w')
    | (Panic, _, w') => (Panic, [], w')
    end.

Definition callGetPosts (subreddit : string) (limit : Z)
  : @M W (option RedditResponse * option error) :=
  fun w =>
    match redditsvc.GetPosts redditLib (redditService s) subreddit limit w
    with
    | (Done res, _, w') => (Done res, [EvGetPosts subreddit limit res], w')
    | (Panic, _, w') => (Panic, [], w')
    end.

(** The [switch request.SearchMethod] of [GetRelevantPosts]. *)
Definition retrieve (request : RelevanceRequestDto) (subreddit : string)
  : @M W (option RedditResponse * option error) :=
  if String.eqb (SearchMethod_ request) SearchMethodSearch then
    callSearchPosts subreddit (Topic request) (Limit request)
  else if String.eqb (SearchMethod_ request) SearchMethodLatest then
    callGetPosts subreddit (Limit request)
  else ret (None, None).

(** The [for _, subreddit := range request.Subreddits] loop of
    [GetRelevantPosts]. *)
Fixpoint evaluateSubreddits (ctx : Ctx) (request : RelevanceRequestDto)
    (subreddits : list string) (topicEmbedding : list float)
    (subredditPostDtos : list SubRedditPostDto)
  : @M W (RelevanceResponseDto * option error) :=
  match subreddits with
  | [] => ret ({| Posts := subredditPostDtos |}, None)
  | subreddit :: rest =>
      '(subredditPosts, err) <- retrieve request subreddit ;;
      match err with
      | Some e =>
          ret (emptyResponse, Some (Wrap e "error getting subreddit posts"))
      | None =>
          '(evalSubredditPostDtos, err) <-
             evaluateSubredditPosts overClients ctx subreddit subredditPosts
               (Topic request) topicEmbedding (RelevanceThreshold request) ;;
          match err with
          | Some e =>
              ret (emptyResponse,
                   Some (Wrap e "error evaluating subreddit posts"))
          | None =>
              evaluateSubreddits ctx request rest topicEmbedding
                (subredditPostDtos ++ evalSubredditPostDtos)
          end
      end
  end.

Definition GetRelevantPosts (ctx : Ctx) (request : RelevanceRequestDto)
  : @M W (RelevanceResponseDto * option error) :=
  '(topicEmbedding, err) <-
     callGetEmbedding overClients TopicEmbedding ctx (Topic request) ;;
  match err with
  | Some e =>
      ret (emptyResponse, Some (Wrap e "error getting topic embedding"))
  | None =>
      evaluateSubreddits ctx request (Subreddits request) topicEmbedding []
  end.

(** The handler [StartServer] registers:
    [NewRelevanceHandler(services.NewRelevanceService())]. *)
Definition handler : api.RelevanceHandler :=
  api.NewRelevanceHandler GetRelevantPosts.

(** The request a retrieval for a subreddit sends to Reddit. *)
Definition retrievalRequest (request : RelevanceRequestDto)
    (subreddit : string) : http.Request :=
  if String.eqb (SearchMethod_ request) SearchMethodSearch then
    reddit_client.searchRequest redditLib (redditsvc.client (redditService s))
      subreddit (Topic request) (reddit_client.clamp (Limit request))
  else
    reddit_client.listingRequest (redditsvc.client (redditService s))
      subreddit (reddit_client.clamp (Limit request)).

(** The Reddit server answered a request with status 200 and a body that
    decodes to a nil response. *)
Definition nullListing (req : http.Request) (w w' : W) : Prop :=
  exists resp,
    reddit_client.httpClient (redditsvc.client (redditService s)) req w
    = (inl resp, w') /\
    http.StatusCode resp = 200%Z /\
    reddit_client.decode redditLib (http.Body resp) = inl None.

End Installed.

End wiring.

(* ------------------------------------------------------------------ *)
(** ** Further observations of a run of the pipeline *)

Module trace.

Import reddit contracts llm services.
Local Open Scope float_scope.

(** The contexts [GetRelevantPosts] and the functions below it wrap around
    the error of a call, by the kind of the call. *)
Definition stageWrap (ev : Event) (e : error) : error :=
  match ev with
  | EvGetEmbedding TopicEmbedding _ _ =>
      Wrap e "error getting topic embedding"
  | EvGetEmbedding ItemEmbedding _ _ =>
      Wrap (Wrap (Wrap e "error getting embedding")
              "error getting relevance score")
        "error evaluating subreddit posts"
  | EvChat _ _ =>
      Wrap (Wrap (Wrap e "error getting chat response")
              "error getting relevance summary")
        "error evaluating subreddit posts"
  | EvSearchPosts _ _ _ _ | EvGetPosts _ _ _ =>
      Wrap e "error getting subreddit posts"
  end.

(** At most the last call of a sequence returned an error. *)
Fixpoint failsOnlyLast (evs : list Event) : bool :=
  match evs with
  | [] => true
  | ev :: rest =>
      match rest with
      | [] => true
      | _ :: _ => negb (failed ev) && failsOnlyLast rest
      end
  end.

(** A retrieval call, without what it returned. *)
Inductive RetrievalCall : Type :=
| Search (subreddit query : string) (limit : Z)
| Latest (subreddit : string) (limit : Z).

Definition retrievalCalls (evs : list Event) : list RetrievalCall :=
  flat_map (fun ev => match ev with
                      | EvSearchPosts subreddit query limit _ =>
                          [Search subreddit query limit]
                      | EvGetPosts subreddit limit _ => [Latest subreddit limit]
                      | _ => []
                      end) evs.

(** The retrieval the search method of a request selects for a source. *)
Definition retrievalFor (request : RelevanceRequestDto) (subreddit : string)
  : list RetrievalCall :=
  if String.eqb (SearchMethod_ request) SearchMethodSearch then
    [Search subreddit (Topic request) (Limit request)]
  else if String.eqb (SearchMethod_ request) SearchMethodLatest then
    [Latest subreddit (Limit request)]
  else [].

(** The message lists of the chat calls. *)
Definition chatRequests (evs : list Event) : list (list Message) :=
  flat_map (fun ev => match ev with
                      | EvChat messages _ => [messages]
                      | _ => []
                      end) evs.

(** One user message per chat call. *)
Definition singleUserMessage (messages : list Message) : Prop :=
  exists m, messages = [m] /\ Role m = "user"%string.

(** The embeddings returned, without error, for items and for the topic. *)
Definition itemEmbeddings (evs : list Event) : list (list float) :=
  flat_map (fun ev => match ev with
                      | EvGetEmbedding ItemEmbedding _ (emb, None) => [emb]
                      | _ => []
                      end) evs.

Definition topicEmbeddings (evs : list Event) : list (list float) :=
  flat_map (fun ev => match ev with
                      | EvGetEmbedding TopicEmbedding _ (emb, None) => [emb]
                      | _ => []
                      end) evs.

(** The texts the chat calls returned without error. *)
Definition summaries (evs : list Event) : list string :=
  flat_map (fun ev => match ev with
                      | EvChat _ (summary, None) => [summary]
                      | _ => []
                      end) evs.

(** Two posts that agree on every field but [Permalink] and [Stickied]. *)
Definition sameVisible (p q : RedditChild) : Prop :=
  reddit.Title (ChildData p) = reddit.Title (ChildData q) /\
  Selftext (ChildData p) = Selftext (ChildData q) /\
  URL (ChildData p) = URL (ChildData q) /\
  reddit.Score (ChildData p) = reddit.Score (ChildData q) /\
  reddit.NumComments (ChildData p) = reddit.NumComments (ChildData q) /\
  CreatedUTC (ChildData p) = CreatedUTC (ChildData q).

(** The result a logged call carries is what the collaborator returns for
    the logged arguments in some state of the world. *)
Definition genuine {Ctx W : Type} (s : @relevanceService Ctx W) (ctx : Ctx)
    (ev : Event) : Prop :=
  match ev with
  | EvGetEmbedding _ text res =>
      exists w, fst (GetEmbedding (llmClient s) ctx text w) = res
  | EvChat messages res =>
      exists w, fst (Chat (llmClient s) ctx messages w) = res
  | EvSearchPosts subreddit query limit res =>
      exists w, fst (SearchPosts (redditService s) subreddit query limit w)
                = res
  | EvGetPosts subreddit limit res =>
      exists w, fst (GetPosts (redditService s) subreddit limit w) = res
  end.

End trace.

(* ------------------------------------------------------------------ *)
(** ** Test doubles ([mocks/llm], [mocks/services]) and the test data

    Stateless doubles that answer from tables, as the expectations of
    [relevancesvc_test.go] do; a call that no row expects is answered with
    an error. *)

Module mocks.

Import reddit contracts llm services.
Local Open Scope float_scope.

Definition unexpected : error := New "mock: unexpected call".

Fixpoint lookup {A} (table : list (string * A)) (key : string) : option A :=
  match table with
  | [] => None
  | (k, v) :: rest => if String.eqb k key then Some v else lookup rest key
  end.

(** [NewMockClientInterface]: embeddings by text, one answer for every
    chat. *)
Definition MockClientInterface
    (embeddings : list (string * (list float * option error)))
    (chat : string * option error) : ClientInterface unit unit :=
  {| GetEmbedding := fun _ text w =>
       (match lookup embeddings text with
        | Some res => res
        | None => ([], Some unexpected)
        end, w);
     Chat := fun _ _ w => (chat, w) |}.

(** [NewMockRedditService]: responses by subreddit, for both operations. *)
Definition MockRedditService
    (responses : list (string * (option RedditResponse * option error)))
  : RedditService unit :=
  let answer subreddit :=
    match lookup responses subreddit with
    | Some res => res
    | None => (None, Some unexpected)
    end in
  {| GetPosts := fun subreddit _ w => (answer subreddit, w);
     SearchPosts := fun subreddit _ _ w => (answer subreddit, w) |}.

Definition newRelevanceServiceForTesting
    (llmClient : ClientInterface unit unit)
    (redditService : RedditService unit) : @relevanceService unit unit :=
  {| services.llmClient := llmClient;
     services.redditService := redditService |}.

Definition post (title selftext url : string) (score numComments : Z)
  : RedditChild :=
  {| ChildData :=
       {| reddit.Title := title; Selftext := selftext; URL := url;
          reddit.Score := score; reddit.NumComments := numComments;
          CreatedUTC := 1700000000; Permalink := url; Stickied := false |} |}.

Definition response (children : list RedditChild) : RedditResponse :=
  {| Data := {| Children := children |} |}.

Definition request (topic : string) (subreddits : list string)
    (threshold : float) (method : SearchMethod) : RelevanceRequestDto :=
  {| Topic := topic; Subreddits := subreddits;
     RelevanceThreshold := threshold; Limit := 5;
     CreatedAfter := time.Unix 0 0; MinNumComments := 0;
     SearchMethod_ := method |}.

(** The data of [MultipleSubreddits]: two sources with one post each. *)
Definition programmingPost : RedditChild :=
  post "Post in programming" "Content about programming"
    "https://reddit.com/r/programming/post" 50 25.
Definition golangPost : RedditChild :=
  post "Post in golang" "Content about programming"
    "https://reddit.com/r/golang/post" 50 25.

Definition twoSources : @relevanceService unit unit :=
  newRelevanceServiceForTesting
    (MockClientInterface
       [("programming", ([1; 2; 3], None));
        ("Post in programming. Content about programming", ([1; 2; 3], None));
        ("Post in golang. Content about programming", ([3; 2; 1], None))]
       ("Relevant post about programming", None))
    (MockRedditService
       [("programming", (Some (response [programmingPost]), None));
        ("golang", (Some (response [golangPost]), None))]).

(** The data of [PostEmbeddingError], [SummaryError], [RedditServiceError]
    and [LLMEmbeddingError]: one source with one post. *)
Definition testPost : RedditChild :=
  post "Test Post" "Test content" "https://reddit.com/r/test/post" 10 5.

Definition oneSource (topicEmbedding postEmbedding : list float * option error)
    (chat : string * option error) : @relevanceService unit unit :=
  newRelevanceServiceForTesting
    (MockClientInterface
       [("test topic", topicEmbedding);
        ("Test Post. Test content", postEmbedding)]
       chat)
    (MockRedditService [("test", (Some (response [testPost]), None))]).

(** Opposite vectors, as in [TestCosineSimilarity/OppositeVectors]. *)
Definition oppositeService : @relevanceService unit unit :=
  oneSource ([1; 0; 0], None) ([-1; 0; 0], None)
    ("This post is unrelated to the topic", None).

(** Identical vectors: the score is exactly [1]. *)
Definition identicalService : @relevanceService unit unit :=
  oneSource ([1; 0; 0], None) ([1; 0; 0], None)
    ("This post is about the topic", None).

(** [PostEmbeddingError]. *)
Definition postEmbeddingError : @relevanceService unit unit :=
  oneSource ([1; 2; 3], None) ([], Some (New "embedding generation failed"))
    ("", None)%string.

(** [LLMEmbeddingError]. *)
Definition llmEmbeddingError : @relevanceService unit unit :=
  oneSource ([], Some (New "LLM service unavailable")) ([1; 2; 3], None)
    ("", None)%string.

(** A post with an empty body. *)
Definition titleOnlyPost : RedditChild :=
  post "Title only" "" "https://reddit.com/r/test/title-only" 1 0.

Definition titleOnlyService : @relevanceService unit unit :=
  newRelevanceServiceForTesting
    (MockClientInterface
       [("test topic", ([1; 0; 0], None));
        ("Title only. ", ([0; 1; 0], None))]
       ("This post has no body", None))
    (MockRedditService [("test", (Some (response [titleOnlyPost]), None))]).

Definition searchRequest (threshold : float) : RelevanceRequestDto :=
  request "test topic" ["test"] threshold SearchMethodSearch.

(** [EmptySubreddits]. *)
Definition emptyRequest : RelevanceRequestDto :=
  request "test topic" [] 0.5 SearchMethodSearch.

(** A request the HTTP binding would refuse: the method is neither
    constant. *)
Definition unknownMethodRequest : RelevanceRequestDto :=
  request "test topic" ["test"] 0.5 "top".

(** [searchRequest 0.5] with the two filter fields set. *)
Definition filteredRequest : RelevanceRequestDto :=
  {| Topic := "test topic"; Subreddits := ["test"];
     RelevanceThreshold := 0.5; Limit := 5;
     CreatedAfter := time.Unix 1700000000 0; MinNumComments := 10;
     SearchMethod_ := SearchMethodSearch |}.

End mocks.

(* ------------------------------------------------------------------ *)
(** ** The web client ([web/src/services/api.js], [SubredditsList.jsx]) *)

Module web.

Local Open Scope float_scope.

(** A JavaScript value, as far as the client looks at one: objects and
    arrays are opaque and truthy. *)
Inductive JSValue : Type :=
| JSUndefined
| JSNull
| JSBoolean (b : bool)
| JSNumber (x : float)
| JSString (s : string)
| JSObject (id : nat).

(** [ToBoolean]: [undefined], [null], [false], zero of either sign, NaN and
    the empty string are falsy. *)
Definition ToBoolean (v : JSValue) : bool :=
  match v with
  | JSUndefined | JSNull => false
  | JSBoolean b => b
  | JSNumber x => negb ((x =? 0) || is_nan x)
  | JSString s => negb (String.eqb s "")
  | JSObject _ => true
  end.

(** [a || b]. *)
Definition or (a b : JSValue) : JSValue := if ToBoolean a then a else b.

(** The argument of [searchRedditPosts]; an absent property reads as
    [undefined]. *)
Record Params : Type := {
  param_topic : JSValue;
  param_subreddits : JSValue;
  param_relevance_threshold : JSValue;
  param_limit : JSValue;
  param_created_after : JSValue;
  param_search_method : JSValue
}.

Record RequestData : Type := {
  topic : JSValue;
  subreddits : JSValue;
  relevance_threshold : JSValue;
  limit : JSValue;
  created_after : JSValue;
  min_num_comments : JSValue;
  search_method : JSValue
}.

(** What the [catch] clause reads of the value it caught: whether
    [error.response] is set, with the value of [error.response.data?.error]
    if so; [error.request]; and [error.message]. *)
Record Caught : Type := {
  response : option JSValue;
  request : JSValue;
  message : JSValue
}.

Section SearchRedditPosts.

Context {W : Type}.

(** [new Date(v).toISOString()], which throws on an invalid date. *)
Variable toISOString : JSValue -> JSValue + Caught.

(** [api.post('/reddit/relevance/search', requestData)]: the data of the
    response, or the error axios rejects with. *)
Variable post : RequestData -> W -> (JSValue + Caught) * W.

(** The [catch] clause: the argument of the [Error] it throws. *)
Definition rethrow (error : Caught) : JSValue :=
  match response error with
  | Some serverError =>
      or serverError (JSString "Failed to search Reddit posts")
  | None =>
      if ToBoolean (request error) then
        JSString "No response from server. Is the backend running?"
      else or (message error) (JSString "An error occurred")
  end.

(** The data the promise resolves with, or the argument of the [Error] it
    rejects with; the requests posted; the world afterwards. *)
Definition searchRedditPosts (params : Params) (w : W)
  : (JSValue + JSValue) * list RequestData * W :=
  let createdAfter :=
    if ToBoolean (param_created_after params) then
      toISOString (param_created_after params)
    else inl JSNull in
  match createdAfter with
  | inr error => (inr (rethrow error), [], w)
  | inl created =>
      let requestData :=
        {| topic := or (param_topic params) (JSString "");
           subreddits := param_subreddits params;
           relevance_threshold :=
             or (param_relevance_threshold params) (JSNumber 0.5);
           limit := or (param_limit params) (JSNumber 25);
           created_after := created;
           min_num_comments := JSNumber 0;
           search_method :=
             or (param_search_method params) (JSString "search") |} in
      match post requestData w with
      | (inl data, w') => (inl data, [requestData], w')
      | (inr error, w') => (inr (rethrow error), [requestData], w')
      end
  end.

End SearchRedditPosts.

(** *** The list of subreddits ([SubredditsList]) *)

Section SubredditsList.

(** [String.prototype.trim] and [toLowerCase]. *)
Variable trim : string -> string.
Variable toLowerCase : string -> string.

(** [subreddits.includes(name)]. *)
Definition includes (subreddits : list string) (name : string) : bool :=
  existsb (String.eqb name) subreddits.

(** [handleAdd]: the list it passes to [onChange], if it calls it, and the
    new value of the input. *)
Definition handleAdd (subreddits : list string) (newSubreddit : string)
  : option (list string) * string :=
  let trimmed := toLowerCase (trim newSubreddit) in
  if (negb (String.eqb trimmed "") && negb (includes subreddits trimmed))%bool
  then (Some (subreddits ++ [trimmed]), EmptyString)
  else (None, newSubreddit).

(** [subreddits.filter((_, i) => i !== index)], from position [i]. *)
Fixpoint filterIndex (subreddits : list string) (i index : nat)
  : list string :=
  match subreddits with
  | [] => []
  | name :: rest =>
      if Nat.eqb i index then filterIndex rest (S i) index
      else name :: filterIndex rest (S i) index
  end.

(** [handleRemove]: the list it passes to [onChange]. *)
Definition handleRemove (subreddits : list string) (index : nat)
  : list string :=
  filterIndex subreddits 0 index.

End SubredditsList.

End web.

(* ------------------------------------------------------------------ *)
(** ** Test servers and further test data

    Stateless stand-ins for the HTTP servers and the library functions of
    the tests of the two clients, of the Reddit service and of the
    handler. *)

Module fixtures.

Import reddit contracts llm services.
Local Open Scope float_scope.

(** Runs of the pipeline over the test doubles. *)
Definition failingRun :=
  GetRelevantPosts mocks.postEmbeddingError tt (mocks.searchRequest 0.5) tt.

Definition twoSourcesRequest : RelevanceRequestDto :=
  mocks.request "programming" ["programming"; "golang"] 0.5
    SearchMethodSearch.

Definition twoSourcesRun :=
  GetRelevantPosts mocks.twoSources tt twoSourcesRequest tt.

(** The posts a run returned. *)
Definition posts (run : Res (RelevanceResponseDto * option error)
                        * list Event * unit)
  : list SubRedditPostDto :=
  match fst (fst run) with
  | Done (resp, _) => Posts resp
  | Panic => []
  end.

Definition embeddingFailure : Event :=
  EvGetEmbedding ItemEmbedding "Test Post. Test content"
    ([], Some (New "embedding generation failed")).

Definition wrappedEmbeddingFailure : error :=
  Wrap (Wrap (Wrap (New "embedding generation failed")
                "error getting embedding")
          "error getting relevance score")
    "error evaluating subreddit posts".

(** [mocks.testPost], pinned and with another permalink. *)
Definition pinnedTestPost : RedditChild :=
  {| ChildData :=
       {| reddit.Title := "Test Post"; Selftext := "Test content";
          URL := "https://reddit.com/r/test/post";
          reddit.Score := 10; reddit.NumComments := 5;
          CreatedUTC := 1700000000; Permalink := "/r/test/pinned";
          Stickied := true |} |}.

(** A server that answers every request alike. *)
Definition server (status : Z) (body : string)
  : http.Request -> unit -> (http.Response + error) * unit :=
  fun _ w => (inl {| http.StatusCode := status; http.Body := body |}, w).

(** A JSON decoder for the bodies of the tests: [null], a body that is not
    JSON, and the listing with [mocks.testPost]. *)
Definition decodeListing (body : string) : option RedditResponse + error :=
  if String.eqb body "null" then inl None
  else if String.eqb body "invalid json" then
    inr (New "invalid character 'i' looking for beginning of value")
  else inl (Some (mocks.response [mocks.testPost])).

Definition redditLib : reddit_client.Lib :=
  {| reddit_client.urlError := fun _ => None;
     reddit_client.QueryEscape := fun query => query;
     reddit_client.decode := decodeListing |}.

(** [NewTestClient(server.URL)]. *)
Definition NewTestClient
    (do : http.Request -> unit -> (http.Response + error) * unit)
  : @reddit_client.Client unit :=
  {| reddit_client.httpClient := do;
     reddit_client.baseURL := "http://127.0.0.1:8080";
     reddit_client.userAgent := "reddit-content-analyzer/1.0" |}.

Definition newRedditServiceForTesting
    (do : http.Request -> unit -> (http.Response + error) * unit)
  : @redditsvc.redditService unit :=
  {| redditsvc.client := NewTestClient do |}.

(** The LLM server of the tests. *)
Definition llmLib : llm_client.Lib :=
  {| llm_client.urlError := fun _ => None;
     llm_client.marshalEmbedding := fun _ => inl "{}"%string;
     llm_client.marshalChat := fun _ => inl "{}"%string;
     llm_client.decodeEmbedding := fun body =>
       inl {| llm_client.Data :=
                if String.eqb body "empty" then []
                else [ {| llm_client.Embedding := [1; 0; 0];
                          llm_client.Index := 0 |} ];
              llm_client.EmbeddingModel := "test-model";
              llm_client.EmbeddingUsage :=
                {| llm_client.PromptTokens := 5;
                   llm_client.CompletionTokens := 0;
                   llm_client.TotalTokens := 5 |} |};
     llm_client.decodeChat := fun body =>
       inl {| llm_client.ID := "chat-123";
              llm_client.Object := "chat.completion";
              llm_client.Created := 0;
              llm_client.ResponseModel := "openai/gpt-oss-20b";
              llm_client.Choices :=
                if String.eqb body "empty" then []
                else [ {| llm_client.ChoiceIndex := 0;
                          llm_client.ChoiceMessage :=
                            {| Role := "assistant";
                               Content := "This is a test response" |};
                          llm_client.FinishReason := "stop" |} ];
              llm_client.ChatUsage :=
                {| llm_client.PromptTokens := 5;
                   llm_client.CompletionTokens := 5;
                   llm_client.TotalTokens := 10 |} |} |}.

Definition llmTestClient (status : Z) (body : string)
  : @llm_client.Client unit unit :=
  {| llm_client.baseURL := "http://127.0.0.1:1234/v1";
     llm_client.embeddingModel := "test-model";
     llm_client.chatModel := "openai/gpt-oss-20b";
     llm_client.httpClient := fun _ => server status body |}.

(** The relevance service over the LLM test client and the Reddit double of
    [mocks.oneSource]. *)
Definition overLLMClient : @relevanceService unit unit :=
  {| llmClient := llm_client.asInterface llmLib (llmTestClient 200 "ok");
     redditService :=
       mocks.MockRedditService
         [("test"%string, (Some (mocks.response [mocks.testPost]), None))] |}.

(** The binding of the handler tests: the body ["invalid json"] does not
    decode; the body ["{}"] decodes to the zero request; any other body
    stands for [mocks.searchRequest 0.5]. *)
Definition binder : api.Binder :=
  {| api.decodeJSON := fun body =>
       if String.eqb body "invalid json" then
         inr (New "invalid character 'i' looking for beginning of value")
       else if String.eqb body "{}" then
         inl (mocks.request "" [] 0 "")
       else inl (mocks.searchRequest 0.5);
     api.validationError := fun failures =>
       New (String.concat "; "
              (map (fun f => (fst f ++ " failed on the '" ++ snd f
                              ++ "' tag")%string) failures)) |}.

(** The service as the server builds it, over the LLM test server and a
    Reddit server that answers every request alike. *)
Definition installed (status : Z) (body : string)
  : @wiring.relevanceService unit unit :=
  {| wiring.llmClient := llmTestClient 200 "ok";
     wiring.redditService := newRedditServiceForTesting (server status body) |}.

(** The web client against a backend that answers 500 with an error
    text. *)
Definition backendError : web.Caught :=
  {| web.response :=
       Some (web.JSString
               "error getting topic embedding: LLM service unavailable");
     web.request := web.JSObject 0;
     web.message := web.JSString "Request failed with status code 500" |}.

Definition failingBackend
  : web.RequestData -> unit -> (web.JSValue + web.Caught) * unit :=
  fun _ w => (inr backendError, w).

(** What the form sends with the threshold set to 0. *)
Definition zeroThresholdParams : web.Params :=
  {| web.param_topic := web.JSString "golang";
     web.param_subreddits := web.JSObject 1;
     web.param_relevance_threshold := web.JSNumber 0;
     web.param_limit := web.JSNumber 1;
     web.param_created_after := web.JSNull;
     web.param_search_method := web.JSString "latest" |}.

End fixtures.

(* ------------------------------------------------------------------ *)
(** * Properties *)

Import reddit contracts llm services.
Local Open Scope float_scope.

(** ** Comparisons of [float64] values *)

Lemma SFcompare_Eq_sym x y :
  SFcompare x y = Some Eq -> SFcompare y x = Some Eq.
Proof.
  destruct x as [sx|sx| |sx mx ex], y as [sy|sy| |sy my ey]; cbn;
    try discriminate; try reflexivity;
    try (destruct sx; discriminate); try (destruct sy; discriminate);
    try (destruct sx, sy; (discriminate || reflexivity)).
  destruct sx, sy; try discriminate;
    destruct (Z.compare ex ey) eqn:He; try discriminate;
    apply Z.compare_eq in He; subst ey; rewrite Z.compare_refl;
    intros [= Hm].
  - apply (f_equal CompOpp) in Hm. rewrite CompOpp_involutive in Hm.
    cbn in Hm. apply Pos.compare_eq in Hm. subst.
    now rewrite Pos.compare_cont_refl.
  - apply Pos.compare_eq in Hm. subst. now rewrite Pos.compare_cont_refl.
Qed.

(** [x == y] implies [x >= y]. *)
Lemma eqb_leb (x y : float) : (x =? y) = true -> (y <=? x) = true.
Proof.
  rewrite eqb_spec, leb_spec. unfold SFeqb, SFleb.
  destruct (SFcompare (Prim2SF x) (Prim2SF y)) as [[| |]|] eqn:E;
    try discriminate.
  intros _. now rewrite (SFcompare_Eq_sym _ _ E).
Qed.

Lemma eqb_zero_Prim2SF x :
  (x =? 0) = true -> exists sign, Prim2SF x = S754_zero sign.
Proof.
  rewrite eqb_spec. unfold SFeqb.
  change (Prim2SF 0) with (S754_zero false).
  destruct (Prim2SF x) as [sign|sign| |sign m e]; cbn; try discriminate.
  - intros _. now exists sign.
  - destruct sign; discriminate.
  - destruct sign; discriminate.
Qed.

(** Comparing against a zero of either sign is comparing against [0]. *)
Lemma eqb_zero_leb t x : (t =? 0) = true -> (t <=? x) = (0 <=? x).
Proof.
  intros H. apply eqb_zero_Prim2SF in H as [sign Hs].
  rewrite !leb_spec, Hs. change (Prim2SF 0) with (S754_zero false).
  now destruct (Prim2SF x).
Qed.

Lemma eqb_zero_cases x : (x =? 0) = true -> x = 0 \/ x = (-0).
Proof.
  intros H. apply eqb_zero_Prim2SF in H as [sign Hs].
  rewrite <- (SF2Prim_Prim2SF x), Hs.
  destruct sign; [right|left]; reflexivity.
Qed.

(** ** The similarity function *)

Lemma accumulate_sums :
  forall a b d na nb,
    List.length a = List.length b ->
    accumulate a b d na nb
    = (fold_left (fun acc xy => acc + fst xy * snd xy) (combine a b) d,
       fold_left (fun acc x => acc + x * x) a na,
       fold_left (fun acc x => acc + x * x) b nb).
Proof.
  induction a as [|x a IH]; intros [|y b] d na nb Hlen;
    try discriminate; [reflexivity|].
  cbn [accumulate combine fold_left fst snd]. apply IH.
  now injection Hlen.
Qed.

Lemma sumSquares_zero a : Forall isZero a -> sumSquares a = 0.
Proof.
  unfold sumSquares. induction 1 as [|x a Hx _ IH]; [reflexivity|].
  cbn [fold_left].
  destruct (eqb_zero_cases x Hx) as [-> | ->]; exact IH.
Qed.

Lemma magnitude_zero a :
  (sumSquares a =? 0) = true -> (magnitude a =? 0) = true.
Proof.
  intros H. unfold magnitude.
  destruct (eqb_zero_cases _ H) as [-> | ->]; reflexivity.
Qed.

Lemma CosineSimilarity_same_length a b :
  List.length a = List.length b ->
  CosineSimilarity a b
  = if (sumSquares a =? 0) || (sumSquares b =? 0) then 0
    else dot a b / (magnitude a * magnitude b).
Proof.
  intros Hlen. unfold CosineSimilarity.
  rewrite Hlen, Nat.eqb_refl. cbn [negb].
  now rewrite (accumulate_sums a b 0 0 0 Hlen).
Qed.

(** C5.  [CosineSimilarity] returns exactly [0.0] for vectors of different
    lengths; exactly [0.0] when the sum of squares of either vector, hence
    its magnitude, is zero, as it is for a vector of zeros; and for vectors
    of equal length and nonzero magnitudes the dot product divided by the
    product of the magnitudes. *)
Theorem CosineSimilarity_spec a b :
  (List.length a <> List.length b -> CosineSimilarity a b = 0) /\
  (List.length a = List.length b ->
   (sumSquares a =? 0) = true \/ (sumSquares b =? 0) = true ->
   CosineSimilarity a b = 0) /\
  (Forall isZero a \/ Forall isZero b -> CosineSimilarity a b = 0) /\
  (List.length a = List.length b ->
   (sumSquares a =? 0) = false -> (sumSquares b =? 0) = false ->
   CosineSimilarity a b = dot a b / (magnitude a * magnitude b)).
Proof.
  assert (Hdiff : List.length a <> List.length b -> CosineSimilarity a b = 0).
  { intros Hlen. unfold CosineSimilarity.
    apply Nat.eqb_neq in Hlen. now rewrite Hlen. }
  assert (Hmag : List.length a = List.length b ->
                 (sumSquares a =? 0) = true \/ (sumSquares b =? 0) = true ->
                 CosineSimilarity a b = 0).
  { intros Hlen Hz. rewrite (CosineSimilarity_same_length a b Hlen).
    destruct Hz as [-> | ->]; [reflexivity|now rewrite orb_true_r]. }
  repeat split; try assumption.
  - intros Hz.
    destruct (Nat.eq_dec (List.length a) (List.length b)) as [Hlen|Hlen];
      [|now apply Hdiff].
    apply Hmag; [assumption|].
    destruct Hz as [Hz|Hz]; [left|right];
      now rewrite (sumSquares_zero _ Hz).
  - intros Hlen Ha Hb. rewrite (CosineSimilarity_same_length a b Hlen).
    now rewrite Ha, Hb.
Qed.

(** ** Failure and success of a run *)

Lemma retrievals_app evs evs' :
  retrievals (evs ++ evs') = retrievals evs ++ retrievals evs'.
Proof. apply flat_map_app. Qed.

Lemma itemsRetrieved_app evs evs' :
  itemsRetrieved (evs ++ evs')
  = (itemsRetrieved evs + itemsRetrieved evs')%nat.
Proof.
  unfold itemsRetrieved. now rewrite retrievals_app, map_app, list_sum_app.
Qed.

Lemma retrieve_run_failed request subreddit ptr err evs :
  retrieve_run request subreddit (ptr, err) evs ->
  existsb failed evs = match err with Some _ => true | None => false end.
Proof.
  inversion 1; subst; cbn; unfold failed; cbn;
    try (destruct err; reflexivity); reflexivity.
Qed.

Lemma retrieve_run_retrievals request subreddit resp evs :
  retrieve_run request subreddit (Some resp, None) evs ->
  retrievals evs = [(subreddit, Children (Data resp))].
Proof. inversion 1; subst; reflexivity. Qed.

Lemma retrieve_run_nil request subreddit evs :
  retrieve_run request subreddit (None, None) evs ->
  validSearchMethod request ->
  existsb nilResponse evs = true.
Proof.
  inversion 1; subst; intros [Hv|Hv]; try reflexivity; contradiction.
Qed.

Lemma posts_run_failed subredditName topic topicEmbedding threshold
    children acc dtos err evs :
  posts_run subredditName topic topicEmbedding threshold children acc
    (dtos, err) evs ->
  existsb failed evs = match err with Some _ => true | None => false end.
Proof.
  remember (dtos, err) as out eqn:Hout.
  induction 1; try (injection Hout as <- <-); try reflexivity.
  cbn. auto.
Qed.

Lemma posts_run_calls subredditName topic topicEmbedding threshold
    children acc out evs :
  posts_run subredditName topic topicEmbedding threshold children acc out evs ->
  retrievals evs = [] /\ existsb nilResponse evs = false.
Proof. induction 1; cbn; auto. Qed.

Lemma posts_run_success subredditName topic topicEmbedding threshold
    children acc dtos evs :
  posts_run subredditName topic topicEmbedding threshold children acc
    (dtos, None) evs ->
  exists new,
    dtos = acc ++ new /\
    Forall2 carries (map (pair subredditName) children) new.
Proof.
  remember (dtos, None) as out eqn:Hout.
  induction 1; try discriminate.
  - injection Hout as <-. exists []. rewrite app_nil_r. split; constructor.
  - destruct (IHposts_run Hout) as (new & -> & Hall).
    eexists (_ :: new). rewrite <- app_assoc. split; [reflexivity|].
    cbn. constructor; [|exact Hall]. split; reflexivity.
Qed.

Lemma subreddits_run_failed request topicEmbedding subreddits acc r evs :
  subreddits_run request topicEmbedding subreddits acc r evs ->
  existsb failed evs = true ->
  exists e, r = Done (emptyResponse, Some e).
Proof.
  induction 1; intros Hf.
  - discriminate.
  - eexists; reflexivity.
  - apply retrieve_run_failed in H. congruence.
  - eexists; reflexivity.
  - apply retrieve_run_failed in H. apply posts_run_failed in H0.
    rewrite !existsb_app, H, H0 in Hf. cbn in Hf. auto.
Qed.

Lemma subreddits_run_success request topicEmbedding subreddits acc r evs :
  subreddits_run request topicEmbedding subreddits acc r evs ->
  existsb failed evs = false ->
  existsb nilResponse evs = false ->
  validSearchMethod request ->
  exists new,
    r = Done ({| Posts := acc ++ new |}, None) /\
    List.length new = itemsRetrieved evs.
Proof.
  induction 1; intros Hf Hn Hv.
  - exists []. rewrite app_nil_r. split; reflexivity.
  - apply retrieve_run_failed in H. congruence.
  - apply retrieve_run_nil in H; [congruence|assumption].
  - apply posts_run_failed in H0.
    rewrite existsb_app, H0, orb_true_r in Hf. discriminate.
  - rewrite !existsb_app in Hf, Hn.
    apply orb_false_elim in Hf as [_ Hf]. apply orb_false_elim in Hf as [_ Hf].
    apply orb_false_elim in Hn as [_ Hn]. apply orb_false_elim in Hn as [_ Hn].
    destruct (IHsubreddits_run Hf Hn Hv) as (new & -> & Hlen).
    apply posts_run_success in H0 as Hs. destruct Hs as (got & -> & Hall).
    apply Forall2_length in Hall. rewrite length_map in Hall.
    exists (got ++ new). split; [cbn; now rewrite <- app_assoc|].
    assert (Hevs : itemsRetrieved evs = List.length (Children (Data resp))).
    { unfold itemsRetrieved.
      rewrite (retrieve_run_retrievals _ _ _ _ H). cbn. lia. }
    assert (Hevs' : itemsRetrieved evs' = O).
    { unfold itemsRetrieved.
      now destruct (posts_run_calls _ _ _ _ _ _ _ _ H0) as [-> _]. }
    rewrite !itemsRetrieved_app, length_app, Hlen, Hevs, Hevs', <- Hall.
    reflexivity.
Qed.

(** ** Order of the output *)

Lemma subreddits_run_order request topicEmbedding subreddits acc resp evs :
  subreddits_run request topicEmbedding subreddits acc
    (Done (resp, None)) evs ->
  exists new,
    Posts resp = acc ++ new /\
    map fst (retrievals evs) = subreddits /\
    Forall2 carries (flat_map tagged (retrievals evs)) new.
Proof.
  remember (Done (resp, None)) as r eqn:Hr.
  induction 1; try discriminate.
  - injection Hr as <-. exists []. cbn. rewrite app_nil_r.
    repeat split; constructor.
  - destruct (IHsubreddits_run Hr) as (new & -> & Hsrc & Hall).
    apply posts_run_success in H0 as Hs. destruct Hs as (got & -> & Hgot).
    exists (got ++ new). split; [cbn; now rewrite <- app_assoc|].
    rewrite !retrievals_app, (retrieve_run_retrievals _ _ _ _ H).
    destruct (posts_run_calls _ _ _ _ _ _ _ _ H0) as [-> _].
    cbn [app map fst flat_map]. split; [now f_equal|].
    apply Forall2_app; assumption.
Qed.

(** ** Classification *)

Lemma posts_run_classified subredditName topic topicEmbedding threshold
    children acc dtos err evs :
  posts_run subredditName topic topicEmbedding threshold children acc
    (dtos, err) evs ->
  Forall (classified threshold) acc ->
  Forall (classified threshold) dtos.
Proof.
  remember (dtos, err) as out eqn:Hout.
  induction 1; intros Hacc; try (injection Hout as <- <-); auto.
  apply IHposts_run; [assumption|].
  apply Forall_app. split; [assumption|]. now constructor.
Qed.

Lemma subreddits_run_classified request topicEmbedding subreddits acc resp
    err evs :
  subreddits_run request topicEmbedding subreddits acc (Done (resp, err)) evs ->
  Forall (classified (RelevanceThreshold request)) acc ->
  Forall (classified (RelevanceThreshold request)) (Posts resp).
Proof.
  remember (Done (resp, err)) as r eqn:Hr.
  induction 1; intros Hacc; try discriminate;
    try (injection Hr as <- <-; auto; fail).
  apply IHsubreddits_run; [assumption|].
  apply Forall_app. split; [assumption|].
  eapply posts_run_classified; [eassumption|constructor].
Qed.

(** ** Embedding requests *)

Lemma topicRequests_app evs evs' :
  topicRequests (evs ++ evs') = topicRequests evs ++ topicRequests evs'.
Proof. apply flat_map_app. Qed.

Lemma itemRequests_app evs evs' :
  itemRequests (evs ++ evs') = itemRequests evs ++ itemRequests evs'.
Proof. apply flat_map_app. Qed.

Lemma retrievedItems_app evs evs' :
  retrievedItems (evs ++ evs') = retrievedItems evs ++ retrievedItems evs'.
Proof. unfold retrievedItems. now rewrite retrievals_app, flat_map_app. Qed.

Lemma retrieve_run_embeddings request subreddit res evs :
  retrieve_run request subreddit res evs ->
  topicRequests evs = [] /\ itemRequests evs = [].
Proof. inversion 1; subst; split; reflexivity. Qed.

Lemma retrieve_run_items request subreddit resp evs :
  retrieve_run request subreddit (Some resp, None) evs ->
  retrievedItems evs = Children (Data resp).
Proof.
  intros H. unfold retrievedItems.
  rewrite (retrieve_run_retrievals _ _ _ _ H). cbn. apply app_nil_r.
Qed.

Lemma posts_run_topicRequests subredditName topic topicEmbedding threshold
    children acc out evs :
  posts_run subredditName topic topicEmbedding threshold children acc out evs ->
  topicRequests evs = [].
Proof. induction 1; cbn; auto. Qed.

Lemma subreddits_run_topicRequests request topicEmbedding subreddits acc r evs :
  subreddits_run request topicEmbedding subreddits acc r evs ->
  topicRequests evs = [].
Proof.
  induction 1; rewrite ?topicRequests_app;
    repeat match goal with
      | H : retrieve_run _ _ _ _ |- _ =>
          apply retrieve_run_embeddings in H as [-> _]
      | H : posts_run _ _ _ _ _ _ _ _ |- _ =>
          apply posts_run_topicRequests in H as ->
      end; auto.
Qed.

Lemma posts_run_itemRequests subredditName topic topicEmbedding threshold
    children acc out evs :
  posts_run subredditName topic topicEmbedding threshold children acc out evs ->
  (exists n, itemRequests evs = map itemText (firstn n children)) /\
  (snd out = None -> itemRequests evs = map itemText children).
Proof.
  induction 1 as [acc|post rest acc emb e|post rest acc emb resp e
                 |post rest acc emb summary out evs _ [[n IHn] IHall]].
  - split; [exists O|]; reflexivity.
  - split; [exists 1%nat; reflexivity|discriminate].
  - split; [exists 1%nat; reflexivity|discriminate].
  - split.
    + exists (S n). cbn. now rewrite <- IHn.
    + intros Hok. cbn. now rewrite <- (IHall Hok).
Qed.

Lemma subreddits_run_itemRequests request topicEmbedding subreddits acc r evs :
  subreddits_run request topicEmbedding subreddits acc r evs ->
  (exists n, itemRequests evs = map itemText (firstn n (retrievedItems evs))) /\
  (forall resp, r = Done (resp, None) ->
                itemRequests evs = map itemText (retrievedItems evs)).
Proof.
  induction 1 as [acc|subreddit rest acc ptr e evs Hret
                 |subreddit rest acc evs Hret
                 |subreddit rest acc resp evs dtos e evs' Hret Hposts
                 |subreddit rest acc resp evs dtos evs' out evs'' Hret Hposts
                    _ [[n IHn] IHall]].
  - split; [exists O|]; reflexivity.
  - apply retrieve_run_embeddings in Hret as [_ Hitems].
    split; [exists O; now rewrite Hitems|discriminate].
  - apply retrieve_run_embeddings in Hret as [_ Hitems].
    split; [exists O; now rewrite Hitems|discriminate].
  - split; [|discriminate].
    destruct (posts_run_itemRequests _ _ _ _ _ _ _ _ Hposts) as [[n Hn] _].
    destruct (posts_run_calls _ _ _ _ _ _ _ _ Hposts) as [Hnone _].
    exists n. rewrite itemRequests_app, retrievedItems_app, Hn.
    rewrite (retrieve_run_items _ _ _ _ Hret).
    apply retrieve_run_embeddings in Hret as [_ ->].
    unfold retrievedItems at 1. rewrite Hnone. cbn. now rewrite app_nil_r.
  - destruct (posts_run_itemRequests _ _ _ _ _ _ _ _ Hposts) as [_ Hall].
    specialize (Hall eq_refl).
    destruct (posts_run_calls _ _ _ _ _ _ _ _ Hposts) as [Hnone _].
    assert (Hshape :
              itemRequests (evs ++ evs' ++ evs'')
              = map itemText (Children (Data resp)) ++ itemRequests evs''
              /\ retrievedItems (evs ++ evs' ++ evs'')
                 = Children (Data resp) ++ retrievedItems evs'').
    { rewrite !itemRequests_app, !retrievedItems_app, Hall.
      rewrite (retrieve_run_items _ _ _ _ Hret).
      apply retrieve_run_embeddings in Hret as [_ ->].
      unfold retrievedItems at 1. rewrite Hnone. split; reflexivity. }
    destruct Hshape as [-> ->]. split.
    + exists (List.length (Children (Data resp)) + n)%nat.
      now rewrite firstn_app_2, map_app, IHn.
    + intros resp' Hok. now rewrite map_app, (IHall resp' Hok).
Qed.

(** ** The error of a failed item embedding *)

Lemma posts_run_item_error subredditName topic topicEmbedding threshold
    children acc dtos err evs text emb e :
  posts_run subredditName topic topicEmbedding threshold children acc
    (dtos, err) evs ->
  In (EvGetEmbedding ItemEmbedding text (emb, Some e)) evs ->
  err = Some (Wrap (Wrap e "error getting embedding")
                "error getting relevance score").
Proof.
  remember (dtos, err) as out eqn:Hout.
  induction 1; intros Hin.
  - contradiction.
  - destruct Hin as [[= _ _ <-]|[]]. now injection Hout as _ <-.
  - destruct Hin as [[=]|[[=]|[]]].
  - destruct Hin as [[=]|[[=]|Hin]]. auto.
Qed.

Lemma retrieve_run_no_embedding request subreddit res evs site text out :
  retrieve_run request subreddit res evs ->
  ~ In (EvGetEmbedding site text out) evs.
Proof. inversion 1; subst; cbn; intuition discriminate. Qed.

Lemma subreddits_run_item_error request topicEmbedding subreddits acc r evs
    text emb e :
  subreddits_run request topicEmbedding subreddits acc r evs ->
  In (EvGetEmbedding ItemEmbedding text (emb, Some e)) evs ->
  r = Done (emptyResponse,
            Some (Wrap (Wrap (Wrap e "error getting embedding")
                          "error getting relevance score")
                    "error evaluating subreddit posts")).
Proof.
  induction 1 as [acc|subreddit rest acc ptr e0 evs Hret
                 |subreddit rest acc evs Hret
                 |subreddit rest acc resp evs dtos e0 evs' Hret Hposts
                 |subreddit rest acc resp evs dtos evs' out evs'' Hret Hposts
                    _ IH]; intros Hin.
  - contradiction.
  - now apply (retrieve_run_no_embedding _ _ _ _ _ _ _ Hret) in Hin.
  - now apply (retrieve_run_no_embedding _ _ _ _ _ _ _ Hret) in Hin.
  - apply in_app_or in Hin as [Hin|Hin].
    + now apply (retrieve_run_no_embedding _ _ _ _ _ _ _ Hret) in Hin.
    + apply (posts_run_item_error _ _ _ _ _ _ _ _ _ _ _ _ Hposts) in Hin.
      now injection Hin as ->.
  - apply in_app_or in Hin as [Hin|Hin].
    + now apply (retrieve_run_no_embedding _ _ _ _ _ _ _ Hret) in Hin.
    + apply in_app_or in Hin as [Hin|Hin]; [|now apply IH].
      apply (posts_run_item_error _ _ _ _ _ _ _ _ _ _ _ _ Hposts) in Hin.
      discriminate.
Qed.

(** ** A search method that is neither constant *)

Lemma subreddits_run_unknown_method request topicEmbedding subreddit rest acc
    r evs :
  SearchMethod_ request <> SearchMethodSearch ->
  SearchMethod_ request <> SearchMethodLatest ->
  subreddits_run request topicEmbedding (subreddit :: rest) acc r evs ->
  r = Panic /\ evs = [].
Proof.
  intros Hs Hl Hrun.
  inversion Hrun as [|? ? ? ? ? ? Hret|? ? ? ? Hret|? ? ? ? ? ? ? ? Hret
                    |? ? ? ? ? ? ? ? ? Hret]; subst;
    inversion Hret; subst; try contradiction.
  split; reflexivity.
Qed.

(** ** Where a phrase can occur in a message *)

Lemma prefix_disagree q : forall sub t,
  fmt.agree q sub = false -> prefix sub (q ++ t) = false.
Proof.
  induction q as [|a q' IH]; intros [|b sub'] t; try discriminate.
  cbn [fmt.agree append prefix]. intros Hagree.
  destruct (ascii_dec b a) as [->|Hne]; [|reflexivity].
  rewrite Ascii.eqb_refl in Hagree. now apply IH.
Qed.

Lemma Contains_after_clear p sub t :
  fmt.clear p sub = true -> fmt.Contains (p ++ t) sub = fmt.Contains t sub.
Proof.
  induction p as [|a p' IH]; [reflexivity|].
  intros Hclear.
  change (fmt.clear (String a p') sub)
    with (negb (fmt.agree (String a p') sub) && fmt.clear p' sub) in Hclear.
  apply andb_prop in Hclear as [Hq Hrest].
  apply negb_true_iff in Hq.
  change (fmt.Contains (String a p' ++ t) sub)
    with (if prefix sub (String a p' ++ t) then true
          else fmt.Contains (p' ++ t) sub).
  rewrite (prefix_disagree _ _ t Hq). now apply IH.
Qed.

Section Runs.

Context {Ctx W : Type}.
Variable s : @relevanceService Ctx W.

Ltac call_step :=
  match goal with
  | |- context [GetEmbedding ?c ?x ?t ?w] =>
      destruct (GetEmbedding c x t w) as [[? [?|]] ?]
  | |- context [Chat ?c ?x ?m ?w] =>
      destruct (Chat c x m w) as [[? [?|]] ?]
  | |- context [SearchPosts ?c ?a ?b ?l ?w] =>
      destruct (SearchPosts c a b l w) as [[[?|] [?|]] ?]
  | |- context [GetPosts ?c ?a ?l ?w] =>
      destruct (GetPosts c a l w) as [[[?|] [?|]] ?]
  end; cbn.

Lemma evaluatePosts_run ctx subredditName topic topicEmbedding threshold :
  forall children acc w r evs w',
    evaluatePosts s ctx subredditName children topic topicEmbedding
      threshold acc w = (r, evs, w') ->
    exists out,
      r = Done out /\
      posts_run subredditName topic topicEmbedding threshold children acc
        out evs.
Proof.
  induction children as [|post rest IH]; intros acc w r evs w'.
  - cbn. intros [= <- <- <-]. eexists; split; [reflexivity|constructor].
  - cbn -[CosineSimilarity summaryPrompt].
    unfold bind, getRelevanceScore, getRelevanceSummary, bind,
      callGetEmbedding, callChat.
    call_step.
    + intros [= <- <- <-]. eexists; split; [reflexivity|].
      apply posts_embedding_failed.
    + call_step.
      * intros [= <- <- <-]. eexists; split; [reflexivity|].
        apply posts_summary_failed.
      * match goal with
        | |- context [evaluatePosts s ctx ?a ?b ?c ?d ?e ?f ?g] =>
            destruct (evaluatePosts s ctx a b c d e f g)
              as [[rr revs] rw] eqn:E
        end.
        intros [= <- <- <-].
        apply IH in E as (out & -> & Hrun).
        eexists; split; [reflexivity|].
        apply posts_next. exact Hrun.
Qed.

Lemma retrieve_is_run request subreddit w r evs w' :
  retrieve s request subreddit w = (r, evs, w') ->
  exists res, r = Done res /\ retrieve_run request subreddit res evs.
Proof.
  unfold retrieve.
  destruct (String.eqb (SearchMethod_ request) SearchMethodSearch) eqn:Hs.
  - apply String.eqb_eq in Hs. unfold callSearchPosts.
    destruct (SearchPosts _ _ _ _ _) as [res w1].
    intros [= <- <- <-]. exists res. split; [reflexivity|].
    now apply retrieve_search.
  - apply String.eqb_neq in Hs.
    destruct (String.eqb (SearchMethod_ request) SearchMethodLatest) eqn:Hl.
    + apply String.eqb_eq in Hl. unfold callGetPosts.
      destruct (GetPosts _ _ _ _) as [res w1].
      intros [= <- <- <-]. exists res. split; [reflexivity|].
      now apply retrieve_latest.
    + apply String.eqb_neq in Hl.
      intros [= <- <- <-]. exists (None, None). split; [reflexivity|].
      now apply retrieve_nothing.
Qed.

Lemma evaluateSubreddits_run ctx request topicEmbedding :
  forall subreddits acc w r evs w',
    evaluateSubreddits s ctx request subreddits topicEmbedding acc w
    = (r, evs, w') ->
    subreddits_run request topicEmbedding subreddits acc r evs.
Proof.
  induction subreddits as [|subreddit rest IH]; intros acc w r evs w'.
  - cbn. intros [= <- <- <-]. constructor.
  - cbn. unfold bind at 1.
    destruct (retrieve s request subreddit w) as [[r1 evs1] w1] eqn:Hret.
    apply retrieve_is_run in Hret as ([ptr err] & -> & Hret).
    destruct err as [e|].
    { cbn. intros [= <- <- <-]. rewrite app_nil_r.
      eapply subreddits_retrieval_failed; eassumption. }
    unfold bind at 1.
    destruct ptr as [resp|]; cbn -[evaluatePosts].
    2:{ intros [= <- <- <-]. rewrite app_nil_r.
        now apply subreddits_nil_pointer. }
    destruct (evaluatePosts _ _ _ _ _ _ _ _ w1) as [[r2 evs2] w2] eqn:Hev.
    apply evaluatePosts_run in Hev as ([dtos err] & -> & Hev).
    destruct err as [e|].
    { cbn. intros [= <- <- <-]. rewrite app_nil_r.
      eapply subreddits_evaluation_failed; eassumption. }
    destruct (evaluateSubreddits _ _ _ _ _ _ w2) as [[r3 evs3] w3] eqn:Hrest.
    intros [= <- <- <-].
    apply IH in Hrest.
    eapply subreddits_next; eassumption.
Qed.

(** Every run of [GetRelevantPosts] is a [pipeline_run]. *)
Lemma GetRelevantPosts_run ctx request w r evs w' :
  GetRelevantPosts s ctx request w = (r, evs, w') ->
  pipeline_run request r evs.
Proof.
  unfold GetRelevantPosts, bind, callGetEmbedding.
  destruct (GetEmbedding _ _ _ _) as [[emb [e|]] w1]; cbn.
  - intros [= <- <- <-]. apply pipeline_topic_failed.
  - destruct (evaluateSubreddits _ _ _ _ _ _ w1) as [[r1 evs1] w2] eqn:E.
    intros [= <- <- <-].
    apply evaluateSubreddits_run in E.
    now apply pipeline_sources.
Qed.

(** Observations of a whole run, from those of its source loop. *)
Lemma flat_map_tagged_length rs :
  List.length (flat_map tagged rs)
  = list_sum (map (fun r => List.length (snd r)) rs).
Proof.
  induction rs as [|r rs IH]; [reflexivity|].
  cbn. unfold tagged at 1. now rewrite length_app, length_map, IH.
Qed.


(** C2.  On a successful run the output is the concatenation, over the
    source identifiers in request order, of the items each retrieval
    returned, in the order it returned them; each element carries the
    identifier of its source; and the length of the output is the sum of
    the numbers of items retrieved. *)
Theorem GetRelevantPosts_order ctx request w resp evs w' :
  GetRelevantPosts s ctx request w = (Done (resp, None), evs, w') ->
  map fst (retrievals evs) = Subreddits request /\
  Forall2 carries (flat_map tagged (retrievals evs)) (Posts resp) /\
  List.length (Posts resp) = itemsRetrieved evs.
Proof.
  intros Hrun. apply GetRelevantPosts_run in Hrun.
  inversion Hrun as [|topicEmbedding out evs0 Hsubs]; subst.
  apply subreddits_run_order in Hsubs as (new & Hposts & Hsrc & Hall).
  cbn in Hposts. rewrite Hposts.
  change (retrievals (?e :: evs0)) with (retrievals evs0).
  change (itemsRetrieved (?e :: evs0)) with (itemsRetrieved evs0).
  repeat split; try assumption.
  apply Forall2_length in Hall. rewrite <- Hall.
  apply flat_map_tagged_length.
Qed.

(** C3.  Every element of the output is classified by
    [score >= threshold], and the boundary is inclusive: an element whose
    score equals the threshold is relevant. *)
Theorem classification_inclusive ctx request w resp err evs w' :
  GetRelevantPosts s ctx request w = (Done (resp, err), evs, w') ->
  Forall
    (fun dto =>
       IsRelevant dto = (RelevanceThreshold request <=? RelevanceScore dto) /\
       ((RelevanceScore dto =? RelevanceThreshold request) = true ->
        IsRelevant dto = true))
    (Posts resp).
Proof.
  intros Hrun. apply GetRelevantPosts_run in Hrun.
  inversion Hrun as [emb e|topicEmbedding out evs0 Hsubs]; subst.
  - constructor.
  - apply subreddits_run_classified in Hsubs; [|constructor].
    eapply Forall_impl; [|exact Hsubs].
    intros dto Hdto. split; [exact Hdto|].
    intros Heq. rewrite Hdto. now apply eqb_leb.
Qed.

(** C4, as the code has it.  With threshold 0 an element is relevant
    exactly when its score is at least 0: a negative score (or a NaN) is
    not relevant. *)
Theorem threshold_zero_classification ctx request w resp err evs w' :
  (RelevanceThreshold request =? 0) = true ->
  GetRelevantPosts s ctx request w = (Done (resp, err), evs, w') ->
  Forall (fun dto => IsRelevant dto = (0 <=? RelevanceScore dto))
    (Posts resp).
Proof.
  intros Hzero Hrun. apply GetRelevantPosts_run in Hrun.
  inversion Hrun as [emb e|topicEmbedding out evs0 Hsubs]; subst.
  - constructor.
  - apply subreddits_run_classified in Hsubs; [|constructor].
    eapply Forall_impl; [|exact Hsubs].
    intros dto Hdto. unfold classified in Hdto.
    now rewrite Hdto, (eqb_zero_leb _ _ Hzero).
Qed.

(** C6, as the code has it.  In every run the topic embedding is requested
    exactly once, for the topic of the request.  With an empty source list
    the run makes no other call: if that request returns no error the run
    succeeds with the empty list, and if it returns an error the run returns
    that error, wrapped. *)
Theorem topic_embedding_once ctx request w r evs w' :
  GetRelevantPosts s ctx request w = (r, evs, w') ->
  topicRequests evs = [Topic request] /\
  (Subreddits request = [] ->
   exists emb err,
     evs = [EvGetEmbedding TopicEmbedding (Topic request) (emb, err)] /\
     r = Done (match err with
               | None => ({| Posts := [] |}, None)
               | Some e =>
                   (emptyResponse,
                    Some (Wrap e "error getting topic embedding"))
               end)).
Proof.
  intros Hrun. apply GetRelevantPosts_run in Hrun.
  destruct Hrun as [emb e|topicEmbedding out evs Hsubs].
  - split; [reflexivity|]. intros _. exists emb, (Some e). now split.
  - split.
    + change (topicRequests (?ev :: evs))
        with (Topic request :: topicRequests evs).
      now rewrite (subreddits_run_topicRequests _ _ _ _ _ _ Hsubs).
    + intros Hempty. rewrite Hempty in Hsubs.
      inversion Hsubs; subst. exists topicEmbedding, None. now split.
Qed.

(** C7.  The text of every item-embedding request is the title of the item,
    the separator [". "] and the body of the item: the requests of a run
    are, in order, those texts for the items retrieved (all of them when the
    run succeeds, the first few when it stops early), and for an empty body
    the text is the title followed by the separator. *)
Theorem item_embedding_text ctx request w r evs w' :
  GetRelevantPosts s ctx request w = (r, evs, w') ->
  (exists n,
     itemRequests evs
     = map (fun post =>
              (reddit.Title (ChildData post) ++ ". "
               ++ Selftext (ChildData post))%string)
         (firstn n (retrievedItems evs))) /\
  (forall resp,
     r = Done (resp, None) ->
     itemRequests evs
     = map (fun post =>
              (reddit.Title (ChildData post) ++ ". "
               ++ Selftext (ChildData post))%string)
         (retrievedItems evs)) /\
  (forall title topicEmbedding w0,
     itemRequests
       (snd (fst (getRelevanceScore s ctx title "" topicEmbedding w0)))
     = [(title ++ ". ")%string]).
Proof.
  intros Hrun. apply GetRelevantPosts_run in Hrun. split; [|split].
  - destruct Hrun as [emb e|topicEmbedding out evs Hsubs].
    + exists O. reflexivity.
    + destruct (subreddits_run_itemRequests _ _ _ _ _ _ Hsubs) as [[n Hn] _].
      exists n. exact Hn.
  - intros resp ->.
    inversion Hrun as [|topicEmbedding out evs0 Hsubs]; subst.
    exact (proj2 (subreddits_run_itemRequests _ _ _ _ _ _ Hsubs) resp eq_refl).
  - intros title topicEmbedding w0.
    unfold getRelevanceScore, bind, callGetEmbedding.
    destruct (GetEmbedding _ _ _ _) as [[emb [e|]] w1]; reflexivity.
Qed.

(** C8, as the code has it.  When an item-embedding request fails, the run
    returns the error of that request wrapped, innermost first, with
    ["error getting embedding"], ["error getting relevance score"] and
    ["error evaluating subreddit posts"]: its contexts name the
    "relevance score" stage.  None of the three contexts contains the phrase
    "item embedding": the returned error has a context with that phrase, and
    the returned message contains it, exactly when the error of the failing
    request does. *)
Theorem item_embedding_error_contexts ctx request w r evs w' text emb e :
  GetRelevantPosts s ctx request w = (r, evs, w') ->
  In (EvGetEmbedding ItemEmbedding text (emb, Some e)) evs ->
  exists e',
    r = Done (emptyResponse, Some e') /\
    e' = Wrap (Wrap (Wrap e "error getting embedding")
                 "error getting relevance score")
           "error evaluating subreddit posts" /\
    hasContext e' "relevance score" = true /\
    Error e'
    = ("error evaluating subreddit posts: error getting relevance score: error getting embedding: "
       ++ Error e)%string /\
    contexts e'
    = ["error evaluating subreddit posts"; "error getting relevance score";
       "error getting embedding"]%string ++ contexts e /\
    (forall msg,
       In msg ["error evaluating subreddit posts";
               "error getting relevance score";
               "error getting embedding"]%string ->
       fmt.Contains msg "item embedding" = false) /\
    hasContext e' "item embedding" = hasContext e "item embedding" /\
    fmt.Contains (Error e') "item embedding"
    = fmt.Contains (Error e) "item embedding".
Proof.
  intros Hrun Hin. apply GetRelevantPosts_run in Hrun.
  destruct Hrun as [emb0 e0|topicEmbedding out evs Hsubs].
  - destruct Hin as [[=]|[]].
  - destruct Hin as [[=]|Hin].
    eexists. split; [eapply subreddits_run_item_error; eassumption|].
    split; [reflexivity|]. split; [reflexivity|]. split; [reflexivity|].
    split; [reflexivity|].
    split; [now intros msg [<-|[<-|[<-|[]]]]|].
    split; [reflexivity|].
    exact (Contains_after_clear
             "error evaluating subreddit posts: error getting relevance score: error getting embedding: "
             "item embedding" (Error e) eq_refl).
Qed.

(** C9, as the code has it.  For a request whose search method is neither
    ["search"] nor ["latest"] and whose source list is not empty, a run
    makes no retrieval call; when the topic embedding returns no error the
    run dereferences the nil retrieval result and panics, returning neither
    a result nor an error; when the topic embedding fails the run returns
    that error. *)
Theorem unknown_method_nil_dereference ctx request w r evs w' :
  SearchMethod_ request <> SearchMethodSearch ->
  SearchMethod_ request <> SearchMethodLatest ->
  Subreddits request <> [] ->
  GetRelevantPosts s ctx request w = (r, evs, w') ->
  filter isRetrieval evs = [] /\
  (existsb failed evs = false -> r = Panic) /\
  (existsb failed evs = true ->
   exists e,
     r = Done (emptyResponse, Some (Wrap e "error getting topic embedding"))).
Proof.
  intros Hs Hl Hne Hrun. apply GetRelevantPosts_run in Hrun.
  destruct Hrun as [emb e|topicEmbedding out evs Hsubs].
  - split; [reflexivity|]. split; [discriminate|]. intros _. now exists e.
  - destruct (Subreddits request) as [|subreddit rest]; [contradiction|].
    destruct (subreddits_run_unknown_method _ _ _ _ _ _ _ Hs Hl Hsubs)
      as [-> ->].
    split; [reflexivity|]. split; [reflexivity|discriminate].
Qed.

Lemma retrieve_unused_fields request1 request2 subreddit w :
  Topic request1 = Topic request2 ->
  Limit request1 = Limit request2 ->
  SearchMethod_ request1 = SearchMethod_ request2 ->
  retrieve s request1 subreddit w = retrieve s request2 subreddit w.
Proof. unfold retrieve. now intros -> -> ->. Qed.

Lemma evaluateSubreddits_unused_fields ctx request1 request2 topicEmbedding :
  Topic request1 = Topic request2 ->
  RelevanceThreshold request1 = RelevanceThreshold request2 ->
  Limit request1 = Limit request2 ->
  SearchMethod_ request1 = SearchMethod_ request2 ->
  forall subreddits acc w,
    evaluateSubreddits s ctx request1 subreddits topicEmbedding acc w
    = evaluateSubreddits s ctx request2 subreddits topicEmbedding acc w.
Proof.
  intros Ht Hthr Hl Hm.
  induction subreddits as [|subreddit rest IH]; intros acc w; [reflexivity|].
  cbn [evaluateSubreddits]. unfold bind at 1 3.
  rewrite (retrieve_unused_fields request1 request2 subreddit w Ht Hl Hm).
  destruct (retrieve s request2 subreddit w) as [[[[ptr [e|]]|] evs] w1];
    try reflexivity.
  rewrite Ht, Hthr. unfold bind.
  destruct (evaluateSubredditPosts _ _ _ _ _ _ _ w1)
    as [[[[dtos [e|]]|] evs1] w2]; try reflexivity.
  now rewrite IH.
Qed.

(** C10.  Two requests that differ only in [CreatedAfter] and
    [MinNumComments] make the same calls, leave the world in the same state
    and return the same result. *)
Theorem unused_fields_no_influence ctx request1 request2 w :
  Topic request1 = Topic request2 ->
  Subreddits request1 = Subreddits request2 ->
  RelevanceThreshold request1 = RelevanceThreshold request2 ->
  Limit request1 = Limit request2 ->
  SearchMethod_ request1 = SearchMethod_ request2 ->
  GetRelevantPosts s ctx request1 w = GetRelevantPosts s ctx request2 w.
Proof.
  intros Ht Hsubs Hthr Hl Hm.
  unfold GetRelevantPosts, bind. rewrite Ht, Hsubs.
  destruct (callGetEmbedding s TopicEmbedding ctx (Topic request2) w)
    as [[[[emb [e|]]|] evs] w1]; try reflexivity.
  now rewrite (evaluateSubreddits_unused_fields ctx request1 request2 emb
                 Ht Hthr Hl Hm).
Qed.

End Runs.


(** The same run: the first element comes from [programming], the second
    from [golang]. *)
Lemma GetRelevantPosts_order_witness :
  map SubredditName
    (match fst (fst (GetRelevantPosts mocks.twoSources tt
                       (mocks.request "programming" ["programming"; "golang"]
                          0.5 SearchMethodSearch) tt)) with
     | Done (resp, _) => Posts resp
     | Panic => []
     end)
  = ["programming"; "golang"]%string
  /\ map fst (retrievals
               (snd (fst (GetRelevantPosts mocks.twoSources tt
                            (mocks.request "programming"
                               ["programming"; "golang"] 0.5
                               SearchMethodSearch) tt))))
     = ["programming"; "golang"]%string.
Proof.
  split; [reflexivity|].
  exact (proj1 (GetRelevantPosts_order mocks.twoSources tt
                  (mocks.request "programming" ["programming"; "golang"] 0.5
                     SearchMethodSearch) tt _ _ _ eq_refl)).
Defined.

(** A post whose score equals the threshold, both exactly 1, is relevant. *)
Lemma classification_inclusive_witness :
  Forall
    (fun dto =>
       IsRelevant dto = (1 <=? RelevanceScore dto) /\
       ((RelevanceScore dto =? 1) = true -> IsRelevant dto = true))
    [MapRedditResponseToSubredditPostDto mocks.testPost "test" 1 true
       "This post is about the topic"].
Proof.
  exact (classification_inclusive mocks.identicalService tt
           (mocks.searchRequest 1) tt _ _ _ _ eq_refl).
Defined.

(** C4 fails as stated: with threshold 0, a post whose embedding is opposite
    to the topic's has score -1 and is classified not relevant. *)
Lemma threshold_zero_counterexample :
  RelevanceThreshold (mocks.searchRequest 0) = 0 /\
  exists resp,
    fst (fst (GetRelevantPosts mocks.oppositeService tt
                (mocks.searchRequest 0) tt)) = Done (resp, None) /\
    map RelevanceScore (Posts resp) = [-1] /\
    map IsRelevant (Posts resp) = [false].
Proof.
  split; [reflexivity|].
  eexists. split; [reflexivity|]. split; reflexivity.
Qed.

(** The same run: the post is classified by [0 <= -1]. *)
Lemma threshold_zero_classification_witness :
  Forall (fun dto => IsRelevant dto = (0 <=? RelevanceScore dto))
    [MapRedditResponseToSubredditPostDto mocks.testPost "test" (-1) false
       "This post is unrelated to the topic"].
Proof.
  exact (threshold_zero_classification mocks.oppositeService tt
           (mocks.searchRequest 0) tt _ _ _ _ eq_refl eq_refl).
Defined.

(** The vectors of [DifferentLengths], [OneZeroVector] and
    [OppositeVectors]. *)
Lemma CosineSimilarity_spec_witness :
  CosineSimilarity [1; 2; 3] [1; 2] = 0 /\
  CosineSimilarity [1; 2; 3] [0; 0; 0] = 0 /\
  CosineSimilarity [1; 0; 0] [-1; 0; 0]
  = dot [1; 0; 0] [-1; 0; 0] / (magnitude [1; 0; 0] * magnitude [-1; 0; 0]).
Proof.
  split; [|split].
  - apply (proj1 (CosineSimilarity_spec [1; 2; 3] [1; 2])). discriminate.
  - apply (proj1 (proj2 (proj2 (CosineSimilarity_spec [1; 2; 3] [0; 0; 0])))).
    right. repeat constructor.
  - apply (proj2 (proj2 (proj2 (CosineSimilarity_spec [1; 0; 0] [-1; 0; 0]))));
      reflexivity.
Defined.

(** C6 fails as stated: with an empty source list and a failing topic
    embedding, the run does not succeed. *)
Lemma empty_sources_counterexample :
  Subreddits mocks.emptyRequest = [] /\
  fst (fst (GetRelevantPosts mocks.llmEmbeddingError tt mocks.emptyRequest tt))
  = Done (emptyResponse,
          Some (Wrap (New "LLM service unavailable")
                  "error getting topic embedding")).
Proof. split; reflexivity. Qed.

(** The run of [EmptySubreddits]: one topic request, no other call, and the
    empty list. *)
Lemma topic_embedding_once_witness :
  topicRequests
    (snd (fst (GetRelevantPosts mocks.identicalService tt mocks.emptyRequest
                 tt)))
  = ["test topic"%string] /\
  exists emb err,
    [EvGetEmbedding TopicEmbedding "test topic" ([1; 0; 0], None)]
    = [EvGetEmbedding TopicEmbedding (Topic mocks.emptyRequest) (emb, err)] /\
    Done ({| Posts := [] |}, None)
    = Done (match err with
            | None => ({| Posts := [] |}, None)
            | Some e =>
                (emptyResponse, Some (Wrap e "error getting topic embedding"))
            end).
Proof.
  destruct (topic_embedding_once mocks.identicalService tt mocks.emptyRequest
              tt _ _ _ eq_refl) as [Honce Hempty].
  split; [exact Honce | exact (Hempty eq_refl)].
Defined.

(** A post with an empty body: the text ends with the separator. *)
Lemma item_embedding_text_witness :
  itemRequests
    (snd (fst (GetRelevantPosts mocks.titleOnlyService tt
                 (mocks.searchRequest 0.5) tt)))
  = ["Title only. "%string].
Proof.
  exact (proj1 (proj2 (item_embedding_text mocks.titleOnlyService tt
                         (mocks.searchRequest 0.5) tt _ _ _ eq_refl))
           _ eq_refl).
Defined.

(** C8 fails as stated: in the run of [PostEmbeddingError] no context of the
    returned error, and no part of its message, mentions "item embedding". *)
Lemma item_embedding_context_counterexample :
  exists e,
    fst (fst (GetRelevantPosts mocks.postEmbeddingError tt
                (mocks.searchRequest 0.5) tt))
    = Done (emptyResponse, Some e) /\
    Error e
    = "error evaluating subreddit posts: error getting relevance score: error getting embedding: embedding generation failed"%string /\
    hasContext e "item embedding" = false /\
    fmt.Contains (Error e) "item embedding" = false.
Proof. eexists. repeat split; reflexivity. Qed.

(** The same run: the error names the relevance-score stage, and the
    phrase "item embedding" is not in its message, as it is not in the
    message of the embedding service. *)
Lemma item_embedding_error_contexts_witness :
  exists e',
    Done (emptyResponse,
          Some (Wrap (Wrap (Wrap (New "embedding generation failed")
                              "error getting embedding")
                        "error getting relevance score")
                  "error evaluating subreddit posts"))
    = Done (emptyResponse, Some e') /\
    e' = Wrap (Wrap (Wrap (New "embedding generation failed")
                       "error getting embedding")
                 "error getting relevance score")
           "error evaluating subreddit posts" /\
    hasContext e' "relevance score" = true /\
    Error e'
    = "error evaluating subreddit posts: error getting relevance score: error getting embedding: embedding generation failed"%string /\
    contexts e'
    = ["error evaluating subreddit posts"; "error getting relevance score";
       "error getting embedding"]%string /\
    (forall msg,
       In msg ["error evaluating subreddit posts";
               "error getting relevance score";
               "error getting embedding"]%string ->
       fmt.Contains msg "item embedding" = false) /\
    hasContext e' "item embedding" = false /\
    fmt.Contains (Error e') "item embedding" = false.
Proof.
  refine (item_embedding_error_contexts mocks.postEmbeddingError tt
            (mocks.searchRequest 0.5) tt _ _ _
            "Test Post. Test content" [] (New "embedding generation failed")
            eq_refl _).
  right. right. left. reflexivity.
Defined.

(** C9 fails as stated: with an unknown search method and a failing topic
    embedding, the run returns an error. *)
Lemma unknown_method_counterexample :
  SearchMethod_ mocks.unknownMethodRequest <> SearchMethodSearch /\
  SearchMethod_ mocks.unknownMethodRequest <> SearchMethodLatest /\
  Subreddits mocks.unknownMethodRequest <> [] /\
  fst (fst (GetRelevantPosts mocks.llmEmbeddingError tt
              mocks.unknownMethodRequest tt))
  = Done (emptyResponse,
          Some (Wrap (New "LLM service unavailable")
                  "error getting topic embedding")).
Proof. repeat split; try discriminate. Qed.

(** An unknown search method with a working embedding service: the run
    panics after the topic embedding, with no retrieval call. *)
Lemma unknown_method_nil_dereference_witness :
  fst (fst (GetRelevantPosts mocks.identicalService tt
              mocks.unknownMethodRequest tt)) = Panic /\
  filter isRetrieval
    (snd (fst (GetRelevantPosts mocks.identicalService tt
                 mocks.unknownMethodRequest tt))) = [].
Proof.
  assert (Hs : SearchMethod_ mocks.unknownMethodRequest <> SearchMethodSearch)
    by discriminate.
  assert (Hl : SearchMethod_ mocks.unknownMethodRequest <> SearchMethodLatest)
    by discriminate.
  assert (Hne : Subreddits mocks.unknownMethodRequest <> []) by discriminate.
  destruct (unknown_method_nil_dereference mocks.identicalService tt
              mocks.unknownMethodRequest tt _ _ _ Hs Hl Hne eq_refl)
    as [Hnone [Hpanic _]].
  split; [apply Hpanic; reflexivity | exact Hnone].
Defined.

(** Setting the two filter fields changes nothing in the run. *)
Lemma unused_fields_no_influence_witness :
  GetRelevantPosts mocks.identicalService tt mocks.filteredRequest tt
  = GetRelevantPosts mocks.identicalService tt (mocks.searchRequest 0.5) tt.
Proof.
  apply (unused_fields_no_influence mocks.identicalService tt
           mocks.filteredRequest (mocks.searchRequest 0.5) tt);
    reflexivity.
Defined.

(* ------------------------------------------------------------------ *)
(** * Further properties of the pipeline *)

Import trace.

(** ** The run stops at the first failure *)

Lemma failsOnlyLast_quiet evs :
  existsb failed evs = false -> failsOnlyLast evs = true.
Proof.
  induction evs as [|ev [|ev' rest] IH]; try reflexivity.
  intros H. change (failed ev || existsb failed (ev' :: rest) = false) in H.
  apply orb_false_elim in H as [Hev Hrest].
  change (negb (failed ev) && failsOnlyLast (ev' :: rest) = true).
  now rewrite Hev, (IH Hrest).
Qed.

Lemma failsOnlyLast_app evs evs' :
  existsb failed evs = false ->
  failsOnlyLast evs' = true ->
  failsOnlyLast (evs ++ evs') = true.
Proof.
  induction evs as [|ev rest IH]; intros Hq Hl; [exact Hl|].
  change (failed ev || existsb failed rest = false) in Hq.
  apply orb_false_elim in Hq as [Hev Hrest].
  specialize (IH Hrest Hl).
  change ((ev :: rest) ++ evs') with (ev :: (rest ++ evs')).
  destruct (rest ++ evs') as [|ev' tail]; [reflexivity|].
  change (negb (failed ev) && failsOnlyLast (ev' :: tail) = true).
  now rewrite Hev, IH.
Qed.

Lemma failsOnlyLast_last evs :
  failsOnlyLast evs = true ->
  forall before ev after,
    evs = before ++ ev :: after -> failed ev = true -> after = [].
Proof.
  intros Hl before. revert evs Hl.
  induction before as [|x before IH]; intros evs Hl ev after -> Hev.
  - destruct after as [|ev' after]; [reflexivity|].
    change (negb (failed ev) && failsOnlyLast (ev' :: after) = true) in Hl.
    now rewrite Hev in Hl.
  - change ((x :: before) ++ ev :: after)
      with (x :: (before ++ ev :: after)) in Hl.
    destruct (before ++ ev :: after) as [|y tail] eqn:Htail.
    + now destruct before.
    + change (negb (failed x) && failsOnlyLast (y :: tail) = true) in Hl.
      apply andb_prop in Hl as [_ Hl].
      exact (IH (y :: tail) Hl ev after (eq_sym Htail) Hev).
Qed.

Lemma retrieve_run_failsOnlyLast request subreddit res evs :
  retrieve_run request subreddit res evs -> failsOnlyLast evs = true.
Proof. inversion 1; reflexivity. Qed.

Lemma posts_run_failsOnlyLast subredditName topic topicEmbedding threshold
    children acc out evs :
  posts_run subredditName topic topicEmbedding threshold children acc out evs ->
  failsOnlyLast evs = true.
Proof.
  induction 1 as [| | |post rest acc emb summary out evs _ IH];
    try reflexivity.
  now apply (failsOnlyLast_app [_; _] evs).
Qed.

Lemma subreddits_run_failsOnlyLast request topicEmbedding subreddits acc r
    evs :
  subreddits_run request topicEmbedding subreddits acc r evs ->
  failsOnlyLast evs = true.
Proof.
  induction 1 as [acc|subreddit rest acc ptr e evs Hret
                 |subreddit rest acc evs Hret
                 |subreddit rest acc resp evs dtos e evs' Hret Hposts
                 |subreddit rest acc resp evs dtos evs' out evs'' Hret Hposts
                    _ IH].
  - reflexivity.
  - eapply retrieve_run_failsOnlyLast; eassumption.
  - eapply retrieve_run_failsOnlyLast; eassumption.
  - apply failsOnlyLast_app.
    + now rewrite (retrieve_run_failed _ _ _ _ _ Hret).
    + eapply posts_run_failsOnlyLast; eassumption.
  - apply failsOnlyLast_app.
    + now rewrite (retrieve_run_failed _ _ _ _ _ Hret).
    + apply failsOnlyLast_app; [|exact IH].
      now rewrite (posts_run_failed _ _ _ _ _ _ _ _ _ Hposts).
Qed.

(** ** The error a run returns *)

Lemma posts_run_error subredditName topic topicEmbedding threshold children
    acc dtos e1 evs :
  posts_run subredditName topic topicEmbedding threshold children acc
    (dtos, Some e1) evs ->
  exists before ev e,
    evs = before ++ [ev] /\
    existsb failed before = false /\
    eventError ev = Some e /\
    Wrap e1 "error evaluating subreddit posts" = stageWrap ev e.
Proof.
  remember (dtos, Some e1) as out eqn:Hout.
  induction 1 as [acc|post rest acc emb e|post rest acc emb resp e
                 |post rest acc emb summary out evs _ IH].
  - discriminate.
  - injection Hout as _ <-.
    exists [], (EvGetEmbedding ItemEmbedding (itemText post) (emb, Some e)), e.
    repeat split.
  - injection Hout as _ <-.
    exists [EvGetEmbedding ItemEmbedding (itemText post) (emb, None)],
      (EvChat [summaryMessage post topic threshold
                 (CosineSimilarity emb topicEmbedding)] (resp, Some e)), e.
    repeat split.
  - destruct (IH Hout) as (before & ev & e & -> & Hq & Herr & Hwrap).
    exists (EvGetEmbedding ItemEmbedding (itemText post) (emb, None)
            :: EvChat [summaryMessage post topic threshold
                         (CosineSimilarity emb topicEmbedding)]
                 (summary, None)
            :: before), ev, e.
    repeat split; assumption.
Qed.

Lemma subreddits_run_error request topicEmbedding subreddits acc resp e' evs :
  subreddits_run request topicEmbedding subreddits acc
    (Done (resp, Some e')) evs ->
  exists before ev e,
    evs = before ++ [ev] /\
    existsb failed before = false /\
    eventError ev = Some e /\
    e' = stageWrap ev e.
Proof.
  remember (Done (resp, Some e')) as r eqn:Hr.
  induction 1 as [acc|subreddit rest acc ptr e evs Hret
                 |subreddit rest acc evs Hret
                 |subreddit rest acc resp0 evs dtos e evs' Hret Hposts
                 |subreddit rest acc resp0 evs dtos evs' out evs'' Hret Hposts
                    _ IH]; try discriminate.
  - injection Hr as _ <-.
    inversion Hret; subst.
    + eexists [], _, e. repeat split.
    + eexists [], _, e. repeat split.
  - injection Hr as _ <-.
    destruct (posts_run_error _ _ _ _ _ _ _ _ _ Hposts)
      as (before & ev & e0 & -> & Hq & Herr & Hwrap).
    exists (evs ++ before), ev, e0.
    rewrite app_assoc, existsb_app, Hq,
      (retrieve_run_failed _ _ _ _ _ Hret).
    repeat split; assumption.
  - destruct (IH Hr) as (before & ev & e0 & -> & Hq & Herr & Hwrap).
    exists (evs ++ evs' ++ before), ev, e0.
    rewrite !app_assoc, !existsb_app, Hq,
      (retrieve_run_failed _ _ _ _ _ Hret),
      (posts_run_failed _ _ _ _ _ _ _ _ _ Hposts).
    repeat split; assumption.
Qed.

Lemma stageWrap_message ev e :
  exists stages, Error (stageWrap ev e) = (stages ++ Error e)%string.
Proof.
  destruct ev as [[|] text res|messages res|subreddit query limit res
                 |subreddit limit res].
  - now exists "error getting topic embedding: "%string.
  - now exists "error evaluating subreddit posts: error getting relevance score: error getting embedding: "%string.
  - now exists "error evaluating subreddit posts: error getting relevance summary: error getting chat response: "%string.
  - now exists "error getting subreddit posts: "%string.
  - now exists "error getting subreddit posts: "%string.
Qed.

Lemma pipeline_run_error request resp e' evs :
  pipeline_run request (Done (resp, Some e')) evs ->
  exists before ev e,
    evs = before ++ [ev] /\
    existsb failed before = false /\
    eventError ev = Some e /\
    e' = stageWrap ev e.
Proof.
  intros Hrun.
  inversion Hrun as [emb e|topicEmbedding out evs0 Hsubs]; subst.
  - exists [], (EvGetEmbedding TopicEmbedding (Topic request) (emb, Some e)), e.
    repeat split.
  - destruct (subreddits_run_error _ _ _ _ _ _ _ Hsubs)
      as (before & ev & e & -> & Hq & Herr & ->).
    exists (EvGetEmbedding TopicEmbedding (Topic request)
              (topicEmbedding, None) :: before), ev, e.
    repeat split; assumption.
Qed.

Section PipelineExtras.

Context {Ctx W : Type}.
Variable s : @relevanceService Ctx W.

(** X1.  A call that returned an error is the last call of the run: after
    the first failure of a collaborator, [GetRelevantPosts] calls none of
    them again. *)
Theorem failed_call_is_last ctx request w r evs w' :
  GetRelevantPosts s ctx request w = (r, evs, w') ->
  forall before ev after,
    evs = before ++ ev :: after -> failed ev = true -> after = [].
Proof.
  intros Hrun. apply GetRelevantPosts_run in Hrun.
  apply failsOnlyLast_last.
  destruct Hrun as [emb e|topicEmbedding out evs Hsubs]; [reflexivity|].
  apply (failsOnlyLast_app [_] evs); [reflexivity|].
  eapply subreddits_run_failsOnlyLast; eassumption.
Qed.

(** X2.  When [GetRelevantPosts] returns an error, that error is the error
    of the last call it made, wrapped with the contexts of the stage the
    call belongs to, and no earlier call had failed: the pipeline adds no
    error of its own and keeps the collaborator's message at the end of
    its own. *)
Theorem returned_error_origin ctx request w resp e' evs w' :
  GetRelevantPosts s ctx request w = (Done (resp, Some e'), evs, w') ->
  exists before ev e,
    evs = before ++ [ev] /\
    existsb failed before = false /\
    eventError ev = Some e /\
    e' = stageWrap ev e /\
    exists stages, Error e' = (stages ++ Error e)%string.
Proof.
  intros Hrun. apply GetRelevantPosts_run in Hrun.
  destruct (pipeline_run_error _ _ _ _ Hrun)
    as (before & ev & e & Hevs & Hq & Herr & He').
  exists before, ev, e. repeat split; try assumption.
  rewrite He'. apply stageWrap_message.
Qed.

End PipelineExtras.

(** ** Summaries, scores and retrievals of a run *)

Lemma chatRequests_app evs evs' :
  chatRequests (evs ++ evs') = chatRequests evs ++ chatRequests evs'.
Proof. apply flat_map_app. Qed.

Lemma itemEmbeddings_app evs evs' :
  itemEmbeddings (evs ++ evs') = itemEmbeddings evs ++ itemEmbeddings evs'.
Proof. apply flat_map_app. Qed.

Lemma topicEmbeddings_app evs evs' :
  topicEmbeddings (evs ++ evs') = topicEmbeddings evs ++ topicEmbeddings evs'.
Proof. apply flat_map_app. Qed.

Lemma summaries_app evs evs' :
  summaries (evs ++ evs') = summaries evs ++ summaries evs'.
Proof. apply flat_map_app. Qed.

Lemma retrievalCalls_app evs evs' :
  retrievalCalls (evs ++ evs') = retrievalCalls evs ++ retrievalCalls evs'.
Proof. apply flat_map_app. Qed.

(** A retrieval makes no call to the LLM client. *)
Lemma retrieve_run_quiet request subreddit res evs :
  retrieve_run request subreddit res evs ->
  chatRequests evs = [] /\ itemEmbeddings evs = [] /\
  topicEmbeddings evs = [] /\ summaries evs = [].
Proof. inversion 1; subst; repeat split. Qed.

Lemma retrieve_run_calls request subreddit res evs :
  retrieve_run request subreddit res evs ->
  retrievalCalls evs = retrievalFor request subreddit.
Proof.
  unfold retrievalFor. inversion 1 as [res0 Hm|res0 Hm|Hs Hl]; subst.
  - now rewrite Hm, String.eqb_refl.
  - rewrite Hm. reflexivity.
  - apply String.eqb_neq in Hs, Hl. now rewrite Hs, Hl.
Qed.

Lemma posts_run_summaries subredditName topic topicEmbedding threshold
    children acc out evs :
  posts_run subredditName topic topicEmbedding threshold children acc out evs ->
  List.length (chatRequests evs) = List.length (itemEmbeddings evs) /\
  Forall singleUserMessage (chatRequests evs) /\
  retrievalCalls evs = [] /\ topicEmbeddings evs = [].
Proof.
  induction 1 as [| | |post rest acc emb summary out evs _
                        (Hlen & Hall & Hret & Htopic)].
  - repeat split; constructor.
  - repeat split; constructor.
  - repeat split. repeat constructor. eexists; split; reflexivity.
  - repeat split; try assumption.
    + change (S (List.length (chatRequests evs))
              = S (List.length (itemEmbeddings evs))).
      now rewrite Hlen.
    + change (Forall singleUserMessage
                ([summaryMessage post topic threshold
                    (CosineSimilarity emb topicEmbedding)]
                 :: chatRequests evs)).
      constructor; [|exact Hall]. eexists; split; reflexivity.
Qed.

Lemma subreddits_run_summaries request topicEmbedding subreddits acc r evs :
  subreddits_run request topicEmbedding subreddits acc r evs ->
  List.length (chatRequests evs) = List.length (itemEmbeddings evs) /\
  Forall singleUserMessage (chatRequests evs) /\
  topicEmbeddings evs = [].
Proof.
  induction 1 as [acc|subreddit rest acc ptr e evs Hret
                 |subreddit rest acc evs Hret
                 |subreddit rest acc resp evs dtos e evs' Hret Hposts
                 |subreddit rest acc resp evs dtos evs' out evs'' Hret Hposts
                    _ (Hlen & Hall & Htopic)].
  - repeat split; constructor.
  - apply retrieve_run_quiet in Hret as (-> & -> & -> & _).
    repeat split; constructor.
  - apply retrieve_run_quiet in Hret as (-> & -> & -> & _).
    repeat split; constructor.
  - rewrite chatRequests_app, itemEmbeddings_app, topicEmbeddings_app.
    apply retrieve_run_quiet in Hret as (-> & -> & -> & _).
    destruct (posts_run_summaries _ _ _ _ _ _ _ _ Hposts)
      as (Hl & Ha & _ & Ht).
    repeat split; assumption.
  - rewrite !chatRequests_app, !itemEmbeddings_app, !topicEmbeddings_app.
    apply retrieve_run_quiet in Hret as (-> & -> & -> & _).
    destruct (posts_run_summaries _ _ _ _ _ _ _ _ Hposts)
      as (Hl & Ha & _ & Ht).
    cbn [app]. rewrite !length_app, Hl, Hlen, Ht, Htopic.
    repeat split. apply Forall_app. now split.
Qed.

Lemma posts_run_flow subredditName topic topicEmbedding threshold children
    acc dtos evs :
  posts_run subredditName topic topicEmbedding threshold children acc
    (dtos, None) evs ->
  exists new,
    dtos = acc ++ new /\
    map RelevanceScore new
    = map (fun emb => CosineSimilarity emb topicEmbedding)
        (itemEmbeddings evs) /\
    map RelevanceSummary new = summaries evs.
Proof.
  remember (dtos, None) as out eqn:Hout.
  induction 1 as [acc| | |post rest acc emb summary out evs _ IH];
    try discriminate.
  - injection Hout as <-. exists []. rewrite app_nil_r. repeat split.
  - destruct (IH Hout) as (new & -> & Hscore & Hsum).
    eexists (_ :: new). rewrite <- app_assoc. split; [reflexivity|].
    cbn. now rewrite Hscore, Hsum.
Qed.

Lemma subreddits_run_flow request topicEmbedding subreddits acc resp evs :
  subreddits_run request topicEmbedding subreddits acc
    (Done (resp, None)) evs ->
  exists new,
    Posts resp = acc ++ new /\
    map RelevanceScore new
    = map (fun emb => CosineSimilarity emb topicEmbedding)
        (itemEmbeddings evs) /\
    map RelevanceSummary new = summaries evs.
Proof.
  remember (Done (resp, None)) as r eqn:Hr.
  induction 1 as [acc| | |
                 |subreddit rest acc resp0 evs dtos evs' out evs'' Hret Hposts
                    _ IH]; try discriminate.
  - injection Hr as <-. exists []. cbn. rewrite app_nil_r. repeat split.
  - destruct (IH Hr) as (new & -> & Hscore & Hsum).
    destruct (posts_run_flow _ _ _ _ _ _ _ _ Hposts)
      as (got & -> & Hgs & Hgm).
    exists (got ++ new). split; [cbn; now rewrite <- app_assoc|].
    rewrite !itemEmbeddings_app, !summaries_app, !map_app.
    apply retrieve_run_quiet in Hret as (_ & -> & _ & ->).
    cbn [app map]. now rewrite Hgs, Hgm, Hscore, Hsum.
Qed.

Lemma subreddits_run_retrievalCalls request topicEmbedding subreddits acc r
    evs :
  subreddits_run request topicEmbedding subreddits acc r evs ->
  (exists n,
     retrievalCalls evs
     = flat_map (retrievalFor request) (firstn n subreddits)) /\
  (forall resp,
     r = Done (resp, None) ->
     retrievalCalls evs = flat_map (retrievalFor request) subreddits).
Proof.
  induction 1 as [acc|subreddit rest acc ptr e evs Hret
                 |subreddit rest acc evs Hret
                 |subreddit rest acc resp evs dtos e evs' Hret Hposts
                 |subreddit rest acc resp evs dtos evs' out evs'' Hret Hposts
                    _ [[n IHn] IHall]].
  - split; [exists O|]; reflexivity.
  - split; [|discriminate]. exists 1%nat. cbn.
    now rewrite app_nil_r, (retrieve_run_calls _ _ _ _ Hret).
  - split; [|discriminate]. exists 1%nat. cbn.
    now rewrite app_nil_r, (retrieve_run_calls _ _ _ _ Hret).
  - split; [|discriminate]. exists 1%nat. cbn.
    rewrite retrievalCalls_app, (retrieve_run_calls _ _ _ _ Hret).
    now destruct (posts_run_summaries _ _ _ _ _ _ _ _ Hposts)
      as (_ & _ & -> & _).
  - assert (Hhead :
              retrievalCalls (evs ++ evs' ++ evs'')
              = retrievalFor request subreddit ++ retrievalCalls evs'').
    { rewrite !retrievalCalls_app, (retrieve_run_calls _ _ _ _ Hret).
      now destruct (posts_run_summaries _ _ _ _ _ _ _ _ Hposts)
        as (_ & _ & -> & _). }
    rewrite Hhead. split.
    + exists (S n). cbn. now rewrite IHn.
    + intros resp' Hok. cbn. now rewrite (IHall resp' Hok).
Qed.

Section PipelineFlow.

Context {Ctx W : Type}.
Variable s : @relevanceService Ctx W.

(** X3.  In every run, a summary is requested for each item whose
    embedding was obtained, whatever its classification, and for no other
    item; each request is a single message with role ["user"]. *)
Theorem summary_for_every_scored_item ctx request w r evs w' :
  GetRelevantPosts s ctx request w = (r, evs, w') ->
  List.length (chatRequests evs) = List.length (itemEmbeddings evs) /\
  Forall (fun messages => exists m, messages = [m] /\ Role m = "user"%string)
    (chatRequests evs).
Proof.
  intros Hrun. apply GetRelevantPosts_run in Hrun.
  destruct Hrun as [emb e|topicEmbedding out evs Hsubs].
  - split; constructor.
  - destruct (subreddits_run_summaries _ _ _ _ _ _ Hsubs) as (Hlen & Hall & _).
    split; assumption.
Qed.

(** X4.  On a successful run the scores and summaries of the output are, in
    order, the similarity of each item embedding the LLM client returned
    to the one topic embedding it returned, and the texts the chat calls
    returned: nothing is mixed between items. *)
Theorem scores_and_summaries_flow ctx request w resp evs w' :
  GetRelevantPosts s ctx request w = (Done (resp, None), evs, w') ->
  exists topicEmbedding,
    topicEmbeddings evs = [topicEmbedding] /\
    map RelevanceScore (Posts resp)
    = map (fun emb => CosineSimilarity emb topicEmbedding)
        (itemEmbeddings evs) /\
    map RelevanceSummary (Posts resp) = summaries evs.
Proof.
  intros Hrun. apply GetRelevantPosts_run in Hrun.
  inversion Hrun as [|topicEmbedding out evs0 Hsubs]; subst.
  exists topicEmbedding.
  destruct (subreddits_run_flow _ _ _ _ _ _ Hsubs) as (new & Hposts & Hs & Hm).
  destruct (subreddits_run_summaries _ _ _ _ _ _ Hsubs) as (_ & _ & Htopic).
  cbn in Hposts. rewrite Hposts.
  change (topicEmbeddings (?ev :: evs0))
    with (topicEmbedding :: topicEmbeddings evs0).
  change (itemEmbeddings (?ev :: evs0)) with (itemEmbeddings evs0).
  change (summaries (?ev :: evs0)) with (summaries evs0).
  now rewrite Htopic.
Qed.

(** X5.  In every run each source is retrieved at most once, in the order
    of the request and with no source skipped, by the operation the search
    method selects, with the limit of the request (and its topic as the
    query of a search); a successful run has retrieved every source. *)
Theorem retrieval_calls_follow_request ctx request w r evs w' :
  GetRelevantPosts s ctx request w = (r, evs, w') ->
  (exists n,
     retrievalCalls evs
     = flat_map (retrievalFor request) (firstn n (Subreddits request))) /\
  (forall resp,
     r = Done (resp, None) ->
     retrievalCalls evs
     = flat_map (retrievalFor request) (Subreddits request)).
Proof.
  intros Hrun. apply GetRelevantPosts_run in Hrun.
  destruct Hrun as [emb e|topicEmbedding out evs Hsubs].
  - split; [exists O; reflexivity|discriminate].
  - exact (subreddits_run_retrievalCalls _ _ _ _ _ _ Hsubs).
Qed.

End PipelineFlow.

(** ** Fields of a post the evaluation never reads *)

Lemma sameVisible_map p q subredditName score isRelevant summary :
  sameVisible p q ->
  MapRedditResponseToSubredditPostDto p subredditName score isRelevant summary
  = MapRedditResponseToSubredditPostDto q subredditName score isRelevant
      summary.
Proof.
  intros (Ht & Hs & Hu & Hsc & Hn & Hc).
  unfold MapRedditResponseToSubredditPostDto.
  now rewrite Ht, Hs, Hu, Hsc, Hn, Hc.
Qed.

Section UnreadFields.

Context {Ctx W : Type}.
Variable s : @relevanceService Ctx W.

Lemma bind_ext {A B} (m : @M W A) (k1 k2 : A -> @M W B) w :
  (forall a w1, k1 a w1 = k2 a w1) -> bind m k1 w = bind m k2 w.
Proof.
  intros Hk. unfold bind.
  destruct (m w) as [[[a|] evs] w1]; [|reflexivity].
  now rewrite Hk.
Qed.

Lemma evaluatePosts_sameVisible ctx subredditName topic topicEmbedding
    threshold children1 children2 :
  Forall2 sameVisible children1 children2 ->
  forall acc w,
    evaluatePosts s ctx subredditName children1 topic topicEmbedding threshold
      acc w
    = evaluatePosts s ctx subredditName children2 topic topicEmbedding
        threshold acc w.
Proof.
  induction 1 as [|p q rest1 rest2 Hpq _ IH]; intros acc w; [reflexivity|].
  cbn [evaluatePosts].
  destruct Hpq as (Ht & Hs & Hrest).
  rewrite Ht, Hs.
  apply bind_ext. intros [score [e|]] w1; [reflexivity|].
  apply bind_ext. intros [summary [e|]] w2; [reflexivity|].
  rewrite (sameVisible_map p q); [apply IH|].
  repeat split; try assumption; apply Hrest.
Qed.

(** X6.  [evaluateSubredditPosts] reads neither [Permalink] nor [Stickied]:
    for two responses whose posts agree on every other field it makes the
    same calls and returns the same result, so a pinned post is evaluated
    and returned like any other. *)
Theorem permalink_and_stickied_unread ctx subredditName resp1 resp2 topic
    topicEmbedding threshold w :
  Forall2 sameVisible (Children (Data resp1)) (Children (Data resp2)) ->
  evaluateSubredditPosts s ctx subredditName (Some resp1) topic topicEmbedding
    threshold w
  = evaluateSubredditPosts s ctx subredditName (Some resp2) topic
      topicEmbedding threshold w.
Proof.
  intros Hsame. unfold evaluateSubredditPosts.
  now apply evaluatePosts_sameVisible.
Qed.

(** ** The logged results are the collaborators' *)

Lemma evaluatePosts_genuine ctx subredditName topic topicEmbedding threshold :
  forall children acc w r evs w',
    evaluatePosts s ctx subredditName children topic topicEmbedding
      threshold acc w = (r, evs, w') ->
    Forall (genuine s ctx) evs.
Proof.
  induction children as [|post rest IH]; intros acc w r evs w'.
  - cbn. intros [= <- <- <-]. constructor.
  - cbn -[CosineSimilarity summaryPrompt].
    unfold bind, getRelevanceScore, getRelevanceSummary, bind,
      callGetEmbedding, callChat.
    destruct (GetEmbedding (llmClient s) ctx _ w) as [[emb [e|]] w1] eqn:He;
      cbn -[CosineSimilarity summaryPrompt].
    + intros [= <- <- <-]. repeat constructor.
      exists w. exact (f_equal fst He).
    + destruct (Chat (llmClient s) ctx _ w1) as [[summary [e|]] w2] eqn:Hc;
        cbn -[CosineSimilarity summaryPrompt].
      * intros [= <- <- <-]. repeat constructor.
        -- exists w. exact (f_equal fst He).
        -- exists w1. exact (f_equal fst Hc).
      * match goal with
        | |- context [evaluatePosts s ctx ?a ?b ?c ?d ?e ?f ?g] =>
            destruct (evaluatePosts s ctx a b c d e f g)
              as [[rr revs] rw] eqn:E
        end.
        intros [= <- <- <-]. apply IH in E.
        constructor; [exists w; exact (f_equal fst He)|].
        constructor; [exists w1; exact (f_equal fst Hc)|exact E].
Qed.

Lemma retrieve_genuine ctx request subreddit w r evs w' :
  retrieve s request subreddit w = (r, evs, w') ->
  Forall (genuine s ctx) evs.
Proof.
  unfold retrieve, callSearchPosts, callGetPosts.
  destruct (String.eqb _ SearchMethodSearch).
  - destruct (SearchPosts _ _ _ _ w) as [res w1] eqn:Hcall.
    intros [= <- <- <-]. repeat constructor. exists w. exact (f_equal fst Hcall).
  - destruct (String.eqb _ SearchMethodLatest).
    + destruct (GetPosts _ _ _ w) as [res w1] eqn:Hcall.
      intros [= <- <- <-]. repeat constructor. exists w. exact (f_equal fst Hcall).
    + intros [= <- <- <-]. constructor.
Qed.

Lemma evaluateSubreddits_genuine ctx request topicEmbedding :
  forall subreddits acc w r evs w',
    evaluateSubreddits s ctx request subreddits topicEmbedding acc w
    = (r, evs, w') ->
    Forall (genuine s ctx) evs.
Proof.
  induction subreddits as [|subreddit rest IH]; intros acc w r evs w'.
  - cbn. intros [= <- <- <-]. constructor.
  - cbn. unfold bind at 1.
    destruct (retrieve s request subreddit w) as [[r1 evs1] w1] eqn:Hret.
    pose proof (retrieve_genuine ctx _ _ _ _ _ _ Hret) as Hg1.
    apply retrieve_is_run in Hret as ([ptr err] & -> & _).
    destruct err as [e|].
    { cbn. intros [= <- <- <-]. now rewrite app_nil_r. }
    unfold bind at 1.
    destruct ptr as [resp|]; cbn -[evaluatePosts].
    2:{ intros [= <- <- <-]. now rewrite app_nil_r. }
    destruct (evaluatePosts _ _ _ _ _ _ _ _ w1) as [[r2 evs2] w2] eqn:Hev.
    pose proof (evaluatePosts_genuine _ _ _ _ _ _ _ _ _ _ _ Hev) as Hg2.
    apply evaluatePosts_run in Hev as ([dtos err] & -> & _).
    destruct err as [e|].
    { cbn. intros [= <- <- <-]. rewrite app_nil_r. now apply Forall_app. }
    destruct (evaluateSubreddits _ _ _ _ _ _ w2) as [[r3 evs3] w3] eqn:Hrest.
    intros [= <- <- <-]. apply IH in Hrest.
    apply Forall_app. split; [assumption|]. now apply Forall_app.
Qed.

Lemma GetRelevantPosts_genuine ctx request w r evs w' :
  GetRelevantPosts s ctx request w = (r, evs, w') ->
  Forall (genuine s ctx) evs.
Proof.
  unfold GetRelevantPosts, bind, callGetEmbedding.
  destruct (GetEmbedding _ _ _ w) as [[emb [e|]] w1] eqn:He; cbn.
  - intros [= <- <- <-]. repeat constructor. exists w. exact (f_equal fst He).
  - destruct (evaluateSubreddits _ _ _ _ _ _ w1) as [[r1 evs1] w2] eqn:E.
    intros [= <- <- <-]. apply evaluateSubreddits_genuine in E.
    constructor; [exists w; exact (f_equal fst He)|exact E].
Qed.

End UnreadFields.

(* ------------------------------------------------------------------ *)
(** * Properties of the Reddit client and service *)

Lemma clamp_spec limit :
  (1 <= reddit_client.clamp limit <= 100)%Z /\
  ((1 <= limit <= 100)%Z -> reddit_client.clamp limit = limit) /\
  ((limit <= 0)%Z -> reddit_client.clamp limit = 25%Z) /\
  ((100 < limit)%Z -> reddit_client.clamp limit = 100%Z).
Proof.
  unfold reddit_client.clamp.
  destruct (Z.leb_spec limit 0); [cbn; lia|].
  destruct (Z.ltb_spec 100 limit); lia.
Qed.

Section RedditClient.

Context {W : Type}.
Variable lib : reddit_client.Lib.
Variable c : @reddit_client.Client W.

Lemma GetPosts_sent subreddit limit w :
  snd (fst (reddit_client.GetPosts lib c subreddit limit w))
  = match reddit_client.urlError lib
            (http.URL (reddit_client.listingRequest c subreddit
                         (reddit_client.clamp limit))) with
    | Some _ => []
    | None =>
        [reddit_client.listingRequest c subreddit (reddit_client.clamp limit)]
    end.
Proof.
  unfold reddit_client.GetPosts, http.NewRequest.
  fold (reddit_client.clamp limit).
  cbn [http.URL reddit_client.listingRequest].
  destruct (reddit_client.urlError lib _); [reflexivity|].
  unfold http.SetHeader.
  cbn [http.Method http.URL http.Header http.RequestBody filter].
  fold (reddit_client.listingRequest c subreddit (reddit_client.clamp limit)).
  destruct (reddit_client.httpClient c _ w) as [[resp|err] w1];
    [|reflexivity].
  destruct (negb _); [reflexivity|].
  destruct (reddit_client.decode lib _); reflexivity.
Qed.

(** X7.  [GetPosts] sends at most one request, and none when its URL does
    not parse.  The request is a GET without a body, with the client's
    user agent, for the listing of the subreddit with a limit between 1 and
    100: the limit asked for when that is in range, 25 when it is zero or
    negative, 100 when it is larger. *)
Theorem GetPosts_request subreddit limit w :
  exists n,
    (1 <= n <= 100)%Z /\
    ((1 <= limit <= 100)%Z -> n = limit) /\
    ((limit <= 0)%Z -> n = 25%Z) /\
    ((100 < limit)%Z -> n = 100%Z) /\
    snd (fst (reddit_client.GetPosts lib c subreddit limit w))
    = match reddit_client.urlError lib
              (reddit_client.baseURL c ++ "/r/" ++ subreddit
               ++ "/.json?limit=" ++ http.verb_d n)%string with
      | Some _ => []
      | None =>
          [ {| http.Method := "GET";
               http.URL :=
                 (reddit_client.baseURL c ++ "/r/" ++ subreddit
                  ++ "/.json?limit=" ++ http.verb_d n)%string;
               http.Header :=
                 [("User-Agent"%string, reddit_client.userAgent c)];
               http.RequestBody := None |} ]
      end.
Proof.
  exists (reddit_client.clamp limit).
  destruct (clamp_spec limit) as (Hb & Hin & Hlow & Hhigh).
  repeat split; try assumption; try apply Hb.
  apply GetPosts_sent.
Qed.

Lemma SearchPosts_sent subreddit query limit w :
  snd (fst (reddit_client.SearchPosts lib c subreddit query limit w))
  = match reddit_client.urlError lib
            (http.URL (reddit_client.searchRequest lib c subreddit query
                         (reddit_client.clamp limit))) with
    | Some _ => []
    | None =>
        [reddit_client.searchRequest lib c subreddit query
           (reddit_client.clamp limit)]
    end.
Proof.
  unfold reddit_client.SearchPosts, http.NewRequest.
  fold (reddit_client.clamp limit).
  cbn [http.URL reddit_client.searchRequest].
  destruct (reddit_client.urlError lib _); [reflexivity|].
  unfold http.SetHeader.
  cbn [http.Method http.URL http.Header http.RequestBody filter].
  fold (reddit_client.searchRequest lib c subreddit query
          (reddit_client.clamp limit)).
  destruct (reddit_client.httpClient c _ w) as [[resp|err] w1];
    [|reflexivity].
  destruct (negb _); [reflexivity|].
  destruct (reddit_client.decode lib _); reflexivity.
Qed.

(** X8.  [SearchPosts] sends at most one request, and none when its URL
    does not parse.  The request is a GET without a body, with the client's
    user agent, for a search restricted to the subreddit, with the escaped
    query and a limit between 1 and 100 chosen as in [GetPosts]. *)
Theorem SearchPosts_request subreddit query limit w :
  exists n,
    (1 <= n <= 100)%Z /\
    ((1 <= limit <= 100)%Z -> n = limit) /\
    ((limit <= 0)%Z -> n = 25%Z) /\
    ((100 < limit)%Z -> n = 100%Z) /\
    snd (fst (reddit_client.SearchPosts lib c subreddit query limit w))
    = match reddit_client.urlError lib
              (reddit_client.baseURL c ++ "/r/" ++ subreddit
               ++ "/search.json?q=" ++ reddit_client.QueryEscape lib query
               ++ "&restrict_sr=true&limit=" ++ http.verb_d n)%string with
      | Some _ => []
      | None =>
          [ {| http.Method := "GET";
               http.URL :=
                 (reddit_client.baseURL c ++ "/r/" ++ subreddit
                  ++ "/search.json?q="
                  ++ reddit_client.QueryEscape lib query
                  ++ "&restrict_sr=true&limit=" ++ http.verb_d n)%string;
               http.Header :=
                 [("User-Agent"%string, reddit_client.userAgent c)];
               http.RequestBody := None |} ]
      end.
Proof.
  exists (reddit_client.clamp limit).
  destruct (clamp_spec limit) as (Hb & Hin & Hlow & Hhigh).
  repeat split; try assumption; try apply Hb.
  apply SearchPosts_sent.
Qed.

Lemma GetPosts_outcome subreddit limit w :
  reddit_client.outcome lib c w (reddit_client.GetPosts lib c subreddit limit w).
Proof.
  unfold reddit_client.GetPosts, reddit_client.outcome.
  destruct (http.NewRequest _ _ _ _) as [req0|err]; [|now split; [|left]].
  destruct (reddit_client.httpClient c _ w) as [[resp|cause] w1] eqn:Hdo.
  - unfold http.StatusOK.
    destruct (Z.eqb_spec (http.StatusCode resp) 200) as [Hok|Hbad]; cbn [negb].
    + destruct (reddit_client.decode lib _) as [ptr|cause] eqn:Hdec.
      * eexists _, resp. repeat split; eassumption.
      * split; [reflexivity|right]. eexists. split; [reflexivity|].
        rewrite Hdo. split; [reflexivity|].
        apply Z.eqb_eq in Hok. rewrite Hok. now exists cause.
    + split; [reflexivity|right]. eexists. split; [reflexivity|].
      rewrite Hdo. split; [reflexivity|].
      apply Z.eqb_neq in Hbad. now rewrite Hbad.
  - split; [reflexivity|right]. eexists. split; [reflexivity|].
    rewrite Hdo. now split.
Qed.

Lemma SearchPosts_outcome subreddit query limit w :
  reddit_client.outcome lib c w (reddit_client.SearchPosts lib c subreddit query limit w).
Proof.
  unfold reddit_client.SearchPosts, reddit_client.outcome.
  destruct (http.NewRequest _ _ _ _) as [req0|err]; [|now split; [|left]].
  destruct (reddit_client.httpClient c _ w) as [[resp|cause] w1] eqn:Hdo.
  - unfold http.StatusOK.
    destruct (Z.eqb_spec (http.StatusCode resp) 200) as [Hok|Hbad]; cbn [negb].
    + destruct (reddit_client.decode lib _) as [ptr|cause] eqn:Hdec.
      * eexists _, resp. repeat split; eassumption.
      * split; [reflexivity|right]. eexists. split; [reflexivity|].
        rewrite Hdo. split; [reflexivity|].
        apply Z.eqb_eq in Hok. rewrite Hok. now exists cause.
    + split; [reflexivity|right]. eexists. split; [reflexivity|].
      rewrite Hdo. split; [reflexivity|].
      apply Z.eqb_neq in Hbad. now rewrite Hbad.
  - split; [reflexivity|right]. eexists. split; [reflexivity|].
    rewrite Hdo. now split.
Qed.

Lemma clientOutcome_result w ptr err sent w' :
  reddit_client.outcome lib c w ((ptr, err), sent, w') ->
  (err <> None -> ptr = None) /\
  (err = None ->
   exists req resp,
     sent = [req] /\
     reddit_client.httpClient c req w = (inl resp, w') /\
     http.StatusCode resp = 200%Z /\
     reddit_client.decode lib (http.Body resp) = inl ptr) /\
  (forall req resp,
     sent = [req] ->
     reddit_client.httpClient c req w = (inl resp, w') ->
     http.StatusCode resp <> 200%Z ->
     err = Some (New ("reddit API returned status "
                      ++ http.verb_d (http.StatusCode resp) ++ ": "
                      ++ http.Body resp)%string)) /\
  (forall req cause,
     sent = [req] ->
     reddit_client.httpClient c req w = (inr cause, w') ->
     err = Some (Wrap cause "failed to make request")).
Proof.
  unfold reddit_client.outcome. destruct err as [e|].
  - intros [-> Hsent]. split; [reflexivity|]. split; [discriminate|].
    split.
    + intros req resp -> Hdo Hbad.
      destruct Hsent as [[=]|(req' & [= <-] & Hcase)].
      rewrite Hdo in Hcase. destruct Hcase as [_ Hcase].
      apply Z.eqb_neq in Hbad. rewrite Hbad in Hcase. now rewrite Hcase.
    + intros req cause -> Hdo.
      destruct Hsent as [[=]|(req' & [= <-] & Hcase)].
      rewrite Hdo in Hcase. destruct Hcase as [_ ->]. reflexivity.
  - intros (req & resp & -> & Hdo & Hok & Hdec).
    split; [congruence|]. split; [intros _; now exists req, resp|].
    split.
    + intros req' resp' [= <-] Hdo' Hbad. congruence.
    + intros req' cause [= <-] Hdo'. congruence.
Qed.

(** X9.  [GetPosts] never returns both a response and an error.  It returns
    no error only when the server answered its one request with status 200
    and the body decoded; the response is then what the body decoded to.
    A status other than 200 is returned as an error that carries the status
    and the body, and a failure of the transport as its error wrapped with
    ["failed to make request"]. *)
Theorem GetPosts_result subreddit limit w ptr err sent w' :
  reddit_client.GetPosts lib c subreddit limit w = ((ptr, err), sent, w') ->
  (err <> None -> ptr = None) /\
  (err = None ->
   exists req resp,
     sent = [req] /\
     reddit_client.httpClient c req w = (inl resp, w') /\
     http.StatusCode resp = 200%Z /\
     reddit_client.decode lib (http.Body resp) = inl ptr) /\
  (forall req resp,
     sent = [req] ->
     reddit_client.httpClient c req w = (inl resp, w') ->
     http.StatusCode resp <> 200%Z ->
     err = Some (New ("reddit API returned status "
                      ++ http.verb_d (http.StatusCode resp) ++ ": "
                      ++ http.Body resp)%string)) /\
  (forall req cause,
     sent = [req] ->
     reddit_client.httpClient c req w = (inr cause, w') ->
     err = Some (Wrap cause "failed to make request")).
Proof.
  intros Hcall. apply clientOutcome_result.
  rewrite <- Hcall. apply GetPosts_outcome.
Qed.

(** X10.  [SearchPosts] ends as [GetPosts] does: never a response together
    with an error; a response only from a 200 answer whose body decoded; a
    status other than 200 and a transport failure as the errors that carry
    them. *)
Theorem SearchPosts_result subreddit query limit w ptr err sent w' :
  reddit_client.SearchPosts lib c subreddit query limit w
  = ((ptr, err), sent, w') ->
  (err <> None -> ptr = None) /\
  (err = None ->
   exists req resp,
     sent = [req] /\
     reddit_client.httpClient c req w = (inl resp, w') /\
     http.StatusCode resp = 200%Z /\
     reddit_client.decode lib (http.Body resp) = inl ptr) /\
  (forall req resp,
     sent = [req] ->
     reddit_client.httpClient c req w = (inl resp, w') ->
     http.StatusCode resp <> 200%Z ->
     err = Some (New ("reddit API returned status "
                      ++ http.verb_d (http.StatusCode resp) ++ ": "
                      ++ http.Body resp)%string)) /\
  (forall req cause,
     sent = [req] ->
     reddit_client.httpClient c req w = (inr cause, w') ->
     err = Some (Wrap cause "failed to make request")).
Proof.
  intros Hcall. apply clientOutcome_result.
  rewrite <- Hcall. apply SearchPosts_outcome.
Qed.

(** What the service makes of a result of the client. *)
Lemma service_outcome w ptr err sent w' r :
  reddit_client.outcome lib c w ((ptr, err), sent, w') ->
  r = match err with
      | Some e => Done (None, Some e)
      | None =>
          match ptr with
          | None => Panic
          | Some _ => Done (ptr, None)
          end
      end ->
  r <> Done (None, None) /\
  (r = Panic <->
   exists req resp,
     sent = [req] /\
     reddit_client.httpClient c req w = (inl resp, w') /\
     http.StatusCode resp = 200%Z /\
     reddit_client.decode lib (http.Body resp) = inl None) /\
  (forall posts e, r = Done (posts, e) -> posts = ptr /\ e = err).
Proof.
  intros Hout ->.
  destruct (clientOutcome_result _ _ _ _ _ Hout) as (Hnil & Hok & _ & _).
  destruct err as [e|].
  - rewrite (Hnil ltac:(discriminate)) in *.
    split; [discriminate|]. split.
    + split; [discriminate|].
      intros (req & resp & -> & Hdo & Hst & Hdec).
      destruct Hout as [_ [[=]|(req' & [= <-] & Hcase)]].
      rewrite Hdo in Hcase. destruct Hcase as [_ Hcase].
      apply Z.eqb_eq in Hst. rewrite Hst in Hcase.
      destruct Hcase as (cause & Hdec' & _). congruence.
    + now intros posts e' [= <- <-].
  - destruct (Hok eq_refl) as (req & resp & -> & Hdo & Hst & Hdec).
    destruct ptr as [p|].
    + split; [discriminate|]. split.
      * split; [discriminate|].
        intros (req' & resp' & [= <-] & Hdo' & _ & Hdec'). congruence.
      * now intros posts e' [= <- <-].
    + split; [discriminate|]. split.
      * split; [intros _; now exists req, resp|reflexivity].
      * discriminate.
Qed.

End RedditClient.

Section RedditService.

Context {W : Type}.
Variable lib : reddit_client.Lib.
Variable s : @redditsvc.redditService W.

(** X11.  The Reddit service never returns a nil response with a nil error
    from [GetPosts]: when it returns, the response and the error are those
    of the client, exactly one of them nil; and it panics, on the length it
    logs, exactly when the server answered 200 with a body that decodes to a
    nil response. *)
Theorem redditService_GetPosts_outcome subreddit limit w r sent w' :
  redditsvc.GetPosts lib s subreddit limit w = (r, sent, w') ->
  r <> Done (None, None) /\
  (r = Panic <->
   exists req resp,
     sent = [req] /\
     reddit_client.httpClient (redditsvc.client s) req w = (inl resp, w') /\
     http.StatusCode resp = 200%Z /\
     reddit_client.decode lib (http.Body resp) = inl None) /\
  (forall posts err,
     r = Done (posts, err) ->
     reddit_client.GetPosts lib (redditsvc.client s) subreddit limit w = ((posts, err), sent, w')).
Proof.
  unfold redditsvc.GetPosts.
  pose proof (GetPosts_outcome lib (redditsvc.client s) subreddit limit w)
    as Hout.
  destruct (reddit_client.GetPosts lib (redditsvc.client s) subreddit limit w)
    as [[[ptr err] sent0] w0].
  intros Hr.
  assert (Hsent : sent0 = sent /\ w0 = w')
    by (destruct err as [e|]; [|destruct ptr]; now injection Hr).
  destruct Hsent as [-> ->].
  destruct (service_outcome lib (redditsvc.client s) w ptr err sent w' r
              Hout) as (Hnn & Hpanic & Hdone).
  { destruct err as [e|]; [|destruct ptr]; now injection Hr. }
  split; [exact Hnn|]. split; [exact Hpanic|].
  intros posts e Hd. now destruct (Hdone posts e Hd) as [-> ->].
Qed.

(** X12.  The same holds of [SearchPosts] of the Reddit service. *)
Theorem redditService_SearchPosts_outcome subreddit query limit w r sent w' :
  redditsvc.SearchPosts lib s subreddit query limit w = (r, sent, w') ->
  r <> Done (None, None) /\
  (r = Panic <->
   exists req resp,
     sent = [req] /\
     reddit_client.httpClient (redditsvc.client s) req w = (inl resp, w') /\
     http.StatusCode resp = 200%Z /\
     reddit_client.decode lib (http.Body resp) = inl None) /\
  (forall posts err,
     r = Done (posts, err) ->
     reddit_client.SearchPosts lib (redditsvc.client s) subreddit query limit w
     = ((posts, err), sent, w')).
Proof.
  unfold redditsvc.SearchPosts.
  pose proof (SearchPosts_outcome lib (redditsvc.client s) subreddit query
                limit w) as Hout.
  destruct (reddit_client.SearchPosts lib (redditsvc.client s) subreddit query limit w)
    as [[[ptr err] sent0] w0].
  intros Hr.
  assert (Hsent : sent0 = sent /\ w0 = w')
    by (destruct err as [e|]; [|destruct ptr]; now injection Hr).
  destruct Hsent as [-> ->].
  destruct (service_outcome lib (redditsvc.client s) w ptr err sent w' r
              Hout) as (Hnn & Hpanic & Hdone).
  { destruct err as [e|]; [|destruct ptr]; now injection Hr. }
  split; [exact Hnn|]. split; [exact Hpanic|].
  intros posts e Hd. now destruct (Hdone posts e Hd) as [-> ->].
Qed.

End RedditService.

(* ------------------------------------------------------------------ *)
(** * Properties of the LLM client *)

Lemma promptParts_nil messages :
  llm_client.promptParts messages = []
  <-> existsb llm_client.isUser messages = false.
Proof.
  unfold llm_client.promptParts, llm_client.isUser.
  induction messages as [|m rest IH]; [now split|].
  cbn [filter existsb]. destruct (String.eqb (Role m) "user"); cbn.
  - split; discriminate.
  - exact IH.
Qed.

Section LLMClient.

Context {Ctx W : Type}.
Variable lib : llm_client.Lib.
Variable c : @llm_client.Client Ctx W.

Lemma NewRequest_post url body :
  http.SetHeader
    {| http.Method := "POST"; http.URL := url; http.Header := [];
       http.RequestBody := Some body |} "Content-Type" "application/json"
  = llm_client.jsonPost url body.
Proof. reflexivity. Qed.

Lemma Chat_with_user ctx messages w :
  existsb llm_client.isUser messages = true ->
  snd (fst (fst (llm_client.Chat lib c ctx messages w)))
  <> Some (New "no user messages found").
Proof.
  intros Huser. unfold llm_client.Chat.
  destruct (llm_client.promptParts messages) as [|part parts] eqn:Hparts.
  { apply promptParts_nil in Hparts. congruence. }
  destruct (llm_client.marshalChat lib _) as [body|err]; [|discriminate].
  destruct (http.NewRequest _ _ _ _) as [req|err]; [|discriminate].
  destruct (llm_client.httpClient c ctx _ w) as [[resp|err] w1];
    [|discriminate].
  destruct (negb _); [discriminate|].
  destruct (llm_client.decodeChat lib _) as [data|err]; [|discriminate].
  destruct (llm_client.Choices data); discriminate.
Qed.

(** X13.  [Chat] sends a request only when some message has role ["user"]:
    without one it returns the error ["no user messages found"] and touches
    nothing, and with one it never returns that error. *)
Theorem Chat_requires_user_message ctx messages w :
  (existsb llm_client.isUser messages = false ->
   llm_client.Chat lib c ctx messages w
   = ((EmptyString, Some (New "no user messages found")), [], w)) /\
  (existsb llm_client.isUser messages = true ->
   snd (fst (fst (llm_client.Chat lib c ctx messages w)))
   <> Some (New "no user messages found")) /\
  (snd (fst (llm_client.Chat lib c ctx messages w)) <> [] ->
   existsb llm_client.isUser messages = true).
Proof.
  split; [|split].
  - intros Hnone. apply promptParts_nil in Hnone.
    unfold llm_client.Chat. now rewrite Hnone.
  - apply Chat_with_user.
  - destruct (existsb llm_client.isUser messages) eqn:E; [reflexivity|].
    apply promptParts_nil in E. unfold llm_client.Chat. rewrite E.
    now intros [].
Qed.

(** X14.  [GetEmbedding] returns an empty embedding with every error.  It
    returns no error only when its one request (a JSON POST to
    [baseURL/embeddings] of the text and the embedding model) was answered
    with status 200 and a body that decodes to at least one embedding; it
    then returns the first.  An answer with no embedding is the error
    ["no embedding data in response"]. *)
Theorem GetEmbedding_result ctx text w emb err sent w' :
  llm_client.GetEmbedding lib c ctx text w = ((emb, err), sent, w') ->
  (err <> None -> emb = []) /\
  (err = None ->
   exists body resp data first rest,
     llm_client.marshalEmbedding lib
       {| llm_client.Input := [text];
          llm_client.Model := llm_client.embeddingModel c |} = inl body /\
     sent = [llm_client.jsonPost
               (llm_client.baseURL c ++ "/embeddings")%string body] /\
     llm_client.httpClient c ctx
       (llm_client.jsonPost (llm_client.baseURL c ++ "/embeddings")%string
          body) w = (inl resp, w') /\
     http.StatusCode resp = 200%Z /\
     llm_client.decodeEmbedding lib (http.Body resp) = inl data /\
     llm_client.Data data = first :: rest /\
     emb = llm_client.Embedding first) /\
  (forall req resp data,
     sent = [req] ->
     llm_client.httpClient c ctx req w = (inl resp, w') ->
     http.StatusCode resp = 200%Z ->
     llm_client.decodeEmbedding lib (http.Body resp) = inl data ->
     llm_client.Data data = [] ->
     err = Some (New "no embedding data in response")).
Proof.
  unfold llm_client.GetEmbedding, http.NewRequest.
  destruct (llm_client.marshalEmbedding lib _) as [body|e0] eqn:Hm.
  2:{ intros [= <- <- <- <-]. repeat split; discriminate. }
  destruct (llm_client.urlError lib _) as [e0|].
  { intros [= <- <- <- <-]. repeat split; discriminate. }
  rewrite NewRequest_post.
  destruct (llm_client.httpClient c ctx _ w) as [[resp|e0] w1] eqn:Hdo.
  2:{ intros [= <- <- <- <-]. repeat split; try discriminate.
      intros req resp data [= <-] Hdo'. congruence. }
  unfold http.StatusOK.
  destruct (Z.eqb_spec (http.StatusCode resp) 200) as [Hok|Hbad]; cbn [negb].
  2:{ intros [= <- <- <- <-]. repeat split; try discriminate.
      intros req resp' data [= <-] Hdo'. congruence. }
  destruct (llm_client.decodeEmbedding lib _) as [data|e0] eqn:Hdec.
  2:{ intros [= <- <- <- <-]. repeat split; try discriminate.
      intros req resp' data [= <-] Hdo'. congruence. }
  destruct (llm_client.Data data) as [|first rest] eqn:Hdata.
  - intros [= <- <- <- <-]. repeat split; discriminate.
  - intros [= <- <- <- <-]. split; [congruence|]. split.
    + intros _. exists body, resp, data, first, rest. repeat split; assumption.
    + intros req resp' data' [= <-] Hdo' _ Hdec' Hnil. congruence.
Qed.

(** X15.  [Chat] returns an empty text with every error.  It returns no
    error only when its one request (a JSON POST to
    [baseURL/chat/completions] of the chat model and of all the messages,
    whatever their roles) was answered with status 200 and a body that
    decodes to at least one choice; it then returns the content of the
    first.  An answer with no choice is the error
    ["no choices in response"]. *)
Theorem Chat_result ctx messages w text err sent w' :
  llm_client.Chat lib c ctx messages w = ((text, err), sent, w') ->
  (err <> None -> text = EmptyString) /\
  (err = None ->
   exists body resp data first rest,
     llm_client.marshalChat lib
       {| llm_client.ChatModel := llm_client.chatModel c;
          llm_client.Messages := messages;
          llm_client.Stream := false |} = inl body /\
     sent = [llm_client.jsonPost
               (llm_client.baseURL c ++ "/chat/completions")%string body] /\
     llm_client.httpClient c ctx
       (llm_client.jsonPost
          (llm_client.baseURL c ++ "/chat/completions")%string body) w
     = (inl resp, w') /\
     http.StatusCode resp = 200%Z /\
     llm_client.decodeChat lib (http.Body resp) = inl data /\
     llm_client.Choices data = first :: rest /\
     text = Content (llm_client.ChoiceMessage first)) /\
  (forall req resp data,
     sent = [req] ->
     llm_client.httpClient c ctx req w = (inl resp, w') ->
     http.StatusCode resp = 200%Z ->
     llm_client.decodeChat lib (http.Body resp) = inl data ->
     llm_client.Choices data = [] ->
     err = Some (New "no choices in response")).
Proof.
  unfold llm_client.Chat, http.NewRequest.
  destruct (llm_client.promptParts messages) as [|part parts].
  { intros [= <- <- <- <-]. repeat split; discriminate. }
  destruct (llm_client.marshalChat lib _) as [body|e0] eqn:Hm.
  2:{ intros [= <- <- <- <-]. repeat split; discriminate. }
  destruct (llm_client.urlError lib _) as [e0|].
  { intros [= <- <- <- <-]. repeat split; discriminate. }
  rewrite NewRequest_post.
  destruct (llm_client.httpClient c ctx _ w) as [[resp|e0] w1] eqn:Hdo.
  2:{ intros [= <- <- <- <-]. repeat split; try discriminate.
      intros req resp data [= <-] Hdo'. congruence. }
  unfold http.StatusOK.
  destruct (Z.eqb_spec (http.StatusCode resp) 200) as [Hok|Hbad]; cbn [negb].
  2:{ intros [= <- <- <- <-]. repeat split; try discriminate.
      intros req resp' data [= <-] Hdo'. congruence. }
  destruct (llm_client.decodeChat lib _) as [data|e0] eqn:Hdec.
  2:{ intros [= <- <- <- <-]. repeat split; try discriminate.
      intros req resp' data [= <-] Hdo'. congruence. }
  destruct (llm_client.Choices data) as [|first rest] eqn:Hdata.
  - intros [= <- <- <- <-]. repeat split; discriminate.
  - intros [= <- <- <- <-]. split; [congruence|]. split.
    + intros _. exists body, resp, data, first, rest. repeat split; assumption.
    + intros req resp' data' [= <-] Hdo' _ Hdec' Hnil. congruence.
Qed.

End LLMClient.

(* ------------------------------------------------------------------ *)
(** * The pipeline over the LLM client *)

Lemma chat_events_single_user evs messages res :
  Forall singleUserMessage (chatRequests evs) ->
  In (EvChat messages res) evs ->
  existsb llm_client.isUser messages = true.
Proof.
  intros Hall Hin.
  assert (Hm : In messages (chatRequests evs)).
  { unfold chatRequests. apply in_flat_map.
    exists (EvChat messages res). split; [assumption|now left]. }
  rewrite Forall_forall in Hall.
  destruct (Hall _ Hm) as (m & -> & Hrole).
  unfold llm_client.isUser. cbn. now rewrite Hrole.
Qed.

Lemma pipeline_run_chat_requests request r evs :
  pipeline_run request r evs -> Forall singleUserMessage (chatRequests evs).
Proof.
  destruct 1 as [emb e|topicEmbedding out evs Hsubs]; [constructor|].
  exact (proj1 (proj2 (subreddits_run_summaries _ _ _ _ _ _ Hsubs))).
Qed.

Section PipelineOverClient.

Context {Ctx W : Type}.
Variable lib : llm_client.Lib.
Variable c : @llm_client.Client Ctx W.
Variable redditService : RedditService W.

(** X16.  When the relevance service runs over the LLM client, the guard of
    [Chat] never fires: no summary request of a run fails with
    ["no user messages found"], because every one of them carries a
    message with role ["user"]. *)
Theorem summary_requests_pass_the_guard ctx request w r evs w' :
  GetRelevantPosts
    {| llmClient := llm_client.asInterface lib c;
       services.redditService := redditService |} ctx request w
  = (r, evs, w') ->
  Forall (fun ev => match ev with
                    | EvChat _ (_, err) =>
                        err <> Some (New "no user messages found")
                    | _ => True
                    end) evs.
Proof.
  intros Hrun.
  pose proof (GetRelevantPosts_genuine _ _ _ _ _ _ _ Hrun) as Hgen.
  apply GetRelevantPosts_run in Hrun.
  apply pipeline_run_chat_requests in Hrun.
  rewrite Forall_forall in *. intros ev Hin.
  destruct ev as [| messages [text err] | |]; try exact I.
  specialize (Hgen _ Hin). destruct Hgen as [w0 Hres].
  pose proof (chat_events_single_user _ _ _
                (proj2 (Forall_forall _ _) Hrun) Hin) as Huser.
  pose proof (Chat_with_user lib c ctx messages w0 Huser) as Hguard.
  cbn in Hres.
  destruct (llm_client.Chat lib c ctx messages w0) as [[res0 sent0] w1].
  cbn in Hres, Hguard. subst res0. exact Hguard.
Qed.

End PipelineOverClient.

(* ------------------------------------------------------------------ *)
(** * Properties of the HTTP handler *)

Lemma validate_ok request :
  api.validate request = [] <->
  Topic request <> EmptyString /\ validSearchMethod request.
Proof.
  unfold api.validate, validSearchMethod, SearchMethodSearch,
    SearchMethodLatest.
  destruct (String.eqb_spec (Topic request) "") as [Ht|Ht];
    destruct (String.eqb_spec (SearchMethod_ request) "") as [He|He];
    destruct (String.eqb_spec (SearchMethod_ request) "search") as [Hs|Hs];
    destruct (String.eqb_spec (SearchMethod_ request) "latest") as [Hl|Hl];
    cbn; split; try discriminate; try tauto; try congruence;
    intros [? [?|?]]; congruence.
Qed.

Lemma pipeline_run_outcome request r evs :
  pipeline_run request r evs ->
  validSearchMethod request ->
  existsb nilResponse evs = false ->
  (existsb failed evs = true /\ exists e, r = Done (emptyResponse, Some e)) \/
  (existsb failed evs = false /\
   exists posts,
     r = Done ({| Posts := posts |}, None) /\
     List.length posts = itemsRetrieved evs).
Proof.
  intros Hrun Hvalid Hnil.
  destruct Hrun as [emb e|topicEmbedding out evs Hsubs].
  - left. split; [reflexivity|]. eexists; reflexivity.
  - change (existsb failed (?ev :: evs)) with (existsb failed evs).
    change (existsb nilResponse (?ev :: evs))
      with (existsb nilResponse evs) in Hnil.
    change (itemsRetrieved (?ev :: evs)) with (itemsRetrieved evs).
    destruct (existsb failed evs) eqn:Hf.
    + left. split; [reflexivity|].
      eapply subreddits_run_failed; eassumption.
    + right. split; [reflexivity|].
      destruct (subreddits_run_success _ _ _ _ _ _ Hsubs Hf Hnil Hvalid)
        as (new & -> & Hlen).
      exists new. split; [reflexivity|exact Hlen].
Qed.

Section Handler.

Context {Ctx W : Type}.
Variable b : api.Binder.

(** X17.  A body that does not decode, or that decodes to a request with an
    empty topic or with a search method other than ["search"] and
    ["latest"], is answered with status 400 and the binding error, and the
    service is not called; a request that passes the binding has a topic
    and one of the two search methods. *)
Theorem invalid_request_rejected (h : @api.RelevanceHandler Ctx W) ctx body
    w :
  (forall err,
     api.decodeJSON b body = inr err ->
     api.GetRelevantPosts b h ctx body w
     = (Done {| api.Code := 400; api.JSON := api.ErrorPayload (Error err) |},
        [], w)) /\
  (forall request,
     api.decodeJSON b body = inl request ->
     Topic request = EmptyString \/ ~ validSearchMethod request ->
     api.GetRelevantPosts b h ctx body w
     = (Done {| api.Code := 400;
                api.JSON :=
                  api.ErrorPayload
                    (Error (api.validationError b (api.validate request))) |},
        [], w)) /\
  (forall request,
     api.ShouldBindJSON b body = inl request ->
     Topic request <> EmptyString /\ validSearchMethod request).
Proof.
  unfold api.GetRelevantPosts, api.ShouldBindJSON.
  split; [|split].
  - now intros err ->.
  - intros request -> Hbad.
    destruct (api.validate request) as [|failure failures] eqn:Hv;
      [|reflexivity].
    apply validate_ok in Hv. tauto.
  - intros request.
    destruct (api.decodeJSON b body) as [decoded|err]; [|discriminate].
    destruct (api.validate decoded) eqn:Hv; [|discriminate].
    intros [= <-]. now apply validate_ok.
Qed.

Variable s : @relevanceService Ctx W.

(** X19.  A 500 answer comes from a request that passed the binding and a
    run that returned an error, and its body is the message of that error:
    the error of the last call of the run, before which no call failed,
    wrapped with the contexts of the stage of that call.  So the body is the
    text of those contexts followed by the whole message of the error the
    collaborator returned. *)
Theorem server_error_carries_cause ctx body w reply evs w' :
  api.GetRelevantPosts b (api.serverHandler s) ctx body w
  = (Done reply, evs, w') ->
  api.Code reply = 500%Z ->
  exists request response before ev e,
    api.ShouldBindJSON b body = inl request /\
    GetRelevantPosts s ctx request w
    = (Done (response, Some (stageWrap ev e)), evs, w') /\
    evs = before ++ [ev] /\
    existsb failed before = false /\
    eventError ev = Some e /\
    api.JSON reply = api.ErrorPayload (Error (stageWrap ev e)) /\
    Error (stageWrap ev e)
    = (match ev with
       | EvGetEmbedding TopicEmbedding _ _ =>
           "error getting topic embedding: "
       | EvGetEmbedding ItemEmbedding _ _ =>
           "error evaluating subreddit posts: error getting relevance score: error getting embedding: "
       | EvChat _ _ =>
           "error evaluating subreddit posts: error getting relevance summary: error getting chat response: "
       | EvSearchPosts _ _ _ _ | EvGetPosts _ _ _ =>
           "error getting subreddit posts: "
       end ++ Error e)%string.
Proof.
  unfold api.GetRelevantPosts.
  destruct (api.ShouldBindJSON b body) as [request|err];
    [|intros [= <- _ _]; discriminate].
  unfold bind, api.serverHandler, api.NewRelevanceHandler.
  cbn [api.relevanceService].
  destruct (GetRelevantPosts s ctx request w) as [[out evs0] w0] eqn:Hpipe.
  destruct out as [[response [err|]]|]; cbn; intros [= <- <- <-];
    try discriminate.
  intros _. rewrite app_nil_r.
  pose proof (GetRelevantPosts_run _ _ _ _ _ _ _ Hpipe) as Hrun.
  destruct (pipeline_run_error _ _ _ _ Hrun)
    as (before & ev & e & Hevs & Hq & Herr & ->).
  exists request, response, before, ev, e.
  repeat split; try assumption.
  now destruct ev as [[|] text res|messages res|subreddit query limit res
                     |subreddit limit res].
Qed.

End Handler.

(* ------------------------------------------------------------------ *)
(** * The handler of the server *)

Section Installed.

Context {Ctx W : Type}.
Variable llmLib : llm_client.Lib.
Variable redditLib : reddit_client.Lib.
Variable s : @wiring.relevanceService Ctx W.

Lemma installed_callSearchPosts subreddit query limit w r evs w' :
  wiring.callSearchPosts redditLib s subreddit query limit w = (r, evs, w') ->
  (r = Panic /\ evs = [] /\
   wiring.nullListing redditLib s (reddit_client.searchRequest redditLib (redditsvc.client (wiring.redditService s)) subreddit query
                  (reddit_client.clamp limit)) w w') \/
  (callSearchPosts (wiring.overClients llmLib redditLib s) subreddit query limit w = (r, evs, w') /\
   existsb nilResponse evs = false).
Proof.
  unfold wiring.callSearchPosts, redditsvc.SearchPosts, callSearchPosts.
  cbn [redditService wiring.overClients wiring.returning SearchPosts].
  pose proof (SearchPosts_outcome redditLib (redditsvc.client (wiring.redditService s)) subreddit query limit w)
    as Hout.
  pose proof (SearchPosts_sent redditLib (redditsvc.client (wiring.redditService s)) subreddit query limit w)
    as Hsent.
  destruct (reddit_client.SearchPosts redditLib (redditsvc.client (wiring.redditService s)) subreddit query limit w)
    as [[[ptr err] sent] w1].
  cbn [fst snd] in Hsent.
  destruct (clientOutcome_result _ _ _ _ _ _ _ Hout) as (Hnil & Hok & _ & _).
  destruct err as [e|].
  - rewrite (Hnil ltac:(discriminate)).
    intros [= <- <- <-]. right. split; reflexivity.
  - destruct ptr as [resp0|].
    + intros [= <- <- <-]. right. split; reflexivity.
    + intros [= <- <- <-]. left. split; [reflexivity|]. split; [reflexivity|].
      destruct (Hok eq_refl) as (req & resp & -> & Hdo & Hst & Hdec).
      destruct (reddit_client.urlError _ _); [discriminate|].
      injection Hsent as ->. now exists resp.
Qed.

Lemma installed_callGetPosts subreddit limit w r evs w' :
  wiring.callGetPosts redditLib s subreddit limit w = (r, evs, w') ->
  (r = Panic /\ evs = [] /\
   wiring.nullListing redditLib s (reddit_client.listingRequest (redditsvc.client (wiring.redditService s)) subreddit
                  (reddit_client.clamp limit)) w w') \/
  (callGetPosts (wiring.overClients llmLib redditLib s) subreddit limit w = (r, evs, w') /\
   existsb nilResponse evs = false).
Proof.
  unfold wiring.callGetPosts, redditsvc.GetPosts, callGetPosts.
  cbn [redditService wiring.overClients wiring.returning GetPosts].
  pose proof (GetPosts_outcome redditLib (redditsvc.client (wiring.redditService s)) subreddit limit w) as Hout.
  pose proof (GetPosts_sent redditLib (redditsvc.client (wiring.redditService s)) subreddit limit w) as Hsent.
  destruct (reddit_client.GetPosts redditLib (redditsvc.client (wiring.redditService s)) subreddit limit w)
    as [[[ptr err] sent] w1].
  cbn [fst snd] in Hsent.
  destruct (clientOutcome_result _ _ _ _ _ _ _ Hout) as (Hnil & Hok & _ & _).
  destruct err as [e|].
  - rewrite (Hnil ltac:(discriminate)).
    intros [= <- <- <-]. right. split; reflexivity.
  - destruct ptr as [resp0|].
    + intros [= <- <- <-]. right. split; reflexivity.
    + intros [= <- <- <-]. left. split; [reflexivity|]. split; [reflexivity|].
      destruct (Hok eq_refl) as (req & resp & -> & Hdo & Hst & Hdec).
      destruct (reddit_client.urlError _ _); [discriminate|].
      injection Hsent as ->. now exists resp.
Qed.

Lemma installed_retrieve request subreddit w r evs w' :
  wiring.retrieve redditLib s request subreddit w = (r, evs, w') ->
  (r = Panic /\ evs = [] /\
   wiring.nullListing redditLib s (wiring.retrievalRequest redditLib s request subreddit) w w')
  \/
  (retrieve (wiring.overClients llmLib redditLib s) request subreddit w = (r, evs, w') /\
   existsb nilResponse evs = false).
Proof.
  unfold wiring.retrieve, retrieve, wiring.retrievalRequest.
  destruct (String.eqb (SearchMethod_ request) SearchMethodSearch).
  - apply installed_callSearchPosts.
  - destruct (String.eqb (SearchMethod_ request) SearchMethodLatest).
    + apply installed_callGetPosts.
    + intros [= <- <- <-]. right. split; reflexivity.
Qed.

Lemma installed_evaluateSubreddits ctx request topicEmbedding :
  forall subreddits acc w r evs w',
    wiring.evaluateSubreddits llmLib redditLib s ctx request subreddits
      topicEmbedding acc w = (r, evs, w') ->
    (r = Panic /\ existsb failed evs = false /\
     exists subreddit w0,
       In subreddit subreddits /\
       wiring.nullListing redditLib s (wiring.retrievalRequest redditLib s request subreddit)
         w0 w') \/
    (evaluateSubreddits (wiring.overClients llmLib redditLib s) ctx request subreddits topicEmbedding acc w
     = (r, evs, w') /\
     existsb nilResponse evs = false).
Proof.
  induction subreddits as [|subreddit rest IH]; intros acc w r evs w'.
  - cbn. intros [= <- <- <-]. right. split; reflexivity.
  - cbn [wiring.evaluateSubreddits evaluateSubreddits]. unfold bind at 1 3.
    destruct (wiring.retrieve redditLib s request subreddit w)
      as [[r1 evs1] w1] eqn:Hret.
    apply installed_retrieve in Hret
      as [(-> & -> & Hnull)|[Hret Hnil1]].
    { intros [= <- <- <-]. left. split; [reflexivity|].
      split; [reflexivity|]. exists subreddit, w. split; [now left|].
      exact Hnull. }
    rewrite Hret.
    apply retrieve_is_run in Hret as ([ptr err] & -> & Hrun1).
    pose proof (retrieve_run_failed _ _ _ _ _ Hrun1) as Hf1.
    destruct err as [e|].
    { cbn. intros [= <- <- <-]. right. split; [reflexivity|].
      now rewrite app_nil_r. }
    unfold bind.
    destruct (evaluateSubredditPosts (wiring.overClients llmLib redditLib s) ctx subreddit ptr (Topic request)
                topicEmbedding (RelevanceThreshold request) w1)
      as [[r2 evs2] w2] eqn:Hev.
    assert (Hnil2 : existsb nilResponse evs2 = false /\
                    (forall dtos, r2 = Done (dtos, None) ->
                                  existsb failed evs2 = false)).
    { destruct ptr as [resp|]; cbn in Hev.
      - apply evaluatePosts_run in Hev as (out & -> & Hposts).
        split; [exact (proj2 (posts_run_calls _ _ _ _ _ _ _ _ Hposts))|].
        intros dtos [= ->].
        exact (posts_run_failed _ _ _ _ _ _ _ _ _ Hposts).
      - injection Hev as <- <- <-. split; [reflexivity|discriminate]. }
    destruct Hnil2 as [Hnil2 Hf2].
    destruct r2 as [[dtos [e|]]|].
    + cbn. intros [= <- <- <-]. right. split; [reflexivity|].
      now rewrite app_nil_r, existsb_app, Hnil1, Hnil2.
    + destruct (wiring.evaluateSubreddits llmLib redditLib s ctx request rest
                  topicEmbedding (acc ++ dtos) w2)
        as [[r3 evs3] w3] eqn:Hrest.
      apply IH in Hrest
        as [(-> & Hf3 & sub & w0 & Hin & Hnull)|[Hrest Hnil3]].
      * intros [= <- <- <-]. left. split; [reflexivity|].
        split.
        { now rewrite !existsb_app, Hf1, (Hf2 dtos eq_refl), Hf3. }
        exists sub, w0. split; [now right|exact Hnull].
      * rewrite Hrest. intros [= <- <- <-]. right. split; [reflexivity|].
        now rewrite !existsb_app, Hnil1, Hnil2, Hnil3.
    + intros [= <- <- <-]. right. split; [reflexivity|].
      now rewrite existsb_app, Hnil1, Hnil2.
Qed.

Lemma installed_GetRelevantPosts ctx request w r evs w' :
  wiring.GetRelevantPosts llmLib redditLib s ctx request w = (r, evs, w') ->
  (r = Panic /\ existsb failed evs = false /\
   exists subreddit w0,
     In subreddit (Subreddits request) /\
     wiring.nullListing redditLib s (wiring.retrievalRequest redditLib s request subreddit)
       w0 w') \/
  (GetRelevantPosts (wiring.overClients llmLib redditLib s) ctx request w = (r, evs, w') /\
   existsb nilResponse evs = false).
Proof.
  unfold wiring.GetRelevantPosts, GetRelevantPosts, bind.
  destruct (callGetEmbedding (wiring.overClients llmLib redditLib s) TopicEmbedding ctx (Topic request) w)
    as [[r0 evs0] w0] eqn:Hcall.
  unfold callGetEmbedding in Hcall.
  destruct (GetEmbedding (llmClient (wiring.overClients llmLib redditLib s)) ctx (Topic request) w)
    as [[emb err] w1].
  injection Hcall as <- <- <-.
  destruct err as [e|].
  - cbn. intros [= <- <- <-]. right. split; reflexivity.
  - destruct (wiring.evaluateSubreddits llmLib redditLib s ctx request
                (Subreddits request) emb [] w1) as [[r1 evs1] w2] eqn:Hsubs.
    apply installed_evaluateSubreddits in Hsubs
      as [(-> & Hf & sub & w0 & Hin & Hnull)|[Hsubs Hnil]].
    + intros [= <- <- <-]. left. split; [reflexivity|].
      split; [exact Hf|]. now exists sub, w0.
    + rewrite Hsubs. intros [= <- <- <-]. right. split; [reflexivity|].
      exact Hnil.
Qed.

Variable b : api.Binder.

(** X18.  The handler of the server, over the service [NewRelevanceService]
    builds, answers every request unless the Reddit server returns a null
    listing.  When it answers: with 400 and no call when the body does not
    bind; with 500 when some call of the run failed; and otherwise with 200
    and one post for each item retrieved.  When it panics, the request
    passed the binding, no call had failed, and the Reddit server had
    answered the retrieval for one of the request's subreddits with status
    200 and a body that decodes to a nil response: the panic is the one of
    the Reddit service, and the nil dereference of an unknown search method
    is out of reach of an HTTP request. *)
Theorem handler_answers_unless_null_listing ctx body w r evs w' :
  api.GetRelevantPosts b (wiring.handler llmLib redditLib s) ctx body w
  = (r, evs, w') ->
  (exists reply,
     r = Done reply /\
     ((api.Code reply = 400%Z /\ evs = [] /\ w' = w /\
       exists err, api.ShouldBindJSON b body = inr err /\
                   api.JSON reply = api.ErrorPayload (Error err)) \/
      (api.Code reply = 500%Z /\ existsb failed evs = true /\
       exists err, api.JSON reply = api.ErrorPayload (Error err)) \/
      (api.Code reply = 200%Z /\ existsb failed evs = false /\
       exists posts,
         api.JSON reply = api.ResponsePayload {| Posts := posts |} /\
         List.length posts = itemsRetrieved evs))) \/
  (r = Panic /\ existsb failed evs = false /\
   exists request subreddit w0 resp,
     api.ShouldBindJSON b body = inl request /\
     In subreddit (Subreddits request) /\
     reddit_client.httpClient (redditsvc.client (wiring.redditService s))
       (wiring.retrievalRequest redditLib s request subreddit) w0
     = (inl resp, w') /\
     http.StatusCode resp = 200%Z /\
     reddit_client.decode redditLib (http.Body resp) = inl None).
Proof.
  unfold api.GetRelevantPosts.
  destruct (api.ShouldBindJSON b body) as [request|err] eqn:Hbind.
  2:{ intros [= <- <- <-]. left. eexists. split; [reflexivity|]. left.
      repeat split. now exists err. }
  assert (Hvalid : validSearchMethod request).
  { unfold api.ShouldBindJSON in Hbind.
    destruct (api.decodeJSON b body) as [decoded|err]; [|discriminate].
    destruct (api.validate decoded) eqn:Hv; [|discriminate].
    injection Hbind as <-. now apply validate_ok in Hv. }
  unfold bind, wiring.handler, api.NewRelevanceHandler.
  cbn [api.relevanceService].
  destruct (wiring.GetRelevantPosts llmLib redditLib s ctx request w)
    as [[out evs0] w0] eqn:Hpipe.
  apply installed_GetRelevantPosts in Hpipe
    as [(-> & Hf & sub & w1 & Hin & resp & Hdo & Hst & Hdec)|[Hpipe Hnil]].
  - intros [= <- <- <-]. right. split; [reflexivity|]. split; [exact Hf|].
    now exists request, sub, w1, resp.
  - apply GetRelevantPosts_run in Hpipe.
    destruct (pipeline_run_outcome _ _ _ Hpipe Hvalid Hnil)
      as [(Hf & e & ->)|(Hf & posts & -> & Hlen)];
      cbn; intros [= <- <- <-]; rewrite app_nil_r; left;
      (eexists; split; [reflexivity|]).
    + right; left. repeat split; [assumption|]. now exists e.
    + right; right. repeat split; [assumption|]. now exists posts.
Qed.

End Installed.

(* ------------------------------------------------------------------ *)
(** * The further properties on the test data *)

(** The run of [PostEmbeddingError]: the failed item embedding is its third
    and last call. *)
Lemma failed_call_is_last_witness :
  skipn 3 (snd (fst fixtures.failingRun)) = [].
Proof.
  apply (failed_call_is_last mocks.postEmbeddingError tt
           (mocks.searchRequest 0.5) tt _ _ _ eq_refl
           (firstn 2 (snd (fst fixtures.failingRun)))
           fixtures.embeddingFailure);
    reflexivity.
Defined.

Lemma returned_error_origin_witness :
  exists before ev e,
    snd (fst fixtures.failingRun) = before ++ [ev] /\
    existsb failed before = false /\
    eventError ev = Some e /\
    fixtures.wrappedEmbeddingFailure = stageWrap ev e /\
    exists stages,
      Error fixtures.wrappedEmbeddingFailure = (stages ++ Error e)%string.
Proof.
  exact (returned_error_origin mocks.postEmbeddingError tt
           (mocks.searchRequest 0.5) tt _ _ _ _ eq_refl).
Defined.

(** The run of [MultipleSubreddits]: two items, two summaries. *)
Lemma summary_for_every_scored_item_witness :
  List.length (chatRequests (snd (fst fixtures.twoSourcesRun))) = 2%nat /\
  List.length (itemEmbeddings (snd (fst fixtures.twoSourcesRun))) = 2%nat.
Proof.
  destruct (summary_for_every_scored_item mocks.twoSources tt
              fixtures.twoSourcesRequest tt _ _ _ eq_refl) as [Hlen _].
  split; [reflexivity|exact (eq_trans (eq_sym Hlen) eq_refl)].
Defined.

Lemma scores_and_summaries_flow_witness :
  exists topicEmbedding,
    topicEmbeddings (snd (fst fixtures.twoSourcesRun)) = [topicEmbedding] /\
    map RelevanceScore (fixtures.posts fixtures.twoSourcesRun)
    = map (fun emb => CosineSimilarity emb topicEmbedding)
        (itemEmbeddings (snd (fst fixtures.twoSourcesRun))) /\
    map RelevanceSummary (fixtures.posts fixtures.twoSourcesRun)
    = summaries (snd (fst fixtures.twoSourcesRun)).
Proof.
  exact (scores_and_summaries_flow mocks.twoSources tt
           fixtures.twoSourcesRequest tt _ _ _ eq_refl).
Defined.

Lemma retrieval_calls_follow_request_witness :
  retrievalCalls (snd (fst fixtures.twoSourcesRun))
  = [Search "programming" "programming" 5; Search "golang" "programming" 5].
Proof.
  exact (proj2 (retrieval_calls_follow_request mocks.twoSources tt
                  fixtures.twoSourcesRequest tt _ _ _ eq_refl) _ eq_refl).
Defined.

(** A pinned post is evaluated like the same post unpinned. *)
Lemma permalink_and_stickied_unread_witness :
  evaluateSubredditPosts mocks.identicalService tt "test"
    (Some (mocks.response [mocks.testPost])) "test topic" [1; 0; 0] 0.5 tt
  = evaluateSubredditPosts mocks.identicalService tt "test"
      (Some (mocks.response [fixtures.pinnedTestPost])) "test topic"
      [1; 0; 0] 0.5 tt.
Proof.
  apply (permalink_and_stickied_unread mocks.identicalService tt "test"
           (mocks.response [mocks.testPost])
           (mocks.response [fixtures.pinnedTestPost])).
  repeat constructor.
Defined.

(** [HTTPError]: status 500 comes back as the error that names it. *)
Lemma GetPosts_result_witness :
  snd (fst (fst (reddit_client.GetPosts fixtures.redditLib
                   (fixtures.NewTestClient
                      (fixtures.server 500 "Internal Server Error"))
                   "technology" 5 tt)))
  = Some (New "reddit API returned status 500: Internal Server Error").
Proof.
  refine (proj1 (proj2 (proj2
            (GetPosts_result fixtures.redditLib
               (fixtures.NewTestClient
                  (fixtures.server 500 "Internal Server Error"))
               "technology" 5 tt _ _ _ _ eq_refl)))
            _ {| http.StatusCode := 500;
                 http.Body := "Internal Server Error" |} eq_refl eq_refl _).
  discriminate.
Defined.

(** [Success] of the search: the response is what the body decoded to. *)
Lemma SearchPosts_result_witness :
  exists req resp,
    snd (fst (reddit_client.SearchPosts fixtures.redditLib
                (fixtures.NewTestClient (fixtures.server 200 "{}"))
                "technology" "golang" 5 tt)) = [req] /\
    fixtures.server 200 "{}" req tt = (inl resp, tt) /\
    http.StatusCode resp = 200%Z /\
    fixtures.decodeListing (http.Body resp)
    = inl (Some (mocks.response [mocks.testPost])).
Proof.
  exact (proj1 (proj2
           (SearchPosts_result fixtures.redditLib
              (fixtures.NewTestClient (fixtures.server 200 "{}"))
              "technology" "golang" 5 tt _ _ _ _ eq_refl)) eq_refl).
Defined.

(** A 200 answer whose body is [null]: the service panics. *)
Lemma redditService_GetPosts_outcome_witness :
  fst (fst (redditsvc.GetPosts fixtures.redditLib
              (fixtures.newRedditServiceForTesting
                 (fixtures.server 200 "null")) "technology" 5 tt))
  = Panic.
Proof.
  refine (proj2 (proj1 (proj2
            (redditService_GetPosts_outcome fixtures.redditLib
               (fixtures.newRedditServiceForTesting
                  (fixtures.server 200 "null")) "technology" 5 tt
               _ _ _ eq_refl))) _).
  eexists _, {| http.StatusCode := 200; http.Body := "null" |}.
  repeat split.
Defined.

(** [ClientError] of the search: the error of the client comes back. *)
Lemma redditService_SearchPosts_outcome_witness :
  reddit_client.SearchPosts fixtures.redditLib
    (fixtures.NewTestClient (fixtures.server 404 "Not Found"))
    "nonexistent" "golang" 5 tt
  = ((None, Some (New "reddit API returned status 404: Not Found")),
     [reddit_client.searchRequest fixtures.redditLib
        (fixtures.NewTestClient (fixtures.server 404 "Not Found"))
        "nonexistent" "golang" 5],
     tt).
Proof.
  exact (proj2 (proj2
           (redditService_SearchPosts_outcome fixtures.redditLib
              (fixtures.newRedditServiceForTesting
                 (fixtures.server 404 "Not Found")) "nonexistent" "golang" 5
              tt _ _ _ eq_refl)) _ _ eq_refl).
Defined.

(** [EmptyEmbeddingData]. *)
Lemma GetEmbedding_result_witness :
  snd (fst (fst (llm_client.GetEmbedding fixtures.llmLib
                   (fixtures.llmTestClient 200 "empty") tt "test text" tt)))
  = Some (New "no embedding data in response").
Proof.
  exact (proj2 (proj2
           (GetEmbedding_result fixtures.llmLib
              (fixtures.llmTestClient 200 "empty") tt "test text" tt
              _ _ _ _ eq_refl))
           _ {| http.StatusCode := 200; http.Body := "empty" |}
           _ eq_refl eq_refl eq_refl eq_refl eq_refl).
Defined.

(** [MultipleMessages]: the content of the first choice comes back. *)
Lemma Chat_result_witness :
  exists first rest,
    llm_client.Choices
      (match llm_client.decodeChat fixtures.llmLib "ok" with
       | inl data => data
       | inr _ =>
           {| llm_client.ID := ""; llm_client.Object := "";
              llm_client.Created := 0; llm_client.ResponseModel := "";
              llm_client.Choices := [];
              llm_client.ChatUsage :=
                {| llm_client.PromptTokens := 0;
                   llm_client.CompletionTokens := 0;
                   llm_client.TotalTokens := 0 |} |}
       end) = first :: rest /\
    "This is a test response"%string
    = Content (llm_client.ChoiceMessage first).
Proof.
  destruct (proj1 (proj2
              (Chat_result fixtures.llmLib (fixtures.llmTestClient 200 "ok")
                 tt
                 [ {| Role := "system"; Content := "You are helpful" |};
                   {| Role := "user"; Content := "test message" |} ] tt
                 _ _ _ _ eq_refl)) eq_refl)
    as (body & resp & data & first & rest & _ & _ & Hdo & _ & Hdec & Hch & Ht).
  injection Hdo as <-. injection Hdec as <-.
  exists first, rest. split; [exact Hch|exact Ht].
Defined.

(** A run over the LLM client: its one summary request is answered. *)
Lemma summary_requests_pass_the_guard_witness :
  Forall (fun ev => match ev with
                    | EvChat _ (_, err) =>
                        err <> Some (New "no user messages found")
                    | _ => True
                    end)
    (snd (fst (GetRelevantPosts fixtures.overLLMClient tt
                 (mocks.searchRequest 0.5) tt))).
Proof.
  exact (summary_requests_pass_the_guard fixtures.llmLib
           (fixtures.llmTestClient 200 "ok")
           (mocks.MockRedditService
              [("test"%string,
                (Some (mocks.response [mocks.testPost]), None))])
           tt (mocks.searchRequest 0.5) tt _ _ _ eq_refl).
Defined.

(** The Reddit server answers 200 with the body [null]: the handler of the
    server panics, and the request that was answered so is the search for
    the one subreddit of the request. *)
Lemma handler_answers_unless_null_listing_witness :
  fst (fst (api.GetRelevantPosts fixtures.binder
              (wiring.handler fixtures.llmLib fixtures.redditLib
                 (fixtures.installed 200 "null")) tt "{...}" tt))
  = Panic /\
  exists request subreddit resp,
    api.ShouldBindJSON fixtures.binder "{...}" = inl request /\
    In subreddit (Subreddits request) /\
    fixtures.server 200 "null"
      (wiring.retrievalRequest fixtures.redditLib
         (fixtures.installed 200 "null") request subreddit) tt
    = (inl resp, tt) /\
    http.StatusCode resp = 200%Z /\
    fixtures.decodeListing (http.Body resp) = inl None.
Proof.
  destruct (handler_answers_unless_null_listing fixtures.llmLib
              fixtures.redditLib (fixtures.installed 200 "null")
              fixtures.binder tt "{...}" tt _ _ _ eq_refl)
    as [(reply & Hr & _)|(Hr & _ & request & sub & [] & resp & Hrest)].
  - discriminate Hr.
  - split; [exact Hr|]. now exists request, sub, resp.
Defined.

(** [ServiceError]: the body of the 500 is the message of the error of the
    embedding service under the contexts of the relevance-score stage. *)
Lemma server_error_carries_cause_witness :
  exists request response before ev e,
    api.ShouldBindJSON fixtures.binder "{...}" = inl request /\
    GetRelevantPosts mocks.postEmbeddingError tt request tt
    = (Done (response, Some (stageWrap ev e)),
       snd (fst (api.GetRelevantPosts fixtures.binder
                   (api.serverHandler mocks.postEmbeddingError) tt "{...}"
                   tt)), tt) /\
    snd (fst (api.GetRelevantPosts fixtures.binder
                (api.serverHandler mocks.postEmbeddingError) tt "{...}" tt))
    = before ++ [ev] /\
    existsb failed before = false /\
    eventError ev = Some e /\
    api.ErrorPayload (Error fixtures.wrappedEmbeddingFailure)
    = api.ErrorPayload (Error (stageWrap ev e)) /\
    Error (stageWrap ev e)
    = (match ev with
       | EvGetEmbedding TopicEmbedding _ _ =>
           "error getting topic embedding: "
       | EvGetEmbedding ItemEmbedding _ _ =>
           "error evaluating subreddit posts: error getting relevance score: error getting embedding: "
       | EvChat _ _ =>
           "error evaluating subreddit posts: error getting relevance summary: error getting chat response: "
       | EvSearchPosts _ _ _ _ | EvGetPosts _ _ _ =>
           "error getting subreddit posts: "
       end ++ Error e)%string.
Proof.
  exact (server_error_carries_cause fixtures.binder mocks.postEmbeddingError
           tt "{...}" tt _ _ _ eq_refl eq_refl).
Defined.

(* ------------------------------------------------------------------ *)
(** * Properties of the web client *)

Lemma or_truthy a b : web.ToBoolean b = true -> web.ToBoolean (web.or a b) = true.
Proof. unfold web.or. now destruct (web.ToBoolean a) eqn:E. Qed.

Lemma or_falsy a b : web.ToBoolean a = false -> web.or a b = b.
Proof. unfold web.or. now intros ->. Qed.

Section WebClient.

Context {W : Type}.
Variable toISOString : web.JSValue -> web.JSValue + web.Caught.
Variable post : web.RequestData -> W -> (web.JSValue + web.Caught) * W.

(** X20.  [searchRedditPosts] posts at most one request.  In it a missing
    or falsy topic, threshold, limit or search method is replaced by the
    empty string, 0.5, 25 and ["search"], and a truthy one is passed as
    given; so the threshold, the limit and the search method are never
    falsy, and a threshold of 0 is sent as 0.5.  The subreddits are passed
    as given, [min_num_comments] is 0 whatever the caller passes, and
    [created_after] is null or the ISO text of the given date. *)
Theorem searchRedditPosts_request params w :
  (List.length (snd (fst (web.searchRedditPosts toISOString post params w)))
   <= 1)%nat /\
  Forall
    (fun data =>
       web.topic data
       = (if web.ToBoolean (web.param_topic params)
          then web.param_topic params else web.JSString "") /\
       web.relevance_threshold data
       = (if web.ToBoolean (web.param_relevance_threshold params)
          then web.param_relevance_threshold params
          else web.JSNumber 0.5) /\
       web.limit data
       = (if web.ToBoolean (web.param_limit params)
          then web.param_limit params else web.JSNumber 25) /\
       web.search_method data
       = (if web.ToBoolean (web.param_search_method params)
          then web.param_search_method params else web.JSString "search") /\
       web.ToBoolean (web.relevance_threshold data) = true /\
       web.ToBoolean (web.limit data) = true /\
       web.ToBoolean (web.search_method data) = true /\
       (web.param_relevance_threshold params = web.JSNumber 0 ->
        web.relevance_threshold data = web.JSNumber 0.5) /\
       web.subreddits data = web.param_subreddits params /\
       web.min_num_comments data = web.JSNumber 0 /\
       (if web.ToBoolean (web.param_created_after params)
        then toISOString (web.param_created_after params)
             = inl (web.created_after data)
        else web.created_after data = web.JSNull))
    (snd (fst (web.searchRedditPosts toISOString post params w))).
Proof.
  unfold web.searchRedditPosts.
  destruct (if web.ToBoolean (web.param_created_after params)
            then toISOString (web.param_created_after params)
            else inl web.JSNull) as [created|error] eqn:Hcreated.
  2:{ split; [cbn; lia|constructor]. }
  set (data :=
         {| web.topic := web.or (web.param_topic params) (web.JSString "");
            web.subreddits := web.param_subreddits params;
            web.relevance_threshold :=
              web.or (web.param_relevance_threshold params)
                (web.JSNumber 0.5);
            web.limit := web.or (web.param_limit params) (web.JSNumber 25);
            web.created_after := created;
            web.min_num_comments := web.JSNumber 0;
            web.search_method :=
              web.or (web.param_search_method params)
                (web.JSString "search") |}).
  assert (Hdata :
    web.topic data
    = (if web.ToBoolean (web.param_topic params)
       then web.param_topic params else web.JSString "") /\
    web.relevance_threshold data
    = (if web.ToBoolean (web.param_relevance_threshold params)
       then web.param_relevance_threshold params
       else web.JSNumber 0.5) /\
    web.limit data
    = (if web.ToBoolean (web.param_limit params)
       then web.param_limit params else web.JSNumber 25) /\
    web.search_method data
    = (if web.ToBoolean (web.param_search_method params)
       then web.param_search_method params else web.JSString "search") /\
    web.ToBoolean (web.relevance_threshold data) = true /\
    web.ToBoolean (web.limit data) = true /\
    web.ToBoolean (web.search_method data) = true /\
    (web.param_relevance_threshold params = web.JSNumber 0 ->
     web.relevance_threshold data = web.JSNumber 0.5) /\
    web.subreddits data = web.param_subreddits params /\
    web.min_num_comments data = web.JSNumber 0 /\
    (if web.ToBoolean (web.param_created_after params)
     then toISOString (web.param_created_after params)
          = inl (web.created_after data)
     else web.created_after data = web.JSNull)).
  { cbn [data web.topic web.subreddits web.relevance_threshold web.limit
           web.min_num_comments web.search_method web.created_after].
    repeat split; try (apply or_truthy; reflexivity).
    - intros Hzero. unfold web.or. now rewrite Hzero.
    - destruct (web.ToBoolean (web.param_created_after params));
        [assumption|congruence]. }
  destruct (post data w) as [[answer|error] w1];
    (split; [cbn; lia|]); (constructor; [exact Hdata|constructor]).
Qed.

(** X21.  When [searchRedditPosts] rejects, the argument of the [Error] it
    throws is never falsy; when it is a string, as the error text of the
    backend is, it is not the empty string.  The error caught came from the
    date conversion, before any request, or from the one request posted.
    The argument is the error text of the server's answer, or ["Failed to
    search Reddit posts"] when that text is missing or falsy; with no
    answer, a fixed text when a request was made, and otherwise the message
    of the caught error, or ["An error occurred"] when that is falsy. *)
Theorem searchRedditPosts_rejection params w thrown sent w' :
  web.searchRedditPosts toISOString post params w = (inr thrown, sent, w') ->
  web.ToBoolean thrown = true /\
  (forall text, thrown = web.JSString text -> text <> EmptyString) /\
  exists error,
    ((sent = [] /\ w' = w /\
      web.ToBoolean (web.param_created_after params) = true /\
      toISOString (web.param_created_after params) = inr error) \/
     (exists data, sent = [data] /\ post data w = (inr error, w'))) /\
    thrown
    = match web.response error with
      | Some serverError =>
          if web.ToBoolean serverError then serverError
          else web.JSString "Failed to search Reddit posts"
      | None =>
          if web.ToBoolean (web.request error) then
            web.JSString "No response from server. Is the backend running?"
          else if web.ToBoolean (web.message error) then web.message error
               else web.JSString "An error occurred"
      end.
Proof.
  assert (Hre : forall error, web.ToBoolean (web.rethrow error) = true).
  { intros error. unfold web.rethrow.
    destruct (web.response error); [now apply or_truthy|].
    destruct (web.ToBoolean (web.request error)); [reflexivity|].
    now apply or_truthy. }
  assert (Htext : forall value text,
            web.ToBoolean value = true -> value = web.JSString text ->
            text <> EmptyString).
  { intros value text Htruthy -> ->. discriminate Htruthy. }
  unfold web.searchRedditPosts.
  destruct (web.ToBoolean (web.param_created_after params)) eqn:Hdate.
  - destruct (toISOString (web.param_created_after params))
      as [created|error] eqn:Hiso.
    + destruct (post _ w) as [[data|error] w1] eqn:Hpost; [discriminate|].
      intros [= <- <- <-]. split; [apply Hre|].
      split; [intros text; apply Htext, Hre|].
      exists error. split; [right; eexists; split; [reflexivity|exact Hpost]|].
      reflexivity.
    + intros [= <- <- <-]. split; [apply Hre|].
      split; [intros text; apply Htext, Hre|].
      exists error. split; [left; repeat split|]; reflexivity.
  - destruct (post _ w) as [[data|error] w1] eqn:Hpost; [discriminate|].
    intros [= <- <- <-]. split; [apply Hre|].
    split; [intros text; apply Htext, Hre|].
    exists error. split; [right; eexists; split; [reflexivity|exact Hpost]|].
    reflexivity.
Qed.

End WebClient.

Section SubredditsList.

Variable trim : string -> string.
Variable toLowerCase : string -> string.

Lemma includes_In subreddits name :
  web.includes subreddits name = true <-> In name subreddits.
Proof.
  unfold web.includes. rewrite existsb_exists. split.
  - intros (x & Hin & Heq). apply String.eqb_eq in Heq. now subst.
  - intros Hin. exists name. split; [assumption|apply String.eqb_refl].
Qed.

(** X22.  [handleAdd] passes a list to [onChange] only to append one name:
    the input trimmed and lower-cased, not empty and not yet in the list;
    it then clears the input.  So a list without duplicates stays without
    duplicates.  Otherwise it changes nothing. *)
Theorem handleAdd_appends_new_name subreddits newSubreddit :
  match web.handleAdd trim toLowerCase subreddits newSubreddit with
  | (Some updated, input) =>
      updated = subreddits ++ [toLowerCase (trim newSubreddit)] /\
      toLowerCase (trim newSubreddit) <> EmptyString /\
      ~ In (toLowerCase (trim newSubreddit)) subreddits /\
      input = EmptyString /\
      (NoDup subreddits -> NoDup updated)
  | (None, input) =>
      input = newSubreddit /\
      (toLowerCase (trim newSubreddit) = EmptyString \/
       In (toLowerCase (trim newSubreddit)) subreddits)
  end.
Proof.
  unfold web.handleAdd.
  destruct (String.eqb_spec (toLowerCase (trim newSubreddit)) "")
    as [Hempty|Hname]; cbn [negb andb].
  - split; [reflexivity|now left].
  - destruct (web.includes subreddits (toLowerCase (trim newSubreddit)))
      eqn:Hinc; cbn [negb].
    + split; [reflexivity|]. right. now apply includes_In.
    + assert (Hnew : ~ In (toLowerCase (trim newSubreddit)) subreddits).
      { intros Hin. apply includes_In in Hin. congruence. }
      repeat split; try assumption.
      intros Hnodup. apply NoDup_app; [assumption|repeat constructor; easy|].
      intros x Hx [<-|[]]. contradiction.
Qed.

Lemma filterIndex_spec subreddits :
  forall i index,
    web.filterIndex subreddits i index
    = if (i <=? index)%nat
      then firstn (index - i) subreddits ++ skipn (S (index - i)) subreddits
      else subreddits.
Proof.
  induction subreddits as [|name rest IH]; intros i index.
  - destruct (i <=? index)%nat; [|reflexivity].
    now rewrite firstn_nil, skipn_nil.
  - cbn [web.filterIndex]. rewrite IH.
    destruct (Nat.eqb_spec i index) as [->|Hne].
    + rewrite Nat.sub_diag.
      destruct (Nat.leb_spec (S index) index); [lia|].
      now rewrite Nat.leb_refl.
    + destruct (Nat.leb_spec i index) as [Hle|Hgt].
      * destruct (Nat.leb_spec (S i) index); [|lia].
        replace (index - i)%nat with (S (index - S i)) by lia.
        reflexivity.
      * destruct (Nat.leb_spec (S i) index); [lia|reflexivity].
Qed.

(** X23.  [handleRemove] removes exactly the entry at the index it is
    given, keeping the others in order; an index past the end removes
    nothing. *)
Theorem handleRemove_removes_one subreddits index :
  web.handleRemove subreddits index
  = firstn index subreddits ++ skipn (S index) subreddits /\
  ((index < List.length subreddits)%nat ->
   S (List.length (web.handleRemove subreddits index))
   = List.length subreddits) /\
  ((List.length subreddits <= index)%nat ->
   web.handleRemove subreddits index = subreddits).
Proof.
  unfold web.handleRemove. rewrite filterIndex_spec.
  cbn [Nat.leb]. rewrite Nat.sub_0_r.
  split; [reflexivity|]. split.
  - intros Hlt. rewrite length_app, length_firstn, length_skipn. lia.
  - intros Hge. rewrite firstn_all2 by assumption.
    rewrite skipn_all2 by lia. apply app_nil_r.
Qed.

End SubredditsList.

(** The backend answers 500: the rejection carries its error text. *)
Lemma searchRedditPosts_rejection_witness :
  web.ToBoolean
    (web.JSString "error getting topic embedding: LLM service unavailable")
  = true.
Proof.
  exact (proj1 (searchRedditPosts_rejection (fun v => inl v)
                  fixtures.failingBackend fixtures.zeroThresholdParams tt
                  _ _ _ eq_refl)).
Defined.
